(** * run-perf: the comparison engine of [runperf/result.py]

    A shallow embedding of the statistical comparison and classification
    code (uncertainty table, weighted multi-model scoring, grouped
    results, exit code, xunit classes, closest-result matching) together
    with the properties the specification states about it.

    Conventions of the embedding.
    - Python numbers ([int] and [float]) are exact rationals [Q]; [==] on
      numbers is [Qeq_bool], the order is [Qle_bool].  Status codes and
      sample counts, which are Python [int]s, are [Z] resp. [nat].
    - A measured value is a number or a text ([value]); an operation that
      Python refuses on a text raises, which the embedding returns as
      [Raise].
    - Exceptions are results: a function that can raise returns [outcome A].
    - Objects mutated in place (the records of a [RelativeResults], the
      shared [AveragesModel]) are passed and returned explicitly.
    - Python dictionaries keep insertion order; they are association lists
      ([dict]).
    - Calls to the logger only write log lines and are left out. *)

From Stdlib Require Import ZArith QArith Qabs List String Ascii Bool Lia Lqa.
Import ListNotations.
Open Scope string_scope.
Open Scope Q_scope.

(** ** Python results and exceptions *)

Inductive exn : Type :=
| ValueError
| TypeError
| ZeroDivisionError
| IndexError
| KeyError.

Inductive outcome (A : Type) : Type :=
| Ok (a : A)
| Raise (e : exn).

Arguments Ok {A} a.
Arguments Raise {A} e.

Definition bind {A B : Type} (m : outcome A) (k : A -> outcome B) : outcome B :=
  match m with
  | Ok a => k a
  | Raise e => Raise e
  end.

Notation "x <- m ;; k" := (bind m (fun x => k))
  (at level 61, m at next level, right associativity).
Notation "' p <- m ;; k" := (bind m (fun x => match x with p => k end))
  (at level 61, p pattern, m at next level, right associativity).

(** [mapM f l]: a comprehension [[f(x) for x in l]] whose body can raise. *)
Fixpoint mapM {A B : Type} (f : A -> outcome B) (l : list A) : outcome (list B) :=
  match l with
  | [] => Ok []
  | x :: l' => y <- f x ;; ys <- mapM f l' ;; Ok (y :: ys)
  end.

(** ** Numbers *)

Definition Qlt_bool (x y : Q) : bool := negb (Qle_bool y x).

(** Python's [a / b]. *)
Definition pydiv (a b : Q) : outcome Q :=
  if Qeq_bool b 0 then Raise ZeroDivisionError else Ok (a / b).

(** [sum(l)], from the left as Python adds. *)
Definition Qsum (l : list Q) : Q := fold_left Qplus l 0.

(** [numpy.average(l)]; the code calls it on non-empty lists only. *)
Definition average (l : list Q) : Q :=
  Qsum l / inject_Z (Z.of_nat (List.length l)).

(** ** [get_uncertainty] *)

Definition coefficients : list Q :=
  [7; 23 # 10; 17 # 10; 14 # 10; 13 # 10; 13 # 10; 12 # 10; 12 # 10].

Definition get_uncertainty (no_samples : Z) : outcome Q :=
  if (no_samples <=? 0)%Z then Raise ValueError
  else if (no_samples <=? 8)%Z then
    match nth_error coefficients (Z.to_nat (no_samples - 1)) with
    | Some c => Ok c
    | None => Raise IndexError
    end
  else Ok 1.


(** ** Strings *)

(** [s.endswith(suffix)]: some tail of [s] is [suffix]. *)
Fixpoint endswith (s suffix : string) : bool :=
  String.eqb s suffix
  || match s with
     | EmptyString => false
     | String _ s' => endswith s' suffix
     end.

(** [s[:-n]] *)
Definition drop_last (n : nat) (s : string) : string :=
  substring 0 (String.length s - n) s.

(** [s.rsplit(c, 1)]: [None] stands for the one-element list [[s]],
    [Some (l, r)] for [[l, r]], split at the last [c]. *)
Fixpoint rsplit1 (c : ascii) (s : string) : option (string * string) :=
  match s with
  | EmptyString => None
  | String a s' =>
      match rsplit1 c s' with
      | Some (l, r) => Some (String a l, r)
      | None => if Ascii.eqb a c then Some (EmptyString, s') else None
      end
  end.

(** [s.split(c, 1)]: the same, split at the first [c]. *)
Fixpoint split1 (c : ascii) (s : string) : option (string * string) :=
  match s with
  | EmptyString => None
  | String a s' =>
      if Ascii.eqb a c then Some (EmptyString, s')
      else match split1 c s' with
           | Some (l, r) => Some (String a l, r)
           | None => None
           end
  end.

(** [x in l] for a list of strings. *)
Definition str_in (x : string) (l : list string) : bool :=
  existsb (String.eqb x) l.

(** [l.remove(x)]: drops the first occurrence. *)
Fixpoint str_remove (x : string) (l : list string) : outcome (list string) :=
  match l with
  | [] => Raise ValueError
  | y :: l' =>
      if String.eqb y x then Ok l'
      else l'' <- str_remove x l' ;; Ok (y :: l'')
  end.

(** ** Dictionaries *)

Definition dict (V : Type) : Type := list (string * V).

Fixpoint dict_get {V : Type} (d : dict V) (k : string) : option V :=
  match d with
  | [] => None
  | (k', v) :: d' => if String.eqb k' k then Some v else dict_get d' k
  end.

(** [d[k] = v]: an existing key keeps its place, a new one goes last. *)
Fixpoint dict_set {V : Type} (d : dict V) (k : string) (v : V) : dict V :=
  match d with
  | [] => [(k, v)]
  | (k', v') :: d' =>
      if String.eqb k' k then (k', v) :: d' else (k', v') :: dict_set d' k v
  end.

Definition dict_mem {V : Type} (d : dict V) (k : string) : bool :=
  match dict_get d k with Some _ => true | None => false end.

Definition dict_keys {V : Type} (d : dict V) : list string := map fst d.

(** [{k: v for k, v in l}] *)
Definition dict_of_list {V : Type} (l : list (string * V)) : dict V :=
  fold_left (fun d kv => dict_set d (fst kv) (snd kv)) l [].

(** ** Measured values *)

Inductive value : Type :=
| VNum (q : Q)
| VStr (s : string).

(** [a == b] *)
Definition value_eqb (a b : value) : bool :=
  match a, b with
  | VNum x, VNum y => Qeq_bool x y
  | VStr x, VStr y => String.eqb x y
  | _, _ => false
  end.

(** [bool(v)] *)
Definition truthy (v : value) : bool :=
  match v with
  | VNum q => negb (Qeq_bool q 0)
  | VStr s => negb (String.eqb s EmptyString)
  end.

(** A value as an operand of [-], [*] or [abs]. *)
Definition as_num (v : value) : outcome Q :=
  match v with
  | VNum q => Ok q
  | VStr _ => Raise TypeError
  end.

(** Keys of a parameter bag: iteration indexes and names. *)
Inductive pkey : Type :=
| KInt (i : Z)
| KStr (s : string).

Definition params_t : Type := list (pkey * string).

(** What a measurement source yields: [(test_name, score, primary, params)]. *)
Record measurement : Type := mk_measurement {
  m_test : string;
  m_score : value;
  m_primary : bool;
  m_params : params_t
}.

(** ** Statuses *)

Definition PASS : Z := 0.
Definition SKIP : Z := 99.
Definition MINOR_GAIN : Z := 1.
Definition MINOR_LOSS : Z := 2.
Definition FAIL_LOSS : Z := (-1).
Definition FAIL : Z := FAIL_LOSS.
Definition FAIL_GAIN : Z := (-3).
Definition ERROR : Z := (-2).

Definition STATUS_MAP (status : Z) : outcome string :=
  if (status =? PASS)%Z then Ok "PASS"
  else if (status =? MINOR_GAIN)%Z then Ok "PASS"
  else if (status =? MINOR_LOSS)%Z then Ok "PASS"
  else if (status =? FAIL)%Z then Ok "FAIL"
  else if (status =? ERROR)%Z then Ok "ERR "
  else if (status =? SKIP)%Z then Ok "ERR "
  else if (status =? FAIL_GAIN)%Z then Ok "ERR "
  else Raise KeyError.

(** ** Library functions the code calls

    The text parser behind [float(s)], the regular-expression engine
    behind [Result._re_name.match] and the functions of [math] are not
    part of the repository: the embedding takes them as given. *)

(** [float(s)] for a text [s]; [None] when Python raises [ValueError]. *)
Class Builtins : Type := {
  float_of_str : string -> option Q
}.

(** The groups 1 to 7 of a match of [Result._re_name]. *)
Record name_groups : Type := mk_name_groups {
  g_profile : string;
  g_test : string;
  g_serial : string;
  g_iteration : string;
  g_workflow : string;
  g_workflow_type : string;
  g_check_type : string
}.

(** [Result._re_name.match(name)]; [None] when there is no match. *)
Class Regex : Type := {
  re_name_match : string -> option name_groups
}.

(** [math.exp], [x ** .5] and [math.pi]. *)
Class MathLib : Type := {
  math_exp : Q -> Q;
  math_sqrt : Q -> Q;
  math_pi : Q
}.

(** [float(v)] *)
Definition as_float `{Builtins} (v : value) : outcome Q :=
  match v with
  | VNum q => Ok q
  | VStr s =>
      match float_of_str s with
      | Some q => Ok q
      | None => Raise ValueError
      end
  end.

(** ** Formatted text

    The code renders numbers into its messages with [%s] and [%.2f];
    the embedding keeps a message as its pieces, the values not yet
    rendered. *)

Inductive piece : Type :=
| Lit (s : string)
| Shown (v : value).

Definition text : Type := list piece.

(** ["%s%s %.2F%%" % (name, model_idx, difference)]; the index is empty
    ([None]) for the raw and the averages opinion. *)
Record opinion_msg : Type := mk_opinion_msg {
  msg_name : string;
  msg_idx : option nat;
  msg_difference : Q
}.

(** The details text [WeightedResult.report] builds: the non-empty
    sections in report order, then ["(srcs; dst)"], then
    ["+-tolerance% tolerance"]. *)
Record report_text : Type := mk_report_text {
  shown_sections : list (string * list opinion_msg);
  shown_srcs : list value;
  shown_dst : value;
  shown_tolerance : Q
}.

Inductive details_t : Type :=
| Message (t : text)
| Report (r : report_text).

(** ** [class Result] *)

Module Result.

Record t : Type := mk {
  status : Z;
  score : Q;
  classname : string;
  testname : string;
  details : option details_t;
  primary : bool;
  src : value;
  dst : value;
  params : params_t
}.

(** [Result.__init__]; the [ValueError] branch needs an empty list from
    [rsplit] and cannot be reached. *)
Definition init (status : Z) (score : Q) (test : string) (src dst : value)
    (details : option details_t) (primary : bool)
    (params : option params_t) : t :=
  let name :=
    match rsplit1 "/" test with
    | Some (c, n) => (c, n)
    | None => ("<undefined>", test)
    end in
  mk status score (fst name) (snd name) details primary src dst
     (match params with None => [] | Some p => p end).

Definition is_stddev (self : t) : bool := endswith (testname self) "stddev".

Definition name (self : t) : string :=
  classname self ++ "/" ++ testname self.

(** [get_merged_name]: a [merge] that is [None] or empty gives the
    name; subscripting a failed match raises [TypeError]. *)
Definition get_merged_name `{Regex} (self : t) (merge : list string)
  : outcome string :=
  match merge with
  | [] => Ok (name self)
  | _ =>
      match re_name_match (name self) with
      | None => Raise TypeError
      | Some split_name =>
          let star (field : string) (v : string) : string :=
            if str_in field merge then "*" else v in
          let iteration :=
            match split1 "-" (g_iteration split_name) with
            | Some (iteration_name, iteration_name_extra) =>
                (iteration_name, iteration_name_extra)
            | None => (g_iteration split_name, "*")
            end in
          Ok (star "profile" (g_profile split_name) ++ "/"
              ++ star "test" (g_test split_name) ++ "/"
              ++ star "serial" (g_serial split_name) ++ ":./"
              ++ star "iteration_name" (fst iteration) ++ "-"
              ++ star "iteration_name_extra" (snd iteration) ++ "/"
              ++ star "workflow" (g_workflow split_name) ++ "/"
              ++ star "workflow_type" (g_workflow_type split_name) ++ "."
              ++ star "check_type" (g_check_type split_name))
      end
  end.

End Result.

(** ** Models *)

(** One entry of the list a model's [check_result] returns:
    [(check_name, difference, weight)] or
    [(check_name, difference, weight, source_value)]. *)
Record opinion : Type := mk_opinion {
  o_name : string;
  o_difference : Q;
  o_weight : Q;
  o_src : option value
}.

(** [class Model]: the interface [record_result] uses. *)
Record Model : Type := mk_Model {
  check_result : string -> value -> value -> outcome (list opinion)
}.

Module ModelLinearRegression.

(** An entry of [self.model]: [{"equation": [a, b], "raw": raw}]. *)
Record entry : Type := mk_entry {
  equation : Q * Q;
  raw : option Q
}.

Definition check_result `{Builtins} (model : dict entry)
    (test_name : string) (src dst : value) : outcome (list opinion) :=
  match dict_get model test_name with
  | None => Ok []
  | Some m =>
      d <- as_num dst ;;
      let msrc := raw m in
      let out :=
        [mk_opinion "model" (fst (equation m) * d + snd (equation m)) 1
                    (option_map VNum msrc)] in
      match msrc with
      | None => Ok out
      | Some msrc =>
          mrawdiff <-
            (if endswith test_name "mean" then
               if value_eqb src (VNum 0) then Ok 0
               else
                 f <- as_float dst ;;
                 q <- pydiv (f - msrc) (Qabs msrc) ;;
                 Ok (q * 100)
             else Ok (msrc - d)) ;;
          Ok (out ++ [mk_opinion "mraw" mrawdiff 0 None])%list
      end
  end.


End ModelLinearRegression.

Module AveragesModel.

Record t : Type := mk {
  averages : dict (Q * nat);
  weight : Q;
  last : bool
}.

Definition COEFFICIENT : Q := 2.

(** [AveragesModel(weight)] *)
Definition init (weight : Q) : t := mk [] weight false.

Definition set_last (self : t) : t := mk (averages self) (weight self) true.

(** [check_result]: returns the opinions and the updated model. *)
Definition check_result (self : t) (name : string) (score : Q)
  : outcome (list opinion * t) :=
  let old :=
    match dict_get (averages self) name with
    | Some e => e
    | None => (0, 0%nat)
    end in
  let self' :=
    mk (dict_set (averages self) name (fst old + score, S (snd old)))
       (weight self) (last self) in
  if negb (last self') then Ok ([], self')
  else
    match dict_get (averages self') name with
    | Some entry =>
        avg <- pydiv (fst entry) (inject_Z (Z.of_nat (snd entry))) ;;
        let score := avg * COEFFICIENT in
        weight <-
          (if (snd entry <? 8)%nat then
             u <- get_uncertainty (Z.of_nat (snd entry)) ;;
             pydiv (weight self') u
           else Ok (weight self')) ;;
        Ok ([mk_opinion "avg" score weight None], self')
    | None => Ok ([], self')
    end.

End AveragesModel.

(** ** [class WeightedResult] (local to [record_result]) *)

Module WeightedResult.

(** [tolerance] is [None] when [record_result] got a difference but no
    tolerance; comparing a number with it raises [TypeError]. *)
Record t : Type := mk {
  srcs : list value;
  dst : value;
  tolerance : option Q;
  good : list opinion_msg;
  small : list opinion_msg;
  big : list opinion_msg;
  agg_diffs : Q;
  agg_weights : Q
}.

Definition init (dst : value) (tolerance : option Q) : t :=
  mk [] dst tolerance [] [] [] 0 0.

(** [add]: the [tolerance] it compares with is the variable of
    [record_result] the object was built from. *)
Definition add (self : t) (model_idx : option nat) (name : string)
    (difference weight : Q) (src : option value) : outcome t :=
  let agg_diffs' := agg_diffs self + difference * weight in
  let agg_weights' := agg_weights self + weight in
  let msg := mk_opinion_msg name model_idx difference in
  let srcs' :=
    match src with
    | Some s => (srcs self ++ [s])%list
    | None => srcs self
    end in
  match tolerance self with
  | None => Raise TypeError
  | Some tol =>
      if Qlt_bool tol (Qabs difference) then
        if Qlt_bool 0 difference then
          Ok (mk srcs' (dst self) (tolerance self) (good self) (small self)
                 (big self ++ [msg])%list agg_diffs' agg_weights')
        else
          Ok (mk srcs' (dst self) (tolerance self) (good self)
                 (small self ++ [msg])%list (big self) agg_diffs'
                 agg_weights')
      else
        Ok (mk srcs' (dst self) (tolerance self) (good self ++ [msg])%list
               (small self) (big self) agg_diffs' agg_weights')
  end.

(** [msg.add(idx, *result)] for every result of a list. *)
Fixpoint add_all (self : t) (model_idx : option nat) (results : list opinion)
  : outcome t :=
  match results with
  | [] => Ok self
  | r :: rest =>
      self' <- add self model_idx (o_name r) (o_difference r) (o_weight r)
                   (o_src r) ;;
      add_all self' model_idx rest
  end.

Definition score (self : t) : outcome Q :=
  pydiv (agg_diffs self) (agg_weights self).

(** The status [report] chooses for a score. *)
Definition classify (diff tolerance : Q) : Z :=
  if Qle_bool (Qabs diff) tolerance then
    let minor_tolerance := tolerance / 2 in
    if Qlt_bool minor_tolerance diff then MINOR_GAIN
    else if Qlt_bool diff minor_tolerance then MINOR_LOSS
    else PASS
  else
    if Qlt_bool 0 diff then FAIL_GAIN else FAIL_LOSS.

(** The order in which [report] lists the sections. *)
Definition report_order (diff tolerance : Q) : list string :=
  if Qle_bool (Qabs diff) tolerance then ["good"; "big"; "small"]
  else if Qlt_bool 0 diff then ["big"; "good"; "small"]
  else ["small"; "good"; "big"].

(** [getattr(self, section)] *)
Definition section_values (self : t) (section : string) : list opinion_msg :=
  if String.eqb section "good" then good self
  else if String.eqb section "small" then small self
  else big self.

Definition upper (section : string) : string :=
  if String.eqb section "good" then "GOOD"
  else if String.eqb section "small" then "SMALL"
  else "BIG".

(** [report]; [test_name], [primary] and [params] are the variables of
    the enclosing [record_result]. *)
Definition report (self : t) (test_name : string) (primary : bool)
    (params : option params_t) : outcome Result.t :=
  diff <- score self ;;
  match tolerance self with
  | None => Raise TypeError
  | Some tol =>
      let status := classify diff tol in
      let out :=
        flat_map
          (fun section =>
             match section_values self section with
             | [] => []
             | values => [(upper section, values)]
             end)
          (report_order diff tol) in
      match List.last (map Some (srcs self)) None with
      | None => Raise IndexError
      | Some src =>
          Ok (Result.init status diff test_name src (dst self)
                (Some (Report (mk_report_text out (srcs self) (dst self)
                                              tol)))
                primary params)
      end
  end.

End WeightedResult.

(** ** [class RelativeResults] *)

Module RelativeResults.

(** [self.averages] is the [AveragesModel] of the container, shared by
    all its [RelativeResults]: the methods that use it take it as an
    argument and return it updated. *)
Record t : Type := mk {
  mean_tolerance : Q;
  stddev_tolerance : Q;
  records : list Result.t;
  grouped_records : list Result.t;
  models : list Model;
  metadata : dict string
}.

Definition init (mean_tolerance stddev_tolerance : Q) (models : list Model)
    (metadata : dict string) : t :=
  mk mean_tolerance stddev_tolerance [] [] models metadata.

Definition record (self : t) (result : Result.t) (grouped : bool) : t :=
  if grouped then
    mk (mean_tolerance self) (stddev_tolerance self) (records self)
       (grouped_records self ++ [result])%list (models self) (metadata self)
  else
    mk (mean_tolerance self) (stddev_tolerance self)
       (records self ++ [result])%list (grouped_records self) (models self)
       (metadata self).

Definition record_broken (self : t) (test_name : string)
    (details : option details_t) (primary : bool)
    (params : option params_t) : t :=
  record self
    (Result.init ERROR (-100) test_name (VNum 0) (VNum (-100)) details
                 primary params)
    false.

Definition _calculate_test_difference `{Builtins} (self : t)
    (test_name : string) (src dst : value) : outcome (Q * Q) :=
  if endswith test_name "mean" then
    if value_eqb src (VNum 0) then Ok (0, mean_tolerance self)
    else
      d <- as_float dst ;;
      s <- as_num src ;;
      q <- pydiv (d - s) (Qabs s) ;;
      Ok (q * 100, mean_tolerance self)
  else if endswith test_name "stddev" then
    s <- as_num src ;;
    d <- as_num dst ;;
    Ok (s - d, stddev_tolerance self)
  else
    Ok (if value_eqb src dst then 0 else 1, 0).

(** The loop over [enumerate(self.models)], from index [i]. *)
Fixpoint add_models (msg : WeightedResult.t) (i : nat) (models : list Model)
    (test_name : string) (src dst : value) : outcome WeightedResult.t :=
  match models with
  | [] => Ok msg
  | model :: rest =>
      results <- check_result model test_name src dst ;;
      msg' <- WeightedResult.add_all msg (Some i) results ;;
      add_models msg' (S i) rest test_name src dst
  end.

(** [record_result] in its four steps.  First the difference and the
    tolerance: computed from the test name unless a difference came
    with the call. *)
Definition difference_and_tolerance `{Builtins} (self : t)
    (test_name : string) (src dst : value) (difference tolerance : option Q)
  : outcome (Q * option Q) :=
  match difference with
  | None =>
      '(d, tol) <- _calculate_test_difference self test_name src dst ;;
      Ok (d, Some tol)
  | Some d => Ok (d, tolerance)
  end.

(** [raw_weight], from the weights the models added. *)
Definition raw_weight (msg : WeightedResult.t) : Q :=
  if Qeq_bool (WeightedResult.agg_weights msg) 0 then 1 else 0.

(** Second the opinions of the models, then the raw difference. *)
Definition weigh (self : t) (test_name : string) (src dst : value)
    (difference : Q) (tolerance : option Q) : outcome WeightedResult.t :=
  let msg := WeightedResult.init dst tolerance in
  msg <- add_models msg 0 (models self) test_name src dst ;;
  WeightedResult.add msg None "raw" difference (raw_weight msg) (Some src).

(** Third the averages model, which is given the score so far. *)
Definition weigh_averages (msg : WeightedResult.t)
    (averages : AveragesModel.t) (test_name : string)
  : outcome (WeightedResult.t * AveragesModel.t) :=
  score <- WeightedResult.score msg ;;
  '(results, averages') <-
    AveragesModel.check_result averages test_name score ;;
  msg' <- WeightedResult.add_all msg None results ;;
  Ok (msg', averages').

(** Last the report.  [record_result] returns the Result, the object
    with the Result recorded and the averages model. *)
Definition record_result `{Builtins} (self : t) (averages : AveragesModel.t)
    (test_name : string) (src dst : value) (primary grouped : bool)
    (difference tolerance : option Q) (params : option params_t)
  : outcome (Result.t * t * AveragesModel.t) :=
  '(difference, tolerance) <-
    difference_and_tolerance self test_name src dst difference tolerance ;;
  msg <- weigh self test_name src dst difference tolerance ;;
  '(msg, averages') <- weigh_averages msg averages test_name ;;
  result <- WeightedResult.report msg test_name primary params ;;
  Ok (result, record self result grouped, averages').

(** The element [get_xunit] attaches to the testcase of a status:
    [None] when the status is not below [PASS]. *)
Definition element_type (status : Z) : option string :=
  if (status <? PASS)%Z then
    if (status =? FAIL_GAIN)%Z then Some "skipped"
    else if (status =? FAIL)%Z || (status =? FAIL_LOSS)%Z then Some "failure"
    else Some "error"
  else None.

(** A [testcase] element: class name, name and the child element with
    its message. *)
Record testcase : Type := mk_testcase {
  tc_classname : string;
  tc_name : string;
  tc_element : option (string * option details_t)
}.

(** The [testsuite] element, without its timestamp. *)
Record testsuite : Type := mk_testsuite {
  ts_testcases : list testcase;
  ts_tests : nat;
  ts_errors : nat;
  ts_failures : nat;
  ts_skipped : nat
}.

Definition count_type (ty : string) (l : list testcase) : nat :=
  List.length
    (filter (fun tc =>
               match tc_element tc with
               | Some (ty', _) => String.eqb ty' ty
               | None => false
               end) l).

Definition get_xunit (self : t) : outcome testsuite :=
  testcases <-
    mapM (fun test =>
            match rsplit1 "/" (Result.name test) with
            | None => Raise IndexError
            | Some (c, n) =>
                Ok (mk_testcase c n
                      (match element_type (Result.status test) with
                       | Some ty => Some (ty, Result.details test)
                       | None => None
                       end))
            end)
         (filter Result.primary (records self ++ grouped_records self)) ;;
  Ok (mk_testsuite testcases (List.length (records self))
        (count_type "error" testcases) (count_type "failure" testcases)
        (count_type "skipped" testcases)).

(** The first loop of [_expand_grouped_result]: the scores per merged
    name, in [values]. *)
Fixpoint group_scores `{Regex} (records : list Result.t)
    (merge : list string) (values : dict (list Q)) : outcome (dict (list Q)) :=
  match records with
  | [] => Ok values
  | record :: rest =>
      record_id <- Result.get_merged_name record merge ;;
      let old :=
        match dict_get values record_id with
        | Some l => l
        | None => []
        end in
      group_scores rest merge
        (dict_set values record_id (old ++ [Result.score record])%list)
  end.

(** The tolerance of a group of [n] results. *)
Definition grouped_tolerance (self : t) (n : nat) : outcome Q :=
  u <- get_uncertainty (Z.of_nat n) ;;
  Ok (mean_tolerance self * u / 2).

(** The second loop of [_expand_grouped_result]. *)
Fixpoint record_groups `{Builtins} (self : t) (averages : AveragesModel.t)
    (groups : list (string * list Q)) : outcome (t * AveragesModel.t) :=
  match groups with
  | [] => Ok (self, averages)
  | (test_name, values) :: rest =>
      let value := average values in
      tolerance <- grouped_tolerance self (List.length values) ;;
      '(_, self', averages') <-
        record_result self averages test_name (VNum value) (VNum value)
                      true true (Some value) (Some tolerance) None ;;
      record_groups self' averages' rest
  end.

Definition _expand_grouped_result `{Builtins} `{Regex} (self : t)
    (averages : AveragesModel.t) (records : list Result.t)
    (merge : list string) : outcome (t * AveragesModel.t) :=
  values <- group_scores records merge [] ;;
  record_groups self averages values.

Definition expand_grouped_results `{Builtins} `{Regex} (self : t)
    (averages : AveragesModel.t) : outcome (t * AveragesModel.t) :=
  let records :=
    filter (fun record =>
              Result.primary record
              && negb (Result.status record =? ERROR)%Z
              && negb (Result.is_stddev record))
           (records self) in
  '(self, averages) <-
    _expand_grouped_result self averages records ["iteration_name_extra"] ;;
  '(self, averages) <-
    _expand_grouped_result self averages records
      ["iteration_name_extra"; "profile"] ;;
  _expand_grouped_result self averages records
    ["test"; "serial"; "iteration_name"; "iteration_name_extra";
     "workflow"; "workflow_type"].

(** The three counters of [finish]. *)
Definition count_failures (self : t) : nat * nat * nat :=
  let failed := fun record => (Result.status record <? 0)%Z in
  (List.length
     (filter (fun r => failed r && Result.primary r) (records self)),
   List.length
     (filter (fun r => failed r && negb (Result.primary r)) (records self)),
   List.length (filter failed (grouped_records self))).

Definition finish (self : t) : Z :=
  let '(failures, non_primary_failures, grouped_failures) :=
    count_failures self in
  if negb (failures =? 0)%nat || negb (grouped_failures =? 0)%nat then 2%Z
  else
    match records self with
    | [] => 3%Z
    | _ => 0%Z
    end.

End RelativeResults.

(** ** [class ResultsContainer] *)

Module ResultsContainer.

Record t : Type := mk {
  tolerance : Q;
  stddev_tolerance : Q;
  averages : AveragesModel.t;
  models : list Model;
  results : dict RelativeResults.t;
  src_name : string;
  src_results : dict (value * bool * params_t);
  src_metadata : dict string
}.

(** [__init__]; [src] is what [iter_results(src_path, True)] yields and
    [src_metadata] the parsed metadata file. *)
Definition init (tolerance stddev_tolerance averages : Q)
    (models : list Model) (src_name : string) (src : list measurement)
    (src_metadata : dict string) : t :=
  mk tolerance stddev_tolerance (AveragesModel.init averages) models []
     src_name
     (dict_of_list
        (map (fun m => (m_test m, (m_score m, m_primary m, m_params m)))
             src))
     src_metadata.

(** The first loop of [add_result_by_path], over the destination's
    measurements. *)
Fixpoint add_dst_results `{Builtins} (self : t) (res : RelativeResults.t)
    (averages : AveragesModel.t) (src_tests : list string)
    (dst : list measurement)
  : outcome (RelativeResults.t * AveragesModel.t * list string) :=
  match dst with
  | [] => Ok (res, averages, src_tests)
  | m :: rest =>
      if str_in (m_test m) src_tests then
        match dict_get (src_results self) (m_test m) with
        | None => Raise KeyError
        | Some (src_score, _, _) =>
            '(_, res', averages') <-
              RelativeResults.record_result res averages (m_test m)
                src_score (m_score m) (m_primary m) false None None
                (Some (m_params m)) ;;
            src_tests' <- str_remove (m_test m) src_tests ;;
            add_dst_results self res' averages' src_tests' rest
        end
      else
        add_dst_results self
          (RelativeResults.record_broken res (m_test m)
             (Some (Message [Lit "Not present in source results (";
                             Shown (m_score m); Lit ")."]))
             (m_primary m) (Some (m_params m)))
          averages src_tests rest
  end.

(** The second loop, over the source tests no destination measurement
    matched. *)
Fixpoint add_missing (self : t) (res : RelativeResults.t)
    (src_tests : list string) : outcome RelativeResults.t :=
  match src_tests with
  | [] => Ok res
  | missing_test :: rest =>
      match dict_get (src_results self) missing_test with
      | None => Raise KeyError
      | Some (_, primary, _) =>
          add_missing self
            (RelativeResults.record_broken res missing_test
               (Some (Message [Lit "Not present in target results (";
                               Shown (VNum (-100)); Lit ")"]))
               primary None)
            rest
      end
  end.

(** [add_result_by_path]; [metadata] and [dst] are what the metadata
    file and [iter_results(path, True)] give for [path]. *)
Definition add_result_by_path `{Builtins} (self : t) (name : string)
    (metadata : dict string) (dst : list measurement) (last : bool)
  : outcome (RelativeResults.t * t) :=
  let averages :=
    if last then AveragesModel.set_last (averages self)
    else averages self in
  let res :=
    RelativeResults.init (tolerance self) (stddev_tolerance self)
                         (models self) metadata in
  let src_tests := dict_keys (src_results self) in
  '(res, averages, src_tests) <-
    add_dst_results self res averages src_tests dst ;;
  res <- add_missing self res src_tests ;;
  Ok (res,
      mk (tolerance self) (stddev_tolerance self) averages (models self)
         (dict_set (results self) name res) (src_name self)
         (src_results self) (src_metadata self)).

End ResultsContainer.

(** ** [closest_result] *)

Module Closest.

(** [max(l)] and [min(l)]: the first of the largest (smallest) items. *)
Definition pymax (l : list Q) : outcome Q :=
  match l with
  | [] => Raise ValueError
  | x :: l' => Ok (fold_left (fun m y => if Qlt_bool m y then y else m) l' x)
  end.

Definition pymin (l : list Q) : outcome Q :=
  match l with
  | [] => Raise ValueError
  | x :: l' => Ok (fold_left (fun m y => if Qlt_bool y m then y else m) l' x)
  end.

(** [l[i]] *)
Definition item {A : Type} (l : list A) (i : nat) : outcome A :=
  match nth_error l i with
  | Some x => Ok x
  | None => Raise IndexError
  end.

(** [l[i] = f(l[i])] *)
Fixpoint set_item {A : Type} (l : list A) (i : nat) (f : A -> A)
  : outcome (list A) :=
  match l, i with
  | [], _ => Raise IndexError
  | x :: l', O => Ok (f x :: l')
  | x :: l', S i' => l'' <- set_item l' i' f ;; Ok (x :: l'')
  end.

Definition norm_normpdf `{Builtins} `{MathLib} (x : value)
    (mean : option value) (sd : Q) : outcome Q :=
  let var := sd * sd in
  let denom := math_sqrt (2 * math_pi * var) in
  x' <- as_float x ;;
  mean' <- match mean with
           | Some m => as_float m
           | None => Raise TypeError
           end ;;
  e <- pydiv (- ((x' - mean') * (x' - mean'))) (2 * var) ;;
  let num := math_exp e in
  q <- pydiv num denom ;;
  Ok (q * sd * (251 # 100)).

(** [storage.count(score)] *)
Definition count (storage : list Q) (score : Q) : nat :=
  List.length (filter (fun v => Qeq_bool v score) storage).

(** [enumerate(l)], counting from [i]. *)
Fixpoint enumerate_from {A : Type} (i : nat) (l : list A) : list (nat * A) :=
  match l with
  | [] => []
  | x :: l' => (i, x) :: enumerate_from (S i) l'
  end.

(** The [for] loop of [process_score]: the first item of the selection
    that has the score, if any. *)
Fixpoint first_with (storage : list Q) (score : Q) (selection : list nat)
  : outcome (option nat) :=
  match selection with
  | [] => Ok None
  | i :: rest =>
      v <- item storage i ;;
      if Qeq_bool v score then Ok (Some i)
      else first_with storage score rest
  end.

(** [process_score]: an index ([inl]) or the list of the indexes that
    share the best score ([inr]). *)
Definition process_score (storage : list Q) (selection : list nat)
  : outcome (nat + list nat) :=
  scores <- mapM (item storage) selection ;;
  score <- pymax scores ;;
  let ties :=
    map fst
        (filter (fun iv => existsb (Nat.eqb (fst iv)) selection
                           && Qeq_bool (snd iv) score)
                (enumerate_from 0 storage)) in
  if (count storage score =? 1)%nat then
    found <- first_with storage score selection ;;
    match found with
    | Some i => Ok (inl i)
    | None => Ok (inr ties)
    end
  else Ok (inr ties).

(** The selection loop that ends [closest_result]. *)
Fixpoint select (stats : list (list Q)) (selection : list nat)
  : outcome nat :=
  match stats with
  | [] => item selection 0
  | values :: rest =>
      ret <- process_score values selection ;;
      match ret with
      | inl i => Ok i
      | inr selection' => select rest selection'
      end
  end.

(** A row of [storage]: per destination [[score, stddev]]. *)
Definition row : Type := list (option value * option value).

(** [storage[name][idx][k] = score] on the [defaultdict]. *)
Definition storage_set (no_results : nat) (storage : dict row)
    (name : string) (idx : nat)
    (f : option value * option value -> option value * option value)
  : outcome (dict row) :=
  let old :=
    match dict_get storage name with
    | Some r => r
    | None => repeat (None, None) no_results
    end in
  new <- set_item old idx f ;;
  Ok (dict_set storage name new).

(** The inner loop of [_process_results], for the destination [idx]. *)
Fixpoint process_path (no_results : nat) (storage : dict row) (idx : nat)
    (results : list measurement) : outcome (dict row) :=
  match results with
  | [] => Ok storage
  | m :: rest =>
      if endswith (m_test m) "stddev" then
        if value_eqb (m_score m) (VNum 0) then
          process_path no_results storage idx rest
        else
          storage' <-
            storage_set no_results storage (drop_last 7 (m_test m)) idx
                        (fun e => (fst e, Some (m_score m))) ;;
          process_path no_results storage' idx rest
      else
        let name :=
          match rsplit1 "." (m_test m) with
          | Some (l, _) => l
          | None => m_test m
          end in
        storage' <-
          storage_set no_results storage name idx
                      (fun e => (Some (m_score m), snd e)) ;;
        process_path no_results storage' idx rest
  end.

Fixpoint process_paths (no_results : nat) (storage : dict row)
    (paths : list (nat * list measurement)) : outcome (dict row) :=
  match paths with
  | [] => Ok storage
  | (idx, results) :: rest =>
      storage' <- process_path no_results storage idx results ;;
      process_paths no_results storage' rest
  end.

(** [_process_results]; [dst_paths] holds what [iter_results] yields
    for each path. *)
Definition _process_results (dst_paths : list (list measurement))
  : outcome (dict row) :=
  process_paths (List.length dst_paths) [] (enumerate_from 0 dst_paths).

(** An entry of [src]: [[score, primary, stddev]]. *)
Definition src_entry : Type := option value * bool * option value.

Fixpoint process_src (src : dict src_entry) (results : list measurement)
  : dict src_entry :=
  match results with
  | [] => src
  | m :: rest =>
      if endswith (m_test m) "stddev" then
        let name := drop_last 7 (m_test m) in
        match dict_get src name with
        | None =>
            process_src
              (dict_set src name (None, m_primary m, Some (m_score m))) rest
        | Some (score, primary, _) =>
            process_src
              (dict_set src name (score, primary, Some (m_score m))) rest
        end
      else
        let name :=
          match rsplit1 "." (m_test m) with
          | Some (l, _) => l
          | None => m_test m
          end in
        match dict_get src name with
        | None =>
            process_src
              (dict_set src name (Some (m_score m), m_primary m, None)) rest
        | Some (_, primary, stddev) =>
            process_src
              (dict_set src name
                 (Some (m_score m), primary || m_primary m, stddev))
              rest
        end
  end.

Definition _process_src (results : list measurement) : dict src_entry :=
  process_src [] results.

(** [_distance(i, score)] for [this_score = this[i][0]]: subtracting
    raises [TypeError] unless both are numbers. *)
Definition _distance (this_score : option value) (score : option value)
  : option Q :=
  match this_score with
  | None => None
  | Some a =>
      match a, score with
      | VNum x, Some (VNum y) => Some (Qabs (x - y))
      | _, Some b => Some (if value_eqb a b then 0 else 1)
      | _, None => Some 1
      end
  end.

(** The condition under which [_calculate_stats] scores a test with
    the standard deviations. *)
Definition stddev_aware (stddev : option value) (this : row) : bool :=
  match stddev with
  | Some v => truthy v
  | None => false
  end
  || existsb (fun e => match snd e with Some _ => true | None => false end)
             this.

(** The branch of [_calculate_stats] that uses the standard deviations. *)
Definition stddev_score `{Builtins} `{MathLib} (score stddev : option value)
    (this : row) : outcome (list Q) :=
  let stddevs :=
    (flat_map (fun e => match snd e with Some v => [v] | None => [] end)
              this
     ++ match stddev with
        | Some v => if truthy v then [v] else []
        | None => []
        end)%list in
  nums <- mapM as_num stddevs ;;
  u <- get_uncertainty (Z.of_nat (List.length stddevs)) ;;
  let norm_stddev := average nums * u * 2 in
  mapM (fun e => match fst e with
                 | None => Ok 0
                 | Some x => norm_normpdf x score norm_stddev
                 end)
       this.

(** The branch that uses the distances; [None] is the [continue]. *)
Definition distance_score `{MathLib} (score : option value) (this : row)
  : outcome (option (list Q)) :=
  let distances := map (fun e => _distance (fst e) score) this in
  let known :=
    flat_map (fun d => match d with Some q => [q] | None => [] end)
             distances in
  min_distance <- pymin known ;;
  max_distance <- pymax known ;;
  let finish (distances : list Q) : outcome (option (list Q)) :=
    greatest <- pymax distances ;;
    let one_third_of_max_distance := greatest / 3 in
    norm_distances <-
      mapM (fun d => pydiv d one_third_of_max_distance) distances ;;
    Ok (Some (map (fun distance =>
                     math_exp (- (1 # 2) * (distance * distance)) / 2)
                  norm_distances)) in
  if existsb (fun d => match d with None => true | Some _ => false end)
             distances
  then
    let _bad_distance :=
      if Qeq_bool min_distance max_distance then min_distance * 2
      else max_distance * 2 in
    let _bad_distance :=
      if Qeq_bool min_distance 0 then 1 else _bad_distance in
    finish (map (fun d => match d with
                          | None => _bad_distance
                          | Some q => q
                          end) distances)
  else if Qeq_bool min_distance max_distance then Ok None
  else finish known.

(** [this_cathegory[idx] += result_score] for the whole [norm_score]. *)
Fixpoint add_scores (cathegory norm_score : list Q) : outcome (list Q) :=
  match norm_score, cathegory with
  | [], _ => Ok cathegory
  | s :: norm_score', c :: cathegory' =>
      rest <- add_scores cathegory' norm_score' ;;
      Ok ((c + s) :: rest)
  | _ :: _, [] => Raise IndexError
  end.

(** [norm_score] of a test: by the standard deviations when
    [stddev_aware], by the distances otherwise; [None] is the
    [continue]. *)
Definition norm_score `{Builtins} `{MathLib} (score stddev : option value)
    (this : row) : outcome (option (list Q)) :=
  if stddev_aware stddev this then
    l <- stddev_score score stddev this ;; Ok (Some l)
  else distance_score score this.

(** The loop of [_calculate_stats] over [src.items()]; [stats] is the
    pair [(stats[0], stats[1])]. *)
Fixpoint calculate_stats `{Builtins} `{MathLib} (storage : dict row)
    (stats : list Q * list Q) (src : list (string * src_entry))
  : outcome (list Q * list Q) :=
  match src with
  | [] => Ok stats
  | (test, (score, primary, stddev)) :: rest =>
      match dict_get storage test with
      | None => calculate_stats storage stats rest
      | Some this =>
          norm_score <- norm_score score stddev this ;;
          match norm_score with
          | None => calculate_stats storage stats rest
          | Some norm_score =>
              if negb primary then
                c <- add_scores (snd stats) norm_score ;;
                calculate_stats storage (fst stats, c) rest
              else
                c <- add_scores (fst stats) norm_score ;;
                calculate_stats storage (c, snd stats) rest
          end
      end
  end.

Definition _calculate_stats `{Builtins} `{MathLib} (no_results : nat)
    (src : dict src_entry) (storage : dict row)
  : outcome (list Q * list Q) :=
  calculate_stats storage (repeat 0 no_results, repeat 0 no_results) src.

(** [closest_result]; [src_path] and [dst_paths] hold what
    [iter_results] yields for the paths. *)
Definition closest_result `{Builtins} `{MathLib}
    (src_path : list measurement) (dst_paths : list (list measurement))
  : outcome nat :=
  let src := _process_src src_path in
  storage <- _process_results dst_paths ;;
  let no_results := List.length dst_paths in
  stats <- _calculate_stats no_results src storage ;;
  select [fst stats; snd stats] (seq 0 no_results).

End Closest.

(** ** Training the models: [identify] *)

Module ModelIdentify.

(** [numpy.linalg.solve] for two equations [a11 x + a12 y = b1] and
    [a21 x + a22 y = b2], in exact arithmetic: the one solution, or
    [None] for the [LinAlgError] of a singular matrix. *)
Definition linalg_solve (a11 a12 a21 a22 b1 b2 : Q) : option (Q * Q) :=
  let det := a11 * a22 - a12 * a21 in
  if Qeq_bool det 0 then None
  else Some ((b1 * a22 - a12 * b2) / det, (a11 * b2 - b1 * a21) / det).

(** [ModelLinearRegression._identify]: the equation that maps [low] to
    [-mean_tolerance] and [high] to [mean_tolerance]. *)
Definition _identify (mean_tolerance low high : Q) : option (Q * Q) :=
  linalg_solve high 1 low 1 mean_tolerance (- mean_tolerance).

(** [sorted(keys)] *)
Fixpoint insert_sorted (k : string) (l : list string) : list string :=
  match l with
  | [] => [k]
  | x :: l' => if String.leb k x then k :: l else x :: insert_sorted k l'
  end.

Definition sorted (l : list string) : list string :=
  fold_right insert_sorted [] l.

(** [self.model]: the entry ["__metadata__"] and the entries of the
    tests, whose names the embedding takes to differ from it. *)
Record model_t : Type := mk_model {
  metadata : option (dict Q);
  tests : dict ModelLinearRegression.entry
}.

(** The two statements that open both [identify] methods. *)
Definition set_metadata (mean_tolerance : Q) (model : model_t) : model_t :=
  mk_model
    (Some (dict_set (match metadata model with
                     | Some d => d
                     | None => [("version", 1)]
                     end)
                    "tolerance" mean_tolerance))
    (tests model).

Definition TOO_STRICT_COEFFICIENT : Q := 11 # 10.

(** The range [ModelLinearRegression.identify] maps to the tolerance:
    [(min_value, max_value)]; [max] of no value raises [ValueError]. *)
Definition linear_range (mean_tolerance : Q) (values : list Q)
  : outcome (Q * Q) :=
  let too_strict_coefficient :=
    mean_tolerance / 100 / TOO_STRICT_COEFFICIENT in
  let average := average values in
  max_value <- Closest.pymax values ;;
  let highest := average * (1 + too_strict_coefficient) in
  let max_value := if Qlt_bool max_value highest then highest else max_value in
  min_value <- Closest.pymin values ;;
  let lowest := average * (1 - too_strict_coefficient) in
  let min_value := if Qlt_bool lowest min_value then lowest else min_value in
  Ok (min_value, max_value).

(** [numpy.std(values)] *)
Definition numpy_std `{MathLib} (values : list Q) : Q :=
  let mean := average values in
  math_sqrt (average (map (fun x => Qabs (x - mean) * Qabs (x - mean)) values)).

Definition ERROR_COEFICIENT : Q := 3.

(** The range of [ModelStdev.identify]; [get_uncertainty] raises
    [ValueError] for no value. *)
Definition stdev_range `{MathLib} (values : list Q) : outcome (Q * Q) :=
  uncertainty <- get_uncertainty (Z.of_nat (List.length values)) ;;
  let average := average values in
  let max_stddev := ERROR_COEFICIENT * numpy_std values in
  let max_value := average + max_stddev * uncertainty in
  let min_value := average - max_stddev * uncertainty in
  Ok (min_value, max_value).

(** The body of the loop of both [identify] methods for one test, the
    range being the method's own. *)
Definition identify_test `{Builtins} (range : list Q -> outcome (Q * Q))
    (mean_tolerance : Q) (data : dict (dict value))
    (tests : dict ModelLinearRegression.entry) (test : string)
  : outcome (dict ModelLinearRegression.entry) :=
  let samples :=
    match dict_get data test with
    | Some d => map snd d
    | None => []
    end in
  match mapM as_float samples with
  | Raise _ => Ok tests
  | Ok values =>
      '(min_value, max_value) <- range values ;;
      match _identify mean_tolerance min_value max_value with
      | None => Ok tests
      | Some model =>
          Ok (dict_set tests test
                (ModelLinearRegression.mk_entry model (Some (average values))))
      end
  end.

Fixpoint identify_tests `{Builtins} (range : list Q -> outcome (Q * Q))
    (mean_tolerance : Q) (data : dict (dict value))
    (tests : dict ModelLinearRegression.entry) (keys : list string)
  : outcome (dict ModelLinearRegression.entry) :=
  match keys with
  | [] => Ok tests
  | test :: rest =>
      tests' <- identify_test range mean_tolerance data tests test ;;
      identify_tests range mean_tolerance data tests' rest
  end.

(** [ModelLinearRegression.identify] *)
Definition identify `{Builtins} (mean_tolerance : Q) (model : model_t)
    (data : dict (dict value)) : outcome model_t :=
  let model := set_metadata mean_tolerance model in
  tests' <- identify_tests (linear_range mean_tolerance) mean_tolerance data
                           (tests model) (sorted (dict_keys data)) ;;
  Ok (mk_model (metadata model) tests').

(** [ModelStdev.identify] *)
Definition identify_stdev `{Builtins} `{MathLib} (mean_tolerance : Q)
    (model : model_t) (data : dict (dict value)) : outcome model_t :=
  let model := set_metadata mean_tolerance model in
  tests' <- identify_tests stdev_range mean_tolerance data (tests model)
                           (sorted (dict_keys data)) ;;
  Ok (mk_model (metadata model) tests').

End ModelIdentify.

(** ** The metadata file *)

Module Metadata.

(** The body of the loop of [_parse_metadata]. *)
Definition parse_line (metadata : dict string) (line : string) : dict string :=
  if String.eqb line "" || prefix "#" line then metadata
  else
    match split1 ":" line with
    | Some (key, value) => dict_set metadata key value
    | None => metadata
    end.

(** [ResultsContainer._parse_metadata]; [file] is [None] when
    [RUNPERF_METADATA] does not exist in [path] and the lines of the
    file, each with its line feed, otherwise. *)
Definition _parse_metadata (file : option (list string)) : dict string :=
  match file with
  | None => []
  | Some lines => fold_left parse_line lines []
  end.

(** [metadata[key]] of the [defaultdict]. *)
Definition item (metadata : dict string) (key : string) : string :=
  match dict_get metadata key with
  | Some value => value
  | None => "Unknown"
  end.

End Metadata.

(** ** [utils.tabular_output]

    The cells are the texts [str(column)] gives; a text is taken as its
    sequence of code points, all below 256. *)

Module Tabular.

(** [c.isspace()] *)
Definition is_space (c : ascii) : bool :=
  let n := nat_of_ascii c in
  ((9 <=? n) && (n <=? 13) || (28 <=? n) && (n <=? 32)
   || (n =? 133) || (n =? 160))%nat.

(** [s.rstrip()] *)
Fixpoint rstrip (s : string) : string :=
  match s with
  | EmptyString => EmptyString
  | String c s' =>
      match rstrip s' with
      | EmptyString =>
          if is_space c then EmptyString else String c EmptyString
      | t => String c t
      end
  end.

(** [" " * n] *)
Fixpoint spaces (n : nat) : string :=
  match n with
  | O => EmptyString
  | S n' => String " " (spaces n')
  end.

(** [lengths[i] = col_len] for an [i] in range. *)
Fixpoint set_length (lengths : list nat) (i col_len : nat) : list nat :=
  match lengths, i with
  | [], _ => []
  | _ :: rest, O => col_len :: rest
  | l :: rest, S i' => l :: set_length rest i' col_len
  end.

(** The [try] of the first loop: the longer of [lengths[i]] and
    [col_len], appended on the [IndexError]. *)
Definition note_length (lengths : list nat) (i col_len : nat) : list nat :=
  match nth_error lengths i with
  | Some max_len =>
      if (max_len <? col_len)%nat then set_length lengths i col_len
      else lengths
  | None => (lengths ++ [col_len])%list
  end.

(** The inner loop over [enumerate(str_matrix[-1])], from column [i]. *)
Fixpoint scan_row (lengths : list nat) (i : nat) (row : list string)
  : list nat :=
  match row with
  | [] => lengths
  | column :: rest =>
      scan_row (note_length lengths i (String.length column)) (S i) rest
  end.

(** [lengths] after the first loop. *)
Definition scan (rows : list (list string)) : list nat :=
  fold_left (fun lengths row => scan_row lengths 0 row) rows [].

(** [" ".join(out)] for a row, [out] with [row[-1]] appended; [None] is
    the [continue] on an empty row. *)
Definition join_row (lengths : list nat) (row : list string)
  : outcome (option string) :=
  let row_lens := removelast (map String.length row) in
  padding <-
    mapM (fun i =>
            match nth_error lengths i, nth_error row_lens i with
            | Some l, Some r => Ok (spaces (l - r))
            | _, _ => Raise IndexError
            end)
         (seq 0 (List.length row_lens)) ;;
  let out :=
    map (fun line => (fst line ++ snd line)%string) (combine row padding) in
  match row with
  | [] => Ok None
  | _ => Ok (Some (String.concat " " (out ++ [last row EmptyString])))
  end.

(** The rows the loops run over: the header, when it has a cell, and
    the matrix. *)
Definition get_matrix (matrix : list (list string)) (header : list string)
  : list (list string) :=
  match header with
  | [] => matrix
  | _ => header :: matrix
  end.

(** [iter_tabular_output]: the lines it yields; [header] is [[]] when
    it is [None]. *)
Definition iter_tabular_output (matrix : list (list string))
    (header : list string) : outcome (list string) :=
  let lengths := scan (get_matrix matrix header) in
  lines <- mapM (join_row lengths) (get_matrix matrix header) ;;
  Ok (flat_map (fun line => match line with
                            | Some s => [rstrip s]
                            | None => []
                            end) lines).

(** A line feed. *)
Definition LF : string := String "010" EmptyString.

Definition tabular_output (matrix : list (list string))
    (header : list string) : outcome string :=
  lines <- iter_tabular_output matrix header ;;
  Ok (String.concat LF lines).

End Tabular.

(** * Vocabulary of the properties *)

(** The last character of a text. *)
Fixpoint last_char (s : string) : option ascii :=
  match s with
  | EmptyString => None
  | String a EmptyString => Some a
  | String _ s' => last_char s'
  end.

(** What an opinion with a source value adds to [srcs]. *)
Definition src_list (src : option value) : list value :=
  match src with
  | Some s => [s]
  | None => []
  end.

(** The models' opinions on a comparison all have a weight of 0 or more. *)
Definition nonneg_models (models : list Model) (test_name : string)
    (src dst : value) : Prop :=
  Forall (fun model =>
            forall results,
              check_result model test_name src dst = Ok results ->
              Forall (fun o => 0 <= o_weight o) results)
         models.

(** The tolerance a Result's details end with. *)
Definition report_tolerance (r : Result.t) : option Q :=
  match Result.details r with
  | Some (Report t) => Some (shown_tolerance t)
  | _ => None
  end.

(** A record that failed: its status is below 0. *)
Definition failed (r : Result.t) : Prop := (Result.status r < 0)%Z.

(** No primary record and no grouped record failed. *)
Definition no_counted_failure (self : RelativeResults.t) : Prop :=
  (forall r, In r (RelativeResults.records self) -> failed r ->
             Result.primary r = false)
  /\ (forall r, In r (RelativeResults.grouped_records self) -> ~ failed r).

(** Grouped records come from records: without records there are none. *)
Definition grouped_derived (self : RelativeResults.t) : Prop :=
  RelativeResults.records self = [] ->
  RelativeResults.grouped_records self = [].

(** The scores of the records whose merged name is [name], in order. *)
Definition member_scores `{Regex} (records : list Result.t)
    (merge : list string) (name : string) : list Q :=
  map Result.score
      (filter (fun r => match Result.get_merged_name r merge with
                        | Ok record_id => String.eqb record_id name
                        | Raise _ => false
                        end)
              records).

(** What [record_result] makes of the group [g] under the mean tolerance
    [mean_tolerance]. *)
Definition group_result (mean_tolerance : Q) (g : string * list Q)
    (r : Result.t) : Prop :=
  exists u,
    get_uncertainty (Z.of_nat (List.length (snd g))) = Ok u
    /\ report_tolerance r = Some (mean_tolerance * u / 2)
    /\ Result.status r
       = WeightedResult.classify (Result.score r) (mean_tolerance * u / 2)
    /\ Result.src r = VNum (average (snd g))
    /\ Result.dst r = VNum (average (snd g))
    /\ Result.primary r = true.

(** The grouped Result [r] of a group with the scores [values]. *)
Definition grouped_from (mean_tolerance : Q) (values : list Q)
    (r : Result.t) : Prop :=
  (1 <= List.length values)%nat
  /\ exists u,
       get_uncertainty (Z.of_nat (List.length values)) = Ok u
       /\ report_tolerance r = Some (mean_tolerance * u / 2)
       /\ Result.status r
          = WeightedResult.classify (Result.score r) (mean_tolerance * u / 2)
       /\ Result.src r = VNum (average values)
       /\ Result.dst r = VNum (average values).

(** The Result recorded for a source test no destination measurement
    matched. *)
Definition broken_target (test : string) (primary : bool) : Result.t :=
  Result.init ERROR (-100) test (VNum 0) (VNum (-100))
    (Some (Message [Lit "Not present in target results (";
                    Shown (VNum (-100)); Lit ")"]))
    primary None.

(** The Result recorded for a destination measurement without a source
    test. *)
Definition broken_source (m : measurement) : Result.t :=
  Result.init ERROR (-100) (m_test m) (VNum 0) (VNum (-100))
    (Some (Message [Lit "Not present in source results (";
                    Shown (m_score m); Lit ")."]))
    (m_primary m) (Some (m_params m)).

(** [r] is the Result of the destination measurement [m]: broken when
    none of the tests [src_tests] has its name. *)
Definition result_for (src_tests : list string) (m : measurement)
    (r : Result.t) : Prop :=
  r = Result.init (Result.status r) (Result.score r) (m_test m)
        (Result.src r) (Result.dst r) (Result.details r) (m_primary m)
        (Some (m_params m))
  /\ (~ In (m_test m) src_tests -> r = broken_source m).

(** The indexes that [process_score] keeps: those of the selection
    whose item has the score, in increasing order. *)
Definition tied (storage : list Q) (selection : list nat) (score : Q)
  : list nat :=
  filter (fun i => existsb (Nat.eqb i) selection
                   && Qeq_bool (nth i storage 0) score)
         (seq 0 (List.length storage)).

(** If [m] is the standard deviation of the test [name], it is 0. *)
Definition zero_stddev (name : string) (m : measurement) : Prop :=
  endswith (m_test m) "stddev" = true ->
  drop_last 7 (m_test m) = name ->
  value_eqb (m_score m) (VNum 0) = true.

(** [m] is not a standard deviation of 0. *)
Definition known (m : measurement) : bool :=
  negb (endswith (m_test m) "stddev" && value_eqb (m_score m) (VNum 0)).

(** No destination has a standard deviation for [name] in [storage]. *)
Definition no_stddev (name : string) (storage : dict Closest.row) : Prop :=
  forall this, dict_get storage name = Some this ->
               Forall (fun e => snd e = None) this.

(** The standard deviation of [name] in [src] is missing or 0. *)
Definition src_stddev_zero (name : string) (src : dict Closest.src_entry)
  : Prop :=
  forall score primary stddev,
    dict_get src name = Some (score, primary, stddev) ->
    stddev = None \/ exists v, stddev = Some v
                               /\ value_eqb v (VNum 0) = true.

(** Every row of [storage] has an entry per destination. *)
Definition storage_ok (no_results : nat) (storage : dict Closest.row) : Prop :=
  forall name this, dict_get storage name = Some this ->
                    List.length this = no_results.

(** The testcase [get_xunit] writes for a Result. *)
Definition xunit_case (test : Result.t) : RelativeResults.testcase :=
  let test_name :=
    match rsplit1 "/" (Result.name test) with
    | Some p => p
    | None => (Result.name test, EmptyString)
    end in
  RelativeResults.mk_testcase (fst test_name) (snd test_name)
    (match RelativeResults.element_type (Result.status test) with
     | Some ty => Some (ty, Result.details test)
     | None => None
     end).

(** The Results [get_xunit] reports: the primary ones, records first. *)
Definition xunit_shown (self : RelativeResults.t) : list Result.t :=
  filter Result.primary
         (RelativeResults.records self ++ RelativeResults.grouped_records self).

(** [check_result] for one name and a run of scores: the opinions it
    returned, in order, and the model after the last call. *)
Fixpoint feed (self : AveragesModel.t) (name : string) (scores : list Q)
  : outcome (list opinion * AveragesModel.t) :=
  match scores with
  | [] => Ok ([], self)
  | score :: rest =>
      '(results, self1) <- AveragesModel.check_result self name score ;;
      '(more, self2) <- feed self1 name rest ;;
      Ok ((results ++ more)%list, self2)
  end.

(** The sum and the count an averages model holds for a name. *)
Definition averages_entry (self : AveragesModel.t) (name : string) : Q * nat :=
  match dict_get (AveragesModel.averages self) name with
  | Some e => e
  | None => (0, 0%nat)
  end.

(** A row holds a score or a standard deviation of some candidate. *)
Definition row_set (this : Closest.row) : Prop :=
  exists e, In e this /\ (fst e <> None \/ snd e <> None).

(** The score [distance_score] gives a normalized distance. *)
Definition distance_to_score `{MathLib} (distance : Q) : Q :=
  math_exp (- (1 # 2) * (distance * distance)) / 2.

(** The records [expand_grouped_results] groups: primary, no error and
    no standard deviation. *)
Definition groupable (record : Result.t) : bool :=
  Result.primary record
  && negb (Result.status record =? ERROR)%Z
  && negb (Result.is_stddev record).

(** [[float(_) for _ in data.get(test, {}).values()]] *)
Definition test_values `{Builtins} (data : dict (dict value)) (test : string)
  : outcome (list Q) :=
  mapM as_float (match dict_get data test with
                 | Some d => map snd d
                 | None => []
                 end).

(** The entry of [test] in the model [t] is one that was trained and is
    [Good], or it is still [g0] and [P] holds. *)
Definition trained_or (test : string)
    (Good : ModelLinearRegression.entry -> Prop)
    (g0 : option ModelLinearRegression.entry) (P : Prop)
    (t : dict ModelLinearRegression.entry) : Prop :=
  (exists e, dict_get t test = Some e /\ Good e)
  \/ (dict_get t test = g0 /\ P).

(** The name [_process_src] and [_process_results] file a measurement
    that is no standard deviation under. *)
Definition score_name (m : measurement) : string :=
  match rsplit1 "." (m_test m) with
  | Some (l, _) => l
  | None => m_test m
  end.

(** The score of [m] is a number, and not negative when [m] is a
    standard deviation. *)
Definition numeric (m : measurement) : Prop :=
  exists q, m_score m = VNum q
            /\ (endswith (m_test m) "stddev" = true -> 0 <= q).

(** Every standard deviation of [results] comes after a measurement of
    its test that is none, as [iter_results] yields them. *)
Definition mean_first (results : list measurement) : Prop :=
  forall l1 m l2,
    results = (l1 ++ m :: l2)%list ->
    endswith (m_test m) "stddev" = true ->
    exists m', In m' l1 /\ endswith (m_test m') "stddev" = false
               /\ score_name m' = drop_last 7 (m_test m).

(** An entry of a row of [storage] holds numbers, the standard
    deviation above 0. *)
Definition entry_numeric (e : option value * option value) : Prop :=
  (forall v, fst e = Some v -> exists q, v = VNum q)
  /\ (forall v, snd e = Some v -> exists q, v = VNum q /\ 0 < q).

(** An entry of [src] has a score, a number, and its standard
    deviation is a number that is not negative. *)
Definition src_numeric (e : Closest.src_entry) : Prop :=
  (exists q, fst (fst e) = Some (VNum q))
  /\ (forall v, snd e = Some v -> exists q, v = VNum q /\ 0 <= q).

(** The cells of a row as [join_row] joins them: all but the last
    padded to the lengths of their columns. *)
Fixpoint pad_row (lengths : list nat) (row : list string) : list string :=
  match row with
  | [] => []
  | [column] => [column]
  | column :: rest =>
      (column ++ Tabular.spaces (hd 0%nat lengths - String.length column))
        %string
      :: pad_row (tl lengths) rest
  end.

(** Where the column [j] starts in a line: after the columns before it,
    each with the blank that follows it. *)
Fixpoint column_offset (lengths : list nat) (j : nat) : nat :=
  match j with
  | O => O
  | S j' => (S (hd 0 lengths) + column_offset (tl lengths) j')%nat
  end.

(** The cell [j] of a row; a row that has none counts as an empty text. *)
Definition cell (row : list string) (j : nat) : string :=
  nth j row EmptyString.

(** * Concrete inputs *)

(** A [float()] that takes no text for a number. *)
Definition plain_builtins : Builtins := {| float_of_str := fun _ => None |}.

(** An engine that knows the names of two fio iterations. *)
Definition fio_regex : Regex :=
  {| re_name_match := fun name =>
       if String.eqb name "base/fio/0000:./read-4KiB/throughput/iops_sec.mean"
       then Some (mk_name_groups "base" "fio" "0000" "read-4KiB" "throughput"
                                 "iops_sec" "mean")
       else if String.eqb name
                 "base/fio/0000:./read-8KiB/throughput/iops_sec.mean"
       then Some (mk_name_groups "base" "fio" "0000" "read-8KiB" "throughput"
                                 "iops_sec" "mean")
       else None |}.

(** Rational stand-ins for [math]: [1 / (1 - x + x^2 / 2)] for [exp] on
    the negative numbers, two Newton steps for the square root. *)
Definition rational_math : MathLib :=
  {| math_exp := fun x => 1 / (1 - x + x * x / 2);
     math_sqrt := fun x =>
       let s := (1 + x) / 2 in (s + x / s) / 2;
     math_pi := 22 # 7 |}.

Definition suite_test_mean (dst : Q) : measurement :=
  mk_measurement "suite/test.mean" (VNum dst) true [].

(** Tolerance 10, no model, averages of weight 0. *)
Definition plain_results : RelativeResults.t :=
  RelativeResults.init 10 10 [] [].

(** Two iterations of one fio test, scores 2 and 4. *)
Definition fio_records : list Result.t :=
  [Result.init PASS 2 "base/fio/0000:./read-4KiB/throughput/iops_sec.mean"
     (VNum 100) (VNum 102) None true None;
   Result.init PASS 4 "base/fio/0000:./read-8KiB/throughput/iops_sec.mean"
     (VNum 100) (VNum 104) None true None].

(** One source measurement and three candidates: the second and the
    third are equally close, the second is chosen. *)
Definition closest_src : list measurement :=
  [mk_measurement "base/fio/0000:./read/throughput/iops_sec.mean" (VNum 10)
     true []].

Definition closest_dsts : list (list measurement) :=
  [[mk_measurement "base/fio/0000:./read/throughput/iops_sec.mean" (VNum 13)
      true []];
   [mk_measurement "base/fio/0000:./read/throughput/iops_sec.mean" (VNum 11)
      true []];
   [mk_measurement "base/fio/0000:./read/throughput/iops_sec.mean" (VNum 11)
      true []]].

(** A test whose standard deviations are all 0. *)
Definition flat_src : list measurement :=
  [mk_measurement "a.mean" (VNum 10) true [];
   mk_measurement "a.stddev" (VNum 0) true []].

Definition flat_dsts : list (list measurement) :=
  [[mk_measurement "a.mean" (VNum 11) true [];
    mk_measurement "a.stddev" (VNum 0) true []];
   [mk_measurement "a.mean" (VNum 15) true []]].

(** A baseline with two metrics and a destination that has the first
    and a third one: one comparison and two broken Results, and the exit
    code 2. *)
Definition two_metrics : ResultsContainer.t :=
  ResultsContainer.init 10 10 0 [] "src"
    [mk_measurement "suite/x.mean" (VNum 100) true [];
     mk_measurement "suite/y.mean" (VNum 50) true []]
    [].

(** The two fio iterations as the records of a comparison. *)
Definition fio_results : RelativeResults.t :=
  RelativeResults.mk 10 10 fio_records [] [] [].


(** Training data: a test with the samples 1 and 3, one without a
    sample and one whose sample is a text. *)
Definition two_samples : dict (dict value) :=
  [("suite/test.mean", [("build1", VNum 1); ("build2", VNum 3)])].

Definition no_sample : dict (dict value) :=
  [("suite/test.mean", [("build1", VNum 1)]); ("suite/void.mean", [])].

Definition text_sample : dict (dict value) :=
  [("suite/test.mean", [("build1", VNum 1); ("build2", VStr "error")])].

(** A metadata file. *)
Definition metadata_lines : list string :=
  ["# machine"; "distro:Fedora 32"; "kernel:5.6"; "distro:Fedora 33"].

(** A test with its standard deviations: the source and two candidates. *)
Definition noisy_src : list measurement :=
  [mk_measurement "a.mean" (VNum 10) true [];
   mk_measurement "a.stddev" (VNum 1) true []].

Definition noisy_dsts : list (list measurement) :=
  [[mk_measurement "a.mean" (VNum 11) true [];
    mk_measurement "a.stddev" (VNum 2) true []];
   [mk_measurement "a.mean" (VNum 15) true [];
    mk_measurement "a.stddev" (VNum 1) true []]].

(** The tables of the self tests of [tabular_output]. *)
Definition ragged_matrix : list (list string) :=
  [["a"; "aa"; "aaa"]; ["bbb"; "bb"]].

(** * Properties *)

(** ** Results and comparisons *)

Lemma bind_Ok_inv {A B : Type} (m : outcome A) (k : A -> outcome B) (b : B) :
  bind m k = Ok b -> exists a, m = Ok a /\ k a = Ok b.
Proof.
  destruct m as [a|e]; simpl; intros E.
  - exists a. split; [reflexivity | exact E].
  - discriminate E.
Qed.

Lemma bind_Raise_inv {A B : Type} (m : outcome A) (k : A -> outcome B)
    (e : exn) :
  bind m k = Raise e -> m = Raise e \/ exists a, m = Ok a /\ k a = Raise e.
Proof.
  destruct m as [a|e']; simpl; intros E.
  - right. exists a. split; [reflexivity | exact E].
  - left. congruence.
Qed.

(** Splits a hypothesis [bind m k = Ok b] into its two runs. *)
Ltac bind_inv E :=
  let a := fresh "a" in
  let Ea := fresh "Ea" in
  apply bind_Ok_inv in E; destruct E as (a & Ea & E).

Lemma Qlt_bool_iff (x y : Q) : Qlt_bool x y = true <-> x < y.
Proof.
  unfold Qlt_bool. rewrite negb_true_iff. split; intros E.
  - apply Qnot_le_lt. intros L. apply Qle_bool_iff in L. congruence.
  - destruct (Qle_bool y x) eqn:L; [|reflexivity].
    apply Qle_bool_iff in L. lra.
Qed.

Lemma Qlt_bool_false_iff (x y : Q) : Qlt_bool x y = false <-> y <= x.
Proof.
  unfold Qlt_bool. rewrite negb_false_iff. apply Qle_bool_iff.
Qed.

Lemma Qle_bool_false_iff (x y : Q) : Qle_bool x y = false <-> y < x.
Proof.
  rewrite <- Qlt_bool_iff. unfold Qlt_bool.
  destruct (Qle_bool x y); simpl; intuition congruence.
Qed.

Lemma Qeq_bool_false_iff (x y : Q) : Qeq_bool x y = false <-> ~ x == y.
Proof.
  rewrite <- Qeq_bool_iff. destruct (Qeq_bool x y); intuition congruence.
Qed.

Lemma pydiv_Ok (a b : Q) : ~ b == 0 -> pydiv a b = Ok (a / b).
Proof.
  intros N. unfold pydiv. apply Qeq_bool_false_iff in N. rewrite N.
  reflexivity.
Qed.

Lemma pydiv_Ok_inv (a b q : Q) : pydiv a b = Ok q -> ~ b == 0 /\ q = a / b.
Proof.
  unfold pydiv. destruct (Qeq_bool b 0) eqn:E; [discriminate|].
  intros [= <-]. split; [|reflexivity]. apply Qeq_bool_false_iff, E.
Qed.

(** ** The uncertainty coefficient *)

Lemma get_uncertainty_pos (n : Z) :
  (0 < n)%Z -> exists u, get_uncertainty n = Ok u /\ 1 <= u.
Proof.
  intros Hn. unfold get_uncertainty.
  destruct (Z.leb_spec n 0) as [H0|H0]; [lia|].
  destruct (Z.leb_spec n 8) as [H8|H8].
  - assert (Hc : (n = 1 \/ n = 2 \/ n = 3 \/ n = 4 \/ n = 5 \/ n = 6
                  \/ n = 7 \/ n = 8)%Z) by lia.
    repeat (destruct Hc as [->|Hc];
            [eexists; split; [reflexivity|]; unfold Qle; simpl; lia|]).
    subst n. eexists; split; [reflexivity|]. unfold Qle; simpl; lia.
  - exists 1. split; [reflexivity | lra].
Qed.

(** C9. [get_uncertainty] follows the table 7, 2.3, 1.7, 1.4, 1.3, 1.3,
    1.2, 1.2 for 1 to 8 samples, so it does not increase there; it is 1
    for more than 8 samples and raises [ValueError] for 0 samples or
    fewer. *)
Theorem get_uncertainty_table :
  (get_uncertainty 1 = Ok 7
   /\ get_uncertainty 2 = Ok (23 # 10)
   /\ get_uncertainty 3 = Ok (17 # 10)
   /\ get_uncertainty 4 = Ok (14 # 10)
   /\ get_uncertainty 5 = Ok (13 # 10)
   /\ get_uncertainty 6 = Ok (13 # 10)
   /\ get_uncertainty 7 = Ok (12 # 10)
   /\ get_uncertainty 8 = Ok (12 # 10))
  /\ (forall n m : Z, (1 <= n)%Z -> (n <= m)%Z -> (m <= 8)%Z ->
      exists u v, get_uncertainty n = Ok u /\ get_uncertainty m = Ok v
                  /\ v <= u)
  /\ (forall n : Z, (8 < n)%Z -> get_uncertainty n = Ok 1)
  /\ (forall n : Z, (n <= 0)%Z -> get_uncertainty n = Raise ValueError).
Proof.
  split; [repeat split; reflexivity|].
  split; [|split].
  - intros n m H1 Hnm H8.
    assert (Hn : (n = 1 \/ n = 2 \/ n = 3 \/ n = 4 \/ n = 5 \/ n = 6
                  \/ n = 7 \/ n = 8)%Z) by lia.
    assert (Hm : (m = 1 \/ m = 2 \/ m = 3 \/ m = 4 \/ m = 5 \/ m = 6
                  \/ m = 7 \/ m = 8)%Z) by lia.
    repeat (destruct Hn as [Hn|Hn]); subst n;
      repeat (destruct Hm as [Hm|Hm]); subst m; try lia;
      eexists; eexists; (split; [reflexivity|]); (split; [reflexivity|]);
      unfold Qle; simpl; lia.
  - intros n Hn. unfold get_uncertainty.
    destruct (Z.leb_spec n 0); [lia|].
    destruct (Z.leb_spec n 8); [lia|]. reflexivity.
  - intros n Hn. unfold get_uncertainty.
    destruct (Z.leb_spec n 0); [reflexivity|lia].
Qed.

(** ** Test names *)

Lemma endswith_empty (suffix : string) :
  endswith EmptyString suffix = true -> suffix = EmptyString.
Proof.
  destruct suffix; [reflexivity | discriminate].
Qed.

Lemma endswith_last_char (s suffix : string) :
  endswith s suffix = true -> suffix <> EmptyString ->
  last_char s = last_char suffix.
Proof.
  intros E N. induction s as [|a s IH].
  - apply endswith_empty in E. congruence.
  - cbn [endswith] in E. apply orb_true_iff in E. destruct E as [E|E].
    + apply String.eqb_eq in E. now rewrite E.
    + specialize (IH E). destruct s as [|b s].
      * apply endswith_empty in E. congruence.
      * exact IH.
Qed.

Lemma endswith_stddev_not_mean (s : string) :
  endswith s "stddev" = true -> endswith s "mean" = false.
Proof.
  intros E. destruct (endswith s "mean") eqn:M; [|reflexivity].
  apply endswith_last_char in E; [|discriminate].
  apply endswith_last_char in M; [|discriminate].
  rewrite E in M. discriminate M.
Qed.

Lemma Qabs_nonzero (x : Q) : ~ x == 0 -> ~ Qabs x == 0.
Proof.
  intros N A. apply N. revert A. apply Qabs_case; intros; lra.
Qed.

(** ** The raw difference *)

(** C7. For two numbers the raw difference and the tolerance follow the
    test name: a name ending in "mean" gives 0 for a zero source and
    otherwise [(dst - src) / |src| * 100], with the mean tolerance; a
    name ending in "stddev" gives [src - dst] with the stddev tolerance;
    any other name gives, for any two values, 0 when they are equal and
    1 otherwise, with tolerance 0. *)
Theorem calculate_test_difference_by_name `{Builtins}
    (self : RelativeResults.t) (test_name : string) :
  (endswith test_name "mean" = true ->
   forall src dst : Q,
     RelativeResults._calculate_test_difference self test_name
       (VNum src) (VNum dst)
     = Ok (if Qeq_bool src 0 then 0 else (dst - src) / Qabs src * 100,
           RelativeResults.mean_tolerance self))
  /\ (endswith test_name "stddev" = true ->
      forall src dst : Q,
        RelativeResults._calculate_test_difference self test_name
          (VNum src) (VNum dst)
        = Ok (src - dst, RelativeResults.stddev_tolerance self))
  /\ (endswith test_name "mean" = false ->
      endswith test_name "stddev" = false ->
      forall src dst : value,
        RelativeResults._calculate_test_difference self test_name src dst
        = Ok (if value_eqb src dst then 0 else 1, 0)).
Proof.
  unfold RelativeResults._calculate_test_difference.
  split; [|split].
  - intros M src dst. rewrite M. simpl.
    destruct (Qeq_bool src 0) eqn:Z; [reflexivity|].
    apply Qeq_bool_false_iff in Z.
    rewrite (pydiv_Ok _ _ (Qabs_nonzero _ Z)). reflexivity.
  - intros S src dst. rewrite (endswith_stddev_not_mean _ S), S.
    reflexivity.
  - intros M S src dst. rewrite M, S. reflexivity.
Qed.

(** ** The weighted result *)

Lemma add_inv (self self' : WeightedResult.t) (idx : option nat)
    (name : string) (difference weight : Q) (src : option value) :
  WeightedResult.add self idx name difference weight src = Ok self' ->
  (exists tol, WeightedResult.tolerance self = Some tol)
  /\ WeightedResult.tolerance self' = WeightedResult.tolerance self
  /\ WeightedResult.dst self' = WeightedResult.dst self
  /\ WeightedResult.agg_weights self'
     = WeightedResult.agg_weights self + weight
  /\ WeightedResult.agg_diffs self'
     = WeightedResult.agg_diffs self + difference * weight
  /\ WeightedResult.srcs self'
     = (WeightedResult.srcs self ++ src_list src)%list.
Proof.
  unfold WeightedResult.add, src_list.
  destruct (WeightedResult.tolerance self) as [tol|] eqn:T; [|discriminate].
  intros E. split; [now exists tol|].
  destruct src;
    destruct (Qlt_bool tol (Qabs difference));
    [destruct (Qlt_bool 0 difference)| |destruct (Qlt_bool 0 difference)|];
    injection E as <-; cbn; rewrite ?app_nil_r; auto.
Qed.

Lemma add_all_inv (results : list opinion) :
  forall (self self' : WeightedResult.t) (idx : option nat),
    WeightedResult.add_all self idx results = Ok self' ->
    WeightedResult.tolerance self' = WeightedResult.tolerance self
    /\ WeightedResult.dst self' = WeightedResult.dst self
    /\ WeightedResult.agg_weights self'
       = fold_left (fun a o => a + o_weight o) results
                   (WeightedResult.agg_weights self)
    /\ WeightedResult.srcs self'
       = (WeightedResult.srcs self
          ++ flat_map (fun o => src_list (o_src o)) results)%list.
Proof.
  induction results as [|r rest IH]; intros self self' idx E.
  - injection E as <-. cbn. rewrite app_nil_r. auto.
  - cbn [WeightedResult.add_all] in E. bind_inv E.
    apply add_inv in Ea. destruct Ea as (_ & T & D & W & _ & S).
    apply IH in E. destruct E as (T' & D' & W' & S').
    cbn [fold_left flat_map]. rewrite T', D', W', S', T, D, W, S.
    rewrite <- app_assoc. auto.
Qed.

Lemma fold_weights_nonneg (results : list opinion) :
  forall a : Q,
    0 <= a -> Forall (fun o => 0 <= o_weight o) results ->
    0 <= fold_left (fun a o => a + o_weight o) results a.
Proof.
  induction results as [|r rest IH]; intros a A F; cbn.
  - exact A.
  - inversion F as [|? ? P F']; subst. apply IH; [lra | exact F'].
Qed.

Lemma fold_weights_mono (results : list opinion) :
  forall a : Q,
    Forall (fun o => 0 <= o_weight o) results ->
    a <= fold_left (fun a o => a + o_weight o) results a.
Proof.
  induction results as [|r rest IH]; intros a F; cbn.
  - lra.
  - inversion F as [|? ? P F']; subst.
    specialize (IH (a + o_weight r) F'). lra.
Qed.

Lemma add_models_inv (models : list Model) :
  forall (msg msg' : WeightedResult.t) (i : nat) (test_name : string)
         (src dst : value),
    RelativeResults.add_models msg i models test_name src dst = Ok msg' ->
    WeightedResult.tolerance msg' = WeightedResult.tolerance msg
    /\ WeightedResult.dst msg' = WeightedResult.dst msg.
Proof.
  induction models as [|model rest IH]; intros msg msg' i test_name src dst E.
  - injection E as <-. auto.
  - cbn [RelativeResults.add_models] in E. bind_inv E. bind_inv E.
    apply add_all_inv in Ea0. destruct Ea0 as (T & D & _).
    apply IH in E. destruct E as (T' & D'). rewrite T', D'. auto.
Qed.

Lemma add_models_nonneg (models : list Model) :
  forall (msg msg' : WeightedResult.t) (i : nat) (test_name : string)
         (src dst : value),
    nonneg_models models test_name src dst ->
    RelativeResults.add_models msg i models test_name src dst = Ok msg' ->
    WeightedResult.agg_weights msg <= WeightedResult.agg_weights msg'.
Proof.
  induction models as [|model rest IH];
    intros msg msg' i test_name src dst N E.
  - injection E as <-. lra.
  - cbn [RelativeResults.add_models] in E. bind_inv E. bind_inv E.
    inversion N as [|? ? P N']; subst.
    apply add_all_inv in Ea0. destruct Ea0 as (_ & _ & W & _).
    specialize (IH _ _ _ _ _ _ N' E).
    pose proof (fold_weights_mono a (WeightedResult.agg_weights msg)
                  (P _ Ea)) as M.
    rewrite <- W in M. lra.
Qed.

Lemma weigh_inv (self : RelativeResults.t) (test_name : string)
    (src dst : value) (difference : Q) (tolerance : option Q)
    (msg : WeightedResult.t) :
  RelativeResults.weigh self test_name src dst difference tolerance = Ok msg ->
  exists msg_models,
    RelativeResults.add_models (WeightedResult.init dst tolerance) 0
      (RelativeResults.models self) test_name src dst = Ok msg_models
    /\ WeightedResult.agg_weights msg
       = WeightedResult.agg_weights msg_models
         + RelativeResults.raw_weight msg_models
    /\ WeightedResult.tolerance msg = tolerance
    /\ WeightedResult.dst msg = dst
    /\ WeightedResult.srcs msg
       = (WeightedResult.srcs msg_models ++ [src])%list
    /\ exists tol, tolerance = Some tol.
Proof.
  unfold RelativeResults.weigh. intros E. bind_inv E.
  exists a. split; [exact Ea|].
  apply add_models_inv in Ea. destruct Ea as (T & D). cbn in T, D.
  apply add_inv in E. destruct E as ((tol & T0) & T' & D' & W & _ & S).
  rewrite T', D', T, D, W, S. repeat split; try reflexivity.
  exists tol. congruence.
Qed.

Lemma raw_weight_cases (msg : WeightedResult.t) :
  (WeightedResult.agg_weights msg == 0
   /\ RelativeResults.raw_weight msg = 1)
  \/ (~ WeightedResult.agg_weights msg == 0
      /\ RelativeResults.raw_weight msg = 0).
Proof.
  unfold RelativeResults.raw_weight.
  destruct (Qeq_bool (WeightedResult.agg_weights msg) 0) eqn:E.
  - left. split; [apply Qeq_bool_iff, E | reflexivity].
  - right. split; [apply Qeq_bool_false_iff, E | reflexivity].
Qed.

Lemma check_result_averages_inv (self self' : AveragesModel.t)
    (name : string) (score : Q) (results : list opinion) :
  AveragesModel.check_result self name score = Ok (results, self') ->
  AveragesModel.weight self' = AveragesModel.weight self
  /\ AveragesModel.last self' = AveragesModel.last self
  /\ Forall (fun o => o_src o = None) results
  /\ (0 <= AveragesModel.weight self ->
      Forall (fun o => 0 <= o_weight o) results).
Proof.
  unfold AveragesModel.check_result. cbn [AveragesModel.last
    AveragesModel.weight AveragesModel.averages].
  destruct (negb (AveragesModel.last self)).
  { intros [= <- <-]. cbn. auto. }
  match goal with
  | |- context [dict_get ?d name] => destruct (dict_get d name) as [entry|]
  end.
  2:{ intros [= <- <-]. cbn. auto. }
  intros E. bind_inv E. bind_inv E. injection E as <- <-. cbn.
  repeat split; auto.
  intros W. constructor; [|constructor]. cbn.
  destruct (snd entry <? 8)%nat eqn:L.
  - bind_inv Ea0. apply pydiv_Ok_inv in Ea0. destruct Ea0 as (_ & ->).
    apply Nat.ltb_lt in L.
    destruct (get_uncertainty_pos (Z.of_nat (snd entry))) as (u & U & P).
    + destruct (snd entry) as [|n] eqn:C; [|lia].
      cbn in Ea1. discriminate Ea1.
    + rewrite U in Ea1. injection Ea1 as <-.
      apply Qle_shift_div_l; lra.
  - injection Ea0 as <-. exact W.
Qed.

Lemma weigh_averages_inv (msg msg' : WeightedResult.t)
    (averages averages' : AveragesModel.t) (test_name : string) :
  RelativeResults.weigh_averages msg averages test_name
  = Ok (msg', averages') ->
  exists score results,
    WeightedResult.score msg = Ok score
    /\ AveragesModel.check_result averages test_name score
       = Ok (results, averages')
    /\ WeightedResult.tolerance msg' = WeightedResult.tolerance msg
    /\ WeightedResult.dst msg' = WeightedResult.dst msg
    /\ WeightedResult.srcs msg' = WeightedResult.srcs msg
    /\ WeightedResult.agg_weights msg'
       = fold_left (fun a o => a + o_weight o) results
                   (WeightedResult.agg_weights msg).
Proof.
  unfold RelativeResults.weigh_averages. intros E.
  bind_inv E. bind_inv E. destruct a0 as [results av]. bind_inv E.
  injection E as <- <-. exists a, results.
  split; [exact Ea|]. split; [exact Ea0|].
  apply check_result_averages_inv in Ea0. destruct Ea0 as (_ & _ & N & _).
  apply add_all_inv in Ea1. destruct Ea1 as (T & D & W & S).
  repeat split; auto.
  rewrite S. clear -N. induction N as [|o l O N IH]; cbn.
  - apply app_nil_r.
  - rewrite O. cbn. exact IH.
Qed.

Lemma last_map_Some {A : Type} (l : list A) (x : A) :
  List.last (map Some (l ++ [x])%list) None = Some x.
Proof.
  rewrite map_app. cbn [map]. apply last_last.
Qed.

Lemma report_inv (msg : WeightedResult.t) (test_name : string)
    (primary : bool) (params : option params_t) (r : Result.t) :
  WeightedResult.report msg test_name primary params = Ok r ->
  exists tol src,
    WeightedResult.tolerance msg = Some tol
    /\ WeightedResult.score msg = Ok (Result.score r)
    /\ List.last (map Some (WeightedResult.srcs msg)) None = Some src
    /\ Result.status r = WeightedResult.classify (Result.score r) tol
    /\ Result.src r = src
    /\ Result.dst r = WeightedResult.dst msg
    /\ Result.primary r = primary
    /\ report_tolerance r = Some tol
    /\ r = Result.init (Result.status r) (Result.score r) test_name src
             (WeightedResult.dst msg) (Result.details r) primary params.
Proof.
  unfold WeightedResult.report. intros E. bind_inv E.
  destruct (WeightedResult.tolerance msg) as [tol|]; [|discriminate].
  destruct (List.last _ _) as [src|] eqn:L; [|discriminate].
  injection E as <-. exists tol, src. cbn. rewrite Ea. auto 10.
Qed.

Lemma record_result_inv `{Builtins} (self self' : RelativeResults.t)
    (averages averages' : AveragesModel.t) (test_name : string)
    (src dst : value) (primary grouped : bool)
    (difference tolerance : option Q) (params : option params_t)
    (r : Result.t) :
  RelativeResults.record_result self averages test_name src dst primary
    grouped difference tolerance params = Ok (r, self', averages') ->
  exists d tol msg msg',
    RelativeResults.difference_and_tolerance self test_name src dst
      difference tolerance = Ok (d, Some tol)
    /\ RelativeResults.weigh self test_name src dst d (Some tol) = Ok msg
    /\ RelativeResults.weigh_averages msg averages test_name
       = Ok (msg', averages')
    /\ WeightedResult.score msg' = Ok (Result.score r)
    /\ Result.status r = WeightedResult.classify (Result.score r) tol
    /\ report_tolerance r = Some tol
    /\ Result.src r = src
    /\ Result.dst r = dst
    /\ Result.primary r = primary
    /\ r = Result.init (Result.status r) (Result.score r) test_name src dst
             (Result.details r) primary params
    /\ self' = RelativeResults.record self r grouped.
Proof.
  unfold RelativeResults.record_result. intros E.
  bind_inv E. destruct a as [d otol]. bind_inv E. bind_inv E.
  destruct a0 as [msg' av']. bind_inv E. injection E as <- <- <-.
  pose proof (weigh_inv _ _ _ _ _ _ _ Ea0)
    as (msg_models & _ & _ & T & D & S & (tol & ->)).
  pose proof (weigh_averages_inv _ _ _ _ _ Ea1)
    as (sc & results & _ & _ & T' & D' & S' & _).
  pose proof (report_inv _ _ _ _ _ Ea2)
    as (tol' & src' & T2 & Sc & L & St & Sr & Ds & P & RT & I).
  rewrite T', T in T2. injection T2 as <-.
  rewrite S', S, last_map_Some in L. injection L as <-.
  rewrite D', D in Ds, I.
  exists d, tol, a, msg'. repeat split; assumption || reflexivity.
Qed.

(** ** Classification *)

Lemma classify_in_tolerance (diff tol : Q) :
  Qabs diff <= tol ->
  (tol / 2 < diff -> WeightedResult.classify diff tol = MINOR_GAIN)
  /\ (diff < tol / 2 -> WeightedResult.classify diff tol = MINOR_LOSS)
  /\ (diff == tol / 2 -> WeightedResult.classify diff tol = PASS)
  /\ STATUS_MAP (WeightedResult.classify diff tol) = Ok "PASS".
Proof.
  intros A. unfold WeightedResult.classify.
  apply Qle_bool_iff in A. rewrite A.
  destruct (Qlt_bool (tol / 2) diff) eqn:G;
    [|destruct (Qlt_bool diff (tol / 2)) eqn:L].
  - apply Qlt_bool_iff in G.
    repeat split; try reflexivity; intros; lra.
  - apply Qlt_bool_false_iff in G. apply Qlt_bool_iff in L.
    repeat split; try reflexivity; intros; lra.
  - apply Qlt_bool_false_iff in G. apply Qlt_bool_false_iff in L.
    repeat split; try reflexivity; intros; lra.
Qed.

Lemma classify_out_of_tolerance (diff tol : Q) :
  tol < Qabs diff ->
  (0 < diff -> WeightedResult.classify diff tol = FAIL_GAIN)
  /\ (diff <= 0 -> WeightedResult.classify diff tol = FAIL_LOSS).
Proof.
  intros A. unfold WeightedResult.classify.
  apply Qle_bool_false_iff in A. rewrite A. split; intros D.
  - apply Qlt_bool_iff in D. now rewrite D.
  - apply Qlt_bool_false_iff in D. now rewrite D.
Qed.

(** C8. When the combined score of a comparison is beyond the tolerance
    in use, a positive score gives the status FAIL_GAIN, which the xunit
    report attaches as "skipped", and a score of 0 or less gives
    FAIL_LOSS, attached as "failure". *)
Theorem out_of_tolerance_status `{Builtins}
    (self self' : RelativeResults.t) (averages averages' : AveragesModel.t)
    (test_name : string) (src dst : value) (primary grouped : bool)
    (difference tolerance : option Q) (params : option params_t)
    (r : Result.t) (d tol : Q) :
  RelativeResults.record_result self averages test_name src dst primary
    grouped difference tolerance params = Ok (r, self', averages') ->
  RelativeResults.difference_and_tolerance self test_name src dst
    difference tolerance = Ok (d, Some tol) ->
  tol < Qabs (Result.score r) ->
  (0 < Result.score r ->
   Result.status r = FAIL_GAIN
   /\ RelativeResults.element_type (Result.status r) = Some "skipped")
  /\ (Result.score r <= 0 ->
      Result.status r = FAIL_LOSS
      /\ RelativeResults.element_type (Result.status r) = Some "failure").
Proof.
  intros E DT A.
  apply record_result_inv in E.
  destruct E as (d' & tol' & _ & _ & DT' & _ & _ & _ & St & _).
  rewrite DT in DT'. injection DT' as _ <-.
  destruct (classify_out_of_tolerance _ _ A) as [G L].
  split; intros S.
  - rewrite St, (G S). split; reflexivity.
  - rewrite St, (L S). split; reflexivity.
Qed.

(** C1, at destination 104. With baseline 100, tolerance 10 and no
    model the score is 4 and the status is MINOR_LOSS, not PASS:
    [report] compares the score with [tolerance / 2] where a loss of
    half the tolerance would be below [- tolerance / 2]. *)
Theorem record_result_104_minor_loss `{Builtins} :
  exists r self' averages',
    RelativeResults.record_result (RelativeResults.init 10 10 [] [])
      (AveragesModel.init 0) "suite/test.mean" (VNum 100) (VNum 104)
      true false None None None = Ok (r, self', averages')
    /\ Result.score r == 4
    /\ Result.status r = MINOR_LOSS
    /\ Result.status r <> PASS.
Proof.
  eexists; eexists; eexists. split; [reflexivity|].
  split; [reflexivity|]. split; [reflexivity | discriminate].
Qed.

(** At destination 106 the score is 6 and the status MINOR_GAIN. *)
Lemma record_result_106_minor_gain `{Builtins} :
  exists r self' averages',
    RelativeResults.record_result (RelativeResults.init 10 10 [] [])
      (AveragesModel.init 0) "suite/test.mean" (VNum 100) (VNum 106)
      true false None None None = Ok (r, self', averages')
    /\ Result.score r == 6
    /\ Result.status r = MINOR_GAIN.
Proof.
  eexists; eexists; eexists. split; [reflexivity|].
  split; reflexivity.
Qed.

(** ** The total weight *)

Lemma dict_get_set_same {V : Type} (d : dict V) (k : string) (v : V) :
  dict_get (dict_set d k v) k = Some v.
Proof.
  induction d as [|[k' v'] d IH]; cbn.
  - now rewrite String.eqb_refl.
  - destruct (String.eqb k' k) eqn:E; cbn; rewrite E; [reflexivity|exact IH].
Qed.

Lemma check_result_averages_total (self : AveragesModel.t) (name : string)
    (score : Q) :
  exists results self',
    AveragesModel.check_result self name score = Ok (results, self').
Proof.
  unfold AveragesModel.check_result.
  cbn [AveragesModel.last AveragesModel.weight AveragesModel.averages].
  destruct (negb (AveragesModel.last self)); [eauto|].
  rewrite dict_get_set_same. cbn [fst snd].
  match goal with
  | |- context [S ?c] => set (n := S c)
  end.
  rewrite pydiv_Ok.
  2:{ unfold Qeq, n. cbn. lia. }
  cbn [bind].
  destruct (n <? 8)%nat; [|cbn; eauto].
  destruct (get_uncertainty_pos (Z.of_nat n)) as (u & U & P);
    [unfold n; lia|].
  rewrite U. cbn [bind]. rewrite pydiv_Ok; [cbn; eauto | lra].
Qed.

Lemma add_total (self : WeightedResult.t) (idx : option nat) (name : string)
    (difference weight : Q) (src : option value) (tol : Q) :
  WeightedResult.tolerance self = Some tol ->
  exists self', WeightedResult.add self idx name difference weight src
                = Ok self'.
Proof.
  intros T. unfold WeightedResult.add. rewrite T.
  destruct (Qlt_bool tol (Qabs difference));
    [destruct (Qlt_bool 0 difference)|]; eauto.
Qed.

Lemma add_all_total (results : list opinion) :
  forall (self : WeightedResult.t) (idx : option nat) (tol : Q),
    WeightedResult.tolerance self = Some tol ->
    exists self', WeightedResult.add_all self idx results = Ok self'.
Proof.
  induction results as [|r rest IH]; intros self idx tol T; cbn.
  - eauto.
  - destruct (add_total self idx (o_name r) (o_difference r) (o_weight r)
                (o_src r) tol T) as (self1 & E).
    rewrite E. cbn [bind]. apply add_inv in E.
    destruct E as (_ & T1 & _). apply (IH self1 idx tol). congruence.
Qed.

Lemma weigh_weight_nonzero (self : RelativeResults.t) (test_name : string)
    (src dst : value) (difference : Q) (tolerance : option Q)
    (msg : WeightedResult.t) :
  RelativeResults.weigh self test_name src dst difference tolerance = Ok msg ->
  ~ WeightedResult.agg_weights msg == 0.
Proof.
  intros E. apply weigh_inv in E.
  destruct E as (msg_models & _ & W & _). rewrite W.
  destruct (raw_weight_cases msg_models) as [[Z ->]|[N ->]]; lra.
Qed.

(** C4, as amended. The raw difference gets the weight 1 exactly when
    the models' weights add up to 0 and the weight 0 otherwise; so the
    total weight is not 0 once the raw opinion is in, the score handed
    to the averages model is defined and that model's opinion is added.
    When no opinion of a model and not the averages model has a
    negative weight, the total weight ends positive and the final score
    is defined. *)
Theorem combined_score_defined (self : RelativeResults.t)
    (averages : AveragesModel.t) (test_name : string) (src dst : value)
    (difference : Q) (tolerance : option Q) (msg : WeightedResult.t) :
  RelativeResults.weigh self test_name src dst difference tolerance = Ok msg ->
  (exists msg_models,
     RelativeResults.add_models (WeightedResult.init dst tolerance) 0
       (RelativeResults.models self) test_name src dst = Ok msg_models
     /\ WeightedResult.agg_weights msg
        = WeightedResult.agg_weights msg_models
          + RelativeResults.raw_weight msg_models
     /\ (WeightedResult.agg_weights msg_models == 0 ->
         RelativeResults.raw_weight msg_models = 1)
     /\ (~ WeightedResult.agg_weights msg_models == 0 ->
         RelativeResults.raw_weight msg_models = 0))
  /\ ~ WeightedResult.agg_weights msg == 0
  /\ (exists score, WeightedResult.score msg = Ok score)
  /\ (exists msg' averages',
        RelativeResults.weigh_averages msg averages test_name
        = Ok (msg', averages')
        /\ (nonneg_models (RelativeResults.models self) test_name src dst ->
            0 <= AveragesModel.weight averages ->
            0 < WeightedResult.agg_weights msg'
            /\ exists score', WeightedResult.score msg' = Ok score')).
Proof.
  intros E. pose proof (weigh_weight_nonzero _ _ _ _ _ _ _ E) as NZ.
  pose proof (weigh_inv _ _ _ _ _ _ _ E)
    as (msg_models & M & W & T & _ & _ & (tol & ->)).
  split.
  { exists msg_models. split; [exact M|]. split; [exact W|].
    destruct (raw_weight_cases msg_models) as [[Z ->]|[N ->]];
      split; intros; try reflexivity; contradiction. }
  split; [exact NZ|].
  assert (Sc : WeightedResult.score msg
               = Ok (WeightedResult.agg_diffs msg
                     / WeightedResult.agg_weights msg))
    by (apply pydiv_Ok, NZ).
  split; [eauto|].
  destruct (check_result_averages_total averages test_name
              (WeightedResult.agg_diffs msg / WeightedResult.agg_weights msg))
    as (results & averages' & C).
  destruct (add_all_total results msg None tol T) as (msg' & A).
  exists msg', averages'. split.
  { unfold RelativeResults.weigh_averages. rewrite Sc. cbn [bind].
    rewrite C. cbn [bind]. rewrite A. reflexivity. }
  intros NM NA.
  apply check_result_averages_inv in C. destruct C as (_ & _ & _ & P).
  apply add_all_inv in A. destruct A as (_ & _ & W' & _).
  pose proof (fold_weights_mono results (WeightedResult.agg_weights msg)
                (P NA)) as Mono.
  rewrite <- W' in Mono.
  pose proof (add_models_nonneg _ _ _ _ _ _ _ NM M) as Pos. cbn in Pos.
  assert (G : 0 < WeightedResult.agg_weights msg').
  { rewrite W in Mono, NZ.
    destruct (raw_weight_cases msg_models) as [[Z R]|[N R]];
      rewrite R in Mono, NZ; lra. }
  split; [exact G|].
  eexists. apply pydiv_Ok. lra.
Qed.

(** ** The exit code *)

Lemma filter_nil_iff {A : Type} (f : A -> bool) (l : list A) :
  filter f l = [] <-> forall x, In x l -> f x = false.
Proof.
  induction l as [|a l IH]; cbn.
  - split; [intros _ x [] | reflexivity].
  - destruct (f a) eqn:E; split.
    + discriminate.
    + intros F. specialize (F a (or_introl eq_refl)). congruence.
    + intros N x [<-|I]; [exact E | now apply IH].
    + intros F. apply IH. intros x I. apply F. now right.
Qed.

Lemma length_zero_eqb {A : Type} (l : list A) :
  (List.length l =? 0)%nat = true <-> l = [].
Proof.
  destruct l; cbn; split; congruence.
Qed.

Lemma finish_no_failure (self : RelativeResults.t) :
  no_counted_failure self ->
  RelativeResults.finish self
  = match RelativeResults.records self with [] => 3%Z | _ => 0%Z end.
Proof.
  intros [P G]. unfold RelativeResults.finish, RelativeResults.count_failures.
  assert (E1 : filter (fun r => (Result.status r <? 0)%Z && Result.primary r)
                      (RelativeResults.records self) = []).
  { apply filter_nil_iff. intros r I.
    destruct (Z.ltb_spec (Result.status r) 0) as [L|L]; [|reflexivity].
    cbn. exact (P r I L). }
  assert (E2 : filter (fun r => (Result.status r <? 0)%Z)
                      (RelativeResults.grouped_records self) = []).
  { apply filter_nil_iff. intros r I. apply Z.ltb_ge.
    specialize (G r I). unfold failed in G. lia. }
  rewrite E1, E2. reflexivity.
Qed.

(** C2. [finish] returns 2 when a primary record or a grouped record
    failed (status below 0). Without such a failure it returns 3 when
    there is no record and 0 when there is one, also when records that
    are not primary failed. Grouped records exist only where records do,
    and then 3 is returned exactly when there is no record at all and 0
    in every other case without a counted failure. *)
Theorem finish_exit_code (self : RelativeResults.t) :
  ((exists r, In r (RelativeResults.records self) /\ failed r
              /\ Result.primary r = true)
   \/ (exists r, In r (RelativeResults.grouped_records self) /\ failed r) ->
   RelativeResults.finish self = 2%Z)
  /\ (RelativeResults.records self = [] ->
      RelativeResults.grouped_records self = [] ->
      RelativeResults.finish self = 3%Z)
  /\ (no_counted_failure self -> RelativeResults.records self = [] ->
      RelativeResults.finish self = 3%Z)
  /\ (no_counted_failure self -> RelativeResults.records self <> [] ->
      RelativeResults.finish self = 0%Z)
  /\ (grouped_derived self -> no_counted_failure self ->
      ~ (RelativeResults.records self = []
         /\ RelativeResults.grouped_records self = []) ->
      RelativeResults.finish self = 0%Z).
Proof.
  split; [|split; [|split; [|split]]].
  - intros F. unfold RelativeResults.finish, RelativeResults.count_failures.
    destruct F as [(r & I & L & P)|(r & I & L)].
    + destruct (filter _ (RelativeResults.records self)) eqn:E.
      * pose proof (proj1 (filter_nil_iff _ _) E r I) as N. cbn in N.
        apply Z.ltb_lt in L. rewrite L, P in N. discriminate N.
      * reflexivity.
    + destruct (filter (fun r => (Result.status r <? 0)%Z)
                       (RelativeResults.grouped_records self)) eqn:E.
      * pose proof (proj1 (filter_nil_iff _ _) E r I) as N. cbn in N.
        apply Z.ltb_lt in L. rewrite L in N. discriminate N.
      * cbn. rewrite orb_true_r. reflexivity.
  - intros R G. rewrite finish_no_failure; [now rewrite R|].
    split; intros r I; [rewrite R in I | rewrite G in I]; destruct I.
  - intros N R. rewrite (finish_no_failure _ N). now rewrite R.
  - intros N R. rewrite (finish_no_failure _ N).
    destruct (RelativeResults.records self); congruence.
  - intros D N R. rewrite (finish_no_failure _ N).
    destruct (RelativeResults.records self) eqn:E; [|reflexivity].
    exfalso. apply R. split; [reflexivity | now apply D].
Qed.

(** ** Grouped results *)

Lemma dict_get_set_other {V : Type} (d : dict V) (k k' : string) (v : V) :
  k <> k' -> dict_get (dict_set d k v) k' = dict_get d k'.
Proof.
  intros N. induction d as [|[k0 v0] d IH]; cbn.
  - destruct (String.eqb_spec k k'); congruence.
  - destruct (String.eqb_spec k0 k) as [->|N0]; cbn.
    + destruct (String.eqb_spec k k'); congruence.
    + now rewrite IH.
Qed.

Lemma dict_keys_set {V : Type} (d : dict V) (k : string) (v : V) :
  dict_keys (dict_set d k v)
  = if dict_mem d k then dict_keys d else (dict_keys d ++ [k])%list.
Proof.
  unfold dict_mem. induction d as [|[k0 v0] d IH]; cbn.
  - reflexivity.
  - destruct (String.eqb_spec k0 k) as [->|N]; cbn.
    + reflexivity.
    + unfold dict_keys in IH. rewrite IH.
      destruct (dict_get d k); reflexivity.
Qed.

Lemma dict_get_None_keys {V : Type} (d : dict V) (k : string) :
  dict_get d k = None -> ~ In k (dict_keys d).
Proof.
  induction d as [|[k0 v0] d IH]; cbn.
  - intros _ [].
  - destruct (String.eqb_spec k0 k) as [->|N]; [discriminate|].
    intros E [F|I]; [congruence | now apply IH].
Qed.

Lemma dict_set_NoDup {V : Type} (d : dict V) (k : string) (v : V) :
  NoDup (dict_keys d) -> NoDup (dict_keys (dict_set d k v)).
Proof.
  intros N. rewrite dict_keys_set. unfold dict_mem.
  destruct (dict_get d k) eqn:E; [exact N|].
  apply NoDup_app; [exact N | constructor; [intros [] | constructor] |].
  intros x I [<-|[]]. now apply dict_get_None_keys in E.
Qed.

Lemma dict_get_In {V : Type} (d : dict V) (k : string) (v : V) :
  NoDup (dict_keys d) -> In (k, v) d -> dict_get d k = Some v.
Proof.
  induction d as [|[k0 v0] d IH]; cbn; intros N I; [destruct I|].
  inversion N as [|? ? NI N']; subst.
  destruct I as [[= -> ->]|I].
  - now rewrite String.eqb_refl.
  - destruct (String.eqb_spec k0 k) as [->|_]; [|now apply IH].
    exfalso. apply NI. change k with (fst (k, v)). now apply in_map.
Qed.

Lemma group_scores_spec `{Regex} (merge : list string)
    (records : list Result.t) :
  forall values groups : dict (list Q),
    RelativeResults.group_scores records merge values = Ok groups ->
    (NoDup (dict_keys values) -> NoDup (dict_keys groups))
    /\ forall name,
         dict_get groups name
         = match dict_get values name with
           | Some l => Some (l ++ member_scores records merge name)%list
           | None =>
               match member_scores records merge name with
               | [] => None
               | l => Some l
               end
           end.
Proof.
  induction records as [|r rest IH]; intros values groups E.
  - injection E as <-. split; [auto|]. intros name. cbn.
    destruct (dict_get values name); [now rewrite app_nil_r | reflexivity].
  - cbn [RelativeResults.group_scores] in E. bind_inv E.
    apply IH in E. destruct E as [N G]. split.
    + intros D. apply N. now apply dict_set_NoDup.
    + intros name. rewrite G. unfold member_scores. cbn [filter].
      rewrite Ea. destruct (String.eqb_spec a name) as [->|NE].
      * rewrite dict_get_set_same. cbn [map].
        destruct (dict_get values name); cbn; [|reflexivity].
        now rewrite <- app_assoc.
      * now rewrite dict_get_set_other.
Qed.

Lemma record_groups_inv `{Builtins} (groups : list (string * list Q)) :
  forall (self self' : RelativeResults.t)
         (averages averages' : AveragesModel.t),
    RelativeResults.record_groups self averages groups
    = Ok (self', averages') ->
    RelativeResults.records self' = RelativeResults.records self
    /\ RelativeResults.mean_tolerance self'
       = RelativeResults.mean_tolerance self
    /\ exists new,
         RelativeResults.grouped_records self'
         = (RelativeResults.grouped_records self ++ new)%list
         /\ Forall2 (group_result (RelativeResults.mean_tolerance self))
                    groups new.
Proof.
  induction groups as [|[test_name values] rest IH];
    intros self self' averages averages' E.
  - injection E as <- <-. split; [reflexivity|]. split; [reflexivity|].
    exists []. split; [now rewrite app_nil_r | constructor].
  - cbn [RelativeResults.record_groups] in E. bind_inv E.
    unfold RelativeResults.grouped_tolerance in Ea. bind_inv Ea.
    injection Ea as <-. bind_inv E. destruct a as [[r self1] averages1].
    apply record_result_inv in Ea.
    destruct Ea as (d & tol & _ & _ & DT & _ & _ & _ & St & RT & Sr & Ds
                    & P & _ & ->).
    injection DT as _ <-.
    apply IH in E. destruct E as (R & M & new & G & F). cbn in R, M, G.
    split; [exact R|]. split; [exact M|].
    exists (r :: new). split; [now rewrite G, <- app_assoc|].
    constructor; [|exact F].
    exists a0. cbn [snd]. auto 10.
Qed.

Lemma expand_pass_groups `{Builtins} `{Regex}
    (self self' : RelativeResults.t) (averages averages' : AveragesModel.t)
    (records : list Result.t) (merge : list string) :
  RelativeResults._expand_grouped_result self averages records merge
  = Ok (self', averages') ->
  exists groups new,
    RelativeResults.group_scores records merge [] = Ok groups
    /\ RelativeResults.records self' = RelativeResults.records self
    /\ RelativeResults.mean_tolerance self'
       = RelativeResults.mean_tolerance self
    /\ RelativeResults.grouped_records self'
       = (RelativeResults.grouped_records self ++ new)%list
    /\ Forall2
         (fun g r =>
            snd g = member_scores records merge (fst g)
            /\ grouped_from (RelativeResults.mean_tolerance self) (snd g) r)
         groups new.
Proof.
  unfold RelativeResults._expand_grouped_result. intros E. bind_inv E.
  rename a into groups. exists groups.
  apply record_groups_inv in E. destruct E as (R & MT & new & G & F).
  exists new. split; [exact Ea|]. split; [exact R|]. split; [exact MT|].
  split; [exact G|].
  apply group_scores_spec in Ea. destruct Ea as [N S].
  specialize (N (NoDup_nil _)).
  assert (M : forall g, In g groups ->
                        snd g = member_scores records merge (fst g)
                        /\ (1 <= List.length (snd g))%nat).
  { intros [name values] I. cbn [fst snd].
    pose proof (dict_get_In _ _ _ N I) as D. rewrite S in D. cbn in D.
    destruct (member_scores records merge name) eqn:MS; [discriminate|].
    injection D as <-. split; [reflexivity | cbn; lia]. }
  clear -F M. induction F as [|g r groups new (u & U & RT & St & Sr & Ds & _)
                                 F IH]; constructor.
  - destruct (M g (or_introl eq_refl)) as [Mg Lg].
    split; [exact Mg|]. split; [exact Lg|]. exists u. auto.
  - apply IH. intros g' I. apply M. now right.
Qed.

Lemma Forall2_Forall_r {A B : Type} (P : A -> B -> Prop) (Q : B -> Prop)
    (l : list A) (l' : list B) :
  Forall2 P l l' -> (forall a b, P a b -> Q b) -> Forall Q l'.
Proof.
  intros F K. induction F; constructor; eauto.
Qed.

(** C5. After a grouping pass every group has its Result among the
    grouped records, in order: the group holds the scores of its
    members, at least one; the Result carries and is classified by the
    tolerance [mean_tolerance * uncertainty(n) / 2] for the [n] members,
    and its source and destination are the average of their scores. So
    it is for every Result the three passes of [expand_grouped_results]
    add. *)
Theorem grouped_result_tolerance `{Builtins} `{Regex}
    (self self' : RelativeResults.t) (averages averages' : AveragesModel.t) :
  (forall (records : list Result.t) (merge : list string),
     RelativeResults._expand_grouped_result self averages records merge
     = Ok (self', averages') ->
     exists groups new,
       RelativeResults.group_scores records merge [] = Ok groups
       /\ RelativeResults.records self' = RelativeResults.records self
       /\ RelativeResults.grouped_records self'
          = (RelativeResults.grouped_records self ++ new)%list
       /\ Forall2
            (fun g r =>
               snd g = member_scores records merge (fst g)
               /\ grouped_from (RelativeResults.mean_tolerance self)
                    (snd g) r)
            groups new)
  /\ (RelativeResults.expand_grouped_results self averages
      = Ok (self', averages') ->
      exists new,
        RelativeResults.grouped_records self'
        = (RelativeResults.grouped_records self ++ new)%list
        /\ Forall
             (fun r =>
                exists records merge name,
                  grouped_from (RelativeResults.mean_tolerance self)
                    (member_scores records merge name) r)
             new).
Proof.
  split.
  - intros records merge E. apply expand_pass_groups in E.
    destruct E as (groups & new & G & R & _ & GR & F).
    exists groups, new. auto.
  - unfold RelativeResults.expand_grouped_results. intros E.
    bind_inv E. destruct a as [self1 averages1]. bind_inv E.
    destruct a as [self2 averages2].
    apply expand_pass_groups in Ea, Ea0, E.
    destruct Ea as (g1 & n1 & _ & _ & M1 & G1 & F1).
    destruct Ea0 as (g2 & n2 & _ & _ & M2 & G2 & F2).
    destruct E as (g3 & n3 & _ & _ & _ & G3 & F3).
    rewrite M2, M1 in F3. rewrite M1 in F2.
    exists (n1 ++ n2 ++ n3)%list. split.
    + rewrite G3, G2, G1, <- !app_assoc. reflexivity.
    + assert (K : forall records merge groups new,
                 Forall2
                   (fun g r =>
                      snd g = member_scores records merge (fst g)
                      /\ grouped_from (RelativeResults.mean_tolerance self)
                           (snd g) r)
                   groups new ->
                 Forall
                   (fun r =>
                      exists records merge name,
                        grouped_from (RelativeResults.mean_tolerance self)
                          (member_scores records merge name) r)
                   new).
      { intros records merge groups new F.
        apply (Forall2_Forall_r _ _ _ _ F).
        intros g r [Eg Gr]. rewrite Eg in Gr.
        exists records, merge, (fst g). exact Gr. }
      apply Forall_app. split; [exact (K _ _ _ _ F1)|].
      apply Forall_app. split; [exact (K _ _ _ _ F2) | exact (K _ _ _ _ F3)].
Qed.

(** ** Unmatched metrics *)

Lemma str_in_iff (x : string) (l : list string) :
  str_in x l = true <-> In x l.
Proof.
  unfold str_in. rewrite existsb_exists. split.
  - intros (y & I & E). apply String.eqb_eq in E. now subst.
  - intros I. exists x. split; [exact I | apply String.eqb_refl].
Qed.

Lemma str_remove_Ok (x : string) (l : list string) :
  In x l -> exists l', str_remove x l = Ok l'.
Proof.
  induction l as [|y l IH]; cbn; intros I; [destruct I|].
  destruct (String.eqb_spec y x) as [->|N]; [eauto|].
  destruct I as [->|I]; [congruence|].
  destruct (IH I) as (l' & ->). cbn. eauto.
Qed.

Lemma str_remove_inv (x : string) (l l' : list string) :
  str_remove x l = Ok l' ->
  incl l' l /\ forall t, In t l -> t <> x -> In t l'.
Proof.
  revert l'. induction l as [|y l IH]; cbn; intros l' E; [discriminate|].
  destruct (String.eqb_spec y x) as [->|N].
  - injection E as <-. split; [apply incl_tl, incl_refl|].
    intros t [<-|I] D; [congruence | exact I].
  - bind_inv E. injection E as <-. destruct (IH _ Ea) as [Inc K]. split.
    + intros t [<-|I]; [now left | right; now apply Inc].
    + intros t [<-|I] D; [now left | right; now apply K].
Qed.

Lemma dict_get_keys {V : Type} (d : dict V) (k : string) :
  In k (dict_keys d) -> exists v, dict_get d k = Some v.
Proof.
  induction d as [|[k0 v0] d IH]; cbn; intros I; [destruct I|].
  destruct (String.eqb_spec k0 k) as [->|N]; [eauto|].
  destruct I as [E|I]; [congruence | now apply IH].
Qed.

Lemma dict_get_Some_keys {V : Type} (d : dict V) (k : string) (v : V) :
  dict_get d k = Some v -> In k (dict_keys d).
Proof.
  induction d as [|[k0 v0] d IH]; cbn; [discriminate|].
  destruct (String.eqb_spec k0 k) as [->|N]; [now left|].
  intros E. right. now apply IH.
Qed.

Lemma add_dst_results_Ok `{Builtins} (self : ResultsContainer.t)
    (dst : list measurement) :
  forall (res res' : RelativeResults.t) (averages averages' : AveragesModel.t)
         (src_tests src_tests' : list string),
    ResultsContainer.add_dst_results self res averages src_tests dst
    = Ok (res', averages', src_tests') ->
    RelativeResults.grouped_records res' = RelativeResults.grouped_records res
    /\ incl src_tests' src_tests
    /\ (forall t, In t src_tests -> ~ In t (map m_test dst) ->
                  In t src_tests')
    /\ exists new,
         RelativeResults.records res'
         = (RelativeResults.records res ++ new)%list
         /\ Forall2 (result_for src_tests) dst new.
Proof.
  induction dst as [|m rest IH];
    intros res res' averages averages' src_tests src_tests' E.
  - injection E as <- <- <-. split; [reflexivity|].
    split; [apply incl_refl|]. split; [auto|].
    exists []. split; [now rewrite app_nil_r | constructor].
  - cbn [ResultsContainer.add_dst_results] in E.
    destruct (str_in (m_test m) src_tests) eqn:S.
    + destruct (dict_get _ _) as [[[src_score p0] ps0]|]; [|discriminate].
      bind_inv E. destruct a as [[r res1] averages1]. bind_inv E.
      apply record_result_inv in Ea.
      destruct Ea as (_ & _ & _ & _ & _ & _ & _ & _ & _ & _ & Sr & Ds & _ & I
                      & ->).
      rewrite <- Sr, <- Ds in I.
      apply str_remove_inv in Ea0. destruct Ea0 as [Inc K].
      apply IH in E. destruct E as (G & Inc' & K' & new & R & F).
      cbn in G, R. split; [exact G|].
      split; [intros t T; apply Inc, Inc', T|].
      split.
      { intros t T N. apply K'.
        - apply K; [exact T|]. intros ->. apply N. now left.
        - intros M. apply N. now right. }
      exists (r :: new). split; [now rewrite R, <- app_assoc|].
      constructor.
      * split; [exact I|]. intros N. apply str_in_iff in S. contradiction.
      * eapply Forall2_impl; [|exact F]. intros m' r' [I' B'].
        split; [exact I'|]. intros N. apply B'. intros T. apply N, Inc, T.
    + apply IH in E. destruct E as (G & Inc' & K' & new & R & F).
      cbn in G, R. split; [exact G|]. split; [exact Inc'|].
      split.
      { intros t T N. apply K'; [exact T|]. intros M. apply N. now right. }
      exists (broken_source m :: new).
      split; [now rewrite R, <- app_assoc|].
      constructor; [|exact F].
      split; [reflexivity|]. reflexivity.
Qed.

Lemma add_dst_results_Raise `{Builtins} (self : ResultsContainer.t)
    (dst : list measurement) :
  forall (res : RelativeResults.t) (averages : AveragesModel.t)
         (src_tests : list string) (e : exn),
    incl src_tests (dict_keys (ResultsContainer.src_results self)) ->
    ResultsContainer.add_dst_results self res averages src_tests dst
    = Raise e ->
    exists m res0 averages0 src_score primary0 params0,
      In m dst
      /\ dict_get (ResultsContainer.src_results self) (m_test m)
         = Some (src_score, primary0, params0)
      /\ RelativeResults.record_result res0 averages0 (m_test m) src_score
           (m_score m) (m_primary m) false None None (Some (m_params m))
         = Raise e.
Proof.
  induction dst as [|m rest IH]; intros res averages src_tests e Inc E.
  - discriminate E.
  - cbn [ResultsContainer.add_dst_results] in E.
    assert (Step : forall res1 averages1 src_tests1,
               incl src_tests1
                    (dict_keys (ResultsContainer.src_results self)) ->
               ResultsContainer.add_dst_results self res1 averages1
                 src_tests1 rest = Raise e ->
               exists m0 res0 averages0 src_score primary0 params0,
                 In m0 (m :: rest)
                 /\ dict_get (ResultsContainer.src_results self) (m_test m0)
                    = Some (src_score, primary0, params0)
                 /\ RelativeResults.record_result res0 averages0 (m_test m0)
                      src_score (m_score m0) (m_primary m0) false None None
                      (Some (m_params m0)) = Raise e).
    { intros res1 averages1 src_tests1 Inc1 E1.
      destruct (IH _ _ _ _ Inc1 E1) as (m0 & r0 & a0 & s0 & p0 & q0 & I & R).
      exists m0, r0, a0, s0, p0, q0. split; [now right | exact R]. }
    destruct (str_in (m_test m) src_tests) eqn:S.
    + apply str_in_iff in S.
      destruct (dict_get_keys _ _ (Inc _ S)) as ([[src_score p0] ps0] & D).
      rewrite D in E. apply bind_Raise_inv in E.
      destruct E as [E|([[r res1] averages1] & _ & E)].
      * exists m, res, averages, src_score, p0, ps0.
        split; [now left|]. split; [exact D | exact E].
      * destruct (str_remove_Ok _ _ S) as (l' & L). rewrite L in E.
        cbn [bind] in E. apply (Step _ _ _ (fun t T =>
          Inc t (proj1 (str_remove_inv _ _ _ L) t T)) E).
    + apply (Step _ _ _ Inc E).
Qed.

Lemma add_missing_Ok (self : ResultsContainer.t) (src_tests : list string) :
  forall res : RelativeResults.t,
    incl src_tests (dict_keys (ResultsContainer.src_results self)) ->
    exists res',
      ResultsContainer.add_missing self res src_tests = Ok res'
      /\ RelativeResults.grouped_records res'
         = RelativeResults.grouped_records res
      /\ exists new,
           RelativeResults.records res'
           = (RelativeResults.records res ++ new)%list
           /\ Forall2
                (fun test r =>
                   exists score primary params,
                     dict_get (ResultsContainer.src_results self) test
                     = Some (score, primary, params)
                     /\ r = broken_target test primary)
                src_tests new.
Proof.
  induction src_tests as [|test rest IH]; intros res Inc.
  - exists res. split; [reflexivity|]. split; [reflexivity|].
    exists []. split; [now rewrite app_nil_r | constructor].
  - cbn [ResultsContainer.add_missing].
    destruct (dict_get_keys _ _ (Inc test (or_introl eq_refl)))
      as ([[score primary] ps] & D).
    rewrite D.
    destruct (IH (RelativeResults.record_broken res test
                    (Some (Message [Lit "Not present in target results (";
                                    Shown (VNum (-100)); Lit ")"]))
                    primary None))
      as (res' & E & G & new & R & F).
    { intros t T. apply Inc. now right. }
    exists res'. split; [exact E|]. split; [exact G|].
    exists (broken_target test primary :: new).
    split; [cbn in R; now rewrite R, <- app_assoc|].
    constructor; [|exact F]. exists score, primary, ps. auto.
Qed.

(** C6. [add_result_by_path] raises only what the comparison of a
    metric that both sets have raises, so a metric one set lacks never
    makes it fail, and it returns when the sets share no metric. When
    it returns, every destination measurement has
    its Result, in order, and the source tests without a match follow:
    a source test no destination measurement names has the broken
    Result "Not present in target results", a destination measurement
    without a source test the broken Result "Not present in source
    results"; both have the status ERROR and the score -100. *)
Theorem unmatched_metrics_broken `{Builtins} (self : ResultsContainer.t)
    (name : string) (metadata : dict string) (dst : list measurement)
    (last : bool) :
  (forall e,
     ResultsContainer.add_result_by_path self name metadata dst last
     = Raise e ->
     exists m res0 averages0 src_score primary0 params0,
       In m dst
       /\ dict_get (ResultsContainer.src_results self) (m_test m)
          = Some (src_score, primary0, params0)
       /\ RelativeResults.record_result res0 averages0 (m_test m) src_score
            (m_score m) (m_primary m) false None None (Some (m_params m))
          = Raise e)
  /\ ((forall m, In m dst ->
                 dict_get (ResultsContainer.src_results self) (m_test m)
                 = None) ->
      exists res self',
        ResultsContainer.add_result_by_path self name metadata dst last
        = Ok (res, self'))
  /\ (forall res self',
        ResultsContainer.add_result_by_path self name metadata dst last
        = Ok (res, self') ->
        (forall test score primary params,
           dict_get (ResultsContainer.src_results self) test
           = Some (score, primary, params) ->
           ~ In test (map m_test dst) ->
           In (broken_target test primary) (RelativeResults.records res))
        /\ (forall m,
              In m dst ->
              dict_get (ResultsContainer.src_results self) (m_test m) = None ->
              In (broken_source m) (RelativeResults.records res))
        /\ (exists compared missing,
              RelativeResults.records res = (compared ++ missing)%list
              /\ Forall2
                   (result_for
                      (dict_keys (ResultsContainer.src_results self)))
                   dst compared)
        /\ RelativeResults.grouped_records res = [])
  /\ (forall test primary,
        Result.status (broken_target test primary) = ERROR
        /\ Result.score (broken_target test primary) == -100)
  /\ (forall m,
        Result.status (broken_source m) = ERROR
        /\ Result.score (broken_source m) == -100).
Proof.
  assert (Crash : forall e,
             ResultsContainer.add_result_by_path self name metadata dst last
             = Raise e ->
             exists m res0 averages0 src_score primary0 params0,
               In m dst
               /\ dict_get (ResultsContainer.src_results self) (m_test m)
                  = Some (src_score, primary0, params0)
               /\ RelativeResults.record_result res0 averages0 (m_test m)
                    src_score (m_score m) (m_primary m) false None None
                    (Some (m_params m)) = Raise e).
  { intros e E. unfold ResultsContainer.add_result_by_path in E.
    apply bind_Raise_inv in E.
    destruct E as [E|([[res1 averages1] src_tests1] & E1 & E)].
    + apply add_dst_results_Raise in E; [exact E | apply incl_refl].
    + apply add_dst_results_Ok in E1. destruct E1 as (_ & Inc & _).
      destruct (add_missing_Ok self src_tests1 res1 Inc) as (res' & M & _).
      rewrite M in E. discriminate E. }
  split; [exact Crash|]. split; [|split; [|split]].
  - intros U.
    destruct (ResultsContainer.add_result_by_path self name metadata dst last)
      as [[res self']|e] eqn:E; [eauto|].
    destruct (Crash e eq_refl) as (m & _ & _ & s & p & q & I & D & _).
    rewrite (U m I) in D. discriminate D.
  - intros res self' E. unfold ResultsContainer.add_result_by_path in E.
    bind_inv E. destruct a as [[res1 averages1] src_tests1].
    apply add_dst_results_Ok in Ea.
    destruct Ea as (G & Inc & K & compared & R & F). cbn in G, R.
    destruct (add_missing_Ok self src_tests1 res1 Inc)
      as (res' & M & G' & missing & R' & F').
    rewrite M in E. injection E as <- <-.
    split; [|split; [|split]].
    + intros test score primary params D N.
      assert (T : In test src_tests1).
      { apply K; [|exact N]. now apply dict_get_Some_keys in D. }
      rewrite R'. apply in_or_app. right.
      clear -F' T D. induction F' as [|t r ts rs (s & p & q & D' & ->) F' IH].
      * destruct T.
      * destruct T as [->|T]; [|right; now apply IH].
        left. rewrite D in D'. now injection D' as _ <- _.
    + intros m I D. rewrite R', R. apply in_or_app. left.
      clear -F I D. induction F as [|m' r ms rs [_ B] F IH].
      * destruct I.
      * destruct I as [->|I]; [|right; now apply IH].
        left. apply B. intros T. apply dict_get_keys in T.
        destruct T as (v & T). congruence.
    + exists compared, missing. split; [now rewrite R', R | exact F].
    + now rewrite G', G.
  - intros test primary. split; reflexivity.
  - intros m. split; reflexivity.
Qed.

(** ** Selecting the closest result *)

Lemma fold_max_spec (l : list Q) :
  forall x : Q,
    let m := fold_left (fun m y => if Qlt_bool m y then y else m) l x in
    (m = x \/ In m l) /\ x <= m /\ forall y, In y l -> y <= m.
Proof.
  induction l as [|a l IH]; intros x; cbn.
  - split; [now left|]. split; [lra | intros y []].
  - specialize (IH (if Qlt_bool x a then a else x)). cbn in IH.
    destruct IH as (M & L & A).
    destruct (Qlt_bool x a) eqn:C.
    + apply Qlt_bool_iff in C. split; [|split].
      * right. destruct M as [->|M]; [now left | now right].
      * lra.
      * intros y [<-|I]; [exact L | now apply A].
    + apply Qlt_bool_false_iff in C. split; [|split].
      * destruct M as [->|M]; [now left | right; now right].
      * exact L.
      * intros y [<-|I]; [lra | now apply A].
Qed.

Lemma pymax_spec (l : list Q) :
  l <> [] ->
  exists m, Closest.pymax l = Ok m /\ In m l /\ forall y, In y l -> y <= m.
Proof.
  destruct l as [|x l]; [congruence|]. intros _. cbn.
  destruct (fold_max_spec l x) as (M & L & A).
  eexists. split; [reflexivity|]. split.
  - destruct M as [->|M]; [now left | now right].
  - intros y [<-|I]; [exact L | now apply A].
Qed.

Lemma item_nth {A : Type} (l : list A) (i : nat) (d : A) :
  (i < List.length l)%nat -> Closest.item l i = Ok (nth i l d).
Proof.
  intros L. unfold Closest.item. now rewrite (nth_error_nth' l d L).
Qed.

Lemma mapM_item (storage : list Q) (selection : list nat) :
  (forall i, In i selection -> (i < List.length storage)%nat) ->
  mapM (Closest.item storage) selection
  = Ok (map (fun i => nth i storage 0) selection).
Proof.
  induction selection as [|i rest IH]; intros R; cbn; [reflexivity|].
  rewrite (item_nth storage i 0) by (apply R; now left). cbn.
  rewrite IH by (intros j J; apply R; now right). reflexivity.
Qed.

Lemma first_with_find (storage : list Q) (score : Q) (selection : list nat) :
  (forall i, In i selection -> (i < List.length storage)%nat) ->
  Closest.first_with storage score selection
  = Ok (find (fun i => Qeq_bool (nth i storage 0) score) selection).
Proof.
  induction selection as [|i rest IH]; intros R; cbn; [reflexivity|].
  rewrite (item_nth storage i 0) by (apply R; now left). cbn.
  destruct (Qeq_bool (nth i storage 0) score); [reflexivity|].
  apply IH. intros j J. apply R. now right.
Qed.

Lemma ties_enumerate (g : nat -> bool) (score : Q) (storage : list Q) :
  forall k : nat,
    map fst (filter (fun iv => g (fst iv) && Qeq_bool (snd iv) score)
                    (Closest.enumerate_from k storage))
    = filter (fun i => g i && Qeq_bool (nth (i - k) storage 0) score)
             (seq k (List.length storage)).
Proof.
  induction storage as [|x storage IH]; intros k; cbn [Closest.enumerate_from
    List.length seq filter fst snd]; [reflexivity|].
  rewrite Nat.sub_diag. change (nth 0 (x :: storage) 0) with x.
  assert (T : filter (fun i => g i
                               && Qeq_bool (nth (i - k) (x :: storage) 0) score)
                     (seq (S k) (List.length storage))
              = filter (fun i => g i
                                 && Qeq_bool (nth (i - S k) storage 0) score)
                       (seq (S k) (List.length storage))).
  { apply filter_ext_in. intros i I. apply in_seq in I.
    replace (i - k)%nat with (S (i - S k)) by lia. reflexivity. }
  destruct (g k && Qeq_bool x score); cbn [map fst]; rewrite IH, T;
    reflexivity.
Qed.

Lemma tied_In (storage : list Q) (selection : list nat) (score : Q) (i : nat) :
  In i (tied storage selection score)
  <-> (i < List.length storage)%nat /\ In i selection
      /\ nth i storage 0 == score.
Proof.
  unfold tied. rewrite filter_In, in_seq, andb_true_iff, existsb_exists,
    Qeq_bool_iff.
  split.
  - intros (L & (j & J & E) & Q). apply Nat.eqb_eq in E. subst j.
    split; [lia | auto].
  - intros (L & J & Q). split; [lia|]. split; [|exact Q].
    exists i. split; [exact J | apply Nat.eqb_refl].
Qed.

Lemma filter_seq_first (f : nat -> bool) (n : nat) :
  forall (a i : nat) (rest : list nat),
    filter f (seq a n) = i :: rest ->
    forall j, In j (filter f (seq a n)) -> (i <= j)%nat.
Proof.
  induction n as [|n IH]; intros a i rest E j J; cbn in *; [discriminate|].
  destruct (f a).
  - injection E as <- _. destruct J as [<-|J]; [lia|].
    apply filter_In in J. destruct J as [J _]. apply in_seq in J. lia.
  - eapply IH; eauto.
Qed.

Lemma count_indexes (score : Q) (storage : list Q) :
  Closest.count storage score
  = List.length (filter (fun i => Qeq_bool (nth i storage 0) score)
                        (seq 0 (List.length storage))).
Proof.
  unfold Closest.count.
  assert (T : filter (fun i => Qeq_bool (nth i storage 0) score)
                     (seq 0 (List.length storage))
              = filter (fun i => true
                                 && Qeq_bool (nth (i - 0) storage 0) score)
                       (seq 0 (List.length storage))).
  { apply filter_ext. intros i. replace (i - 0)%nat with i by lia.
    reflexivity. }
  rewrite T, <- (ties_enumerate (fun _ => true)), length_map. clear T.
  generalize 0%nat. induction storage as [|x storage IH]; intros k; cbn.
  - reflexivity.
  - destruct (Qeq_bool x score); cbn; [f_equal|]; apply (IH (S k)).
Qed.

Lemma NoDup_singleton {A : Type} (l : list A) (i : A) :
  NoDup l -> In i l -> (forall x, In x l -> x = i) -> l = [i].
Proof.
  intros N I E. destruct l as [|a l]; [destruct I|].
  rewrite (E a (or_introl eq_refl)) in *.
  destruct l as [|b l]; [reflexivity|].
  inversion N as [|? ? NI _]; subst. exfalso. apply NI.
  rewrite (E b (or_intror (or_introl eq_refl))). now left.
Qed.

Lemma process_score_spec (storage : list Q) (selection : list nat) :
  selection <> [] ->
  (forall i, In i selection -> (i < List.length storage)%nat) ->
  exists score ret,
    Closest.process_score storage selection = Ok ret
    /\ (exists i0, In i0 selection /\ nth i0 storage 0 = score)
    /\ (forall i, In i selection -> nth i storage 0 <= score)
    /\ match ret with
       | inl i => tied storage selection score = [i]
       | inr l => l = tied storage selection score
       end.
Proof.
  intros NE R. unfold Closest.process_score.
  rewrite (mapM_item _ _ R). cbn [bind].
  destruct (pymax_spec (map (fun i => nth i storage 0) selection))
    as (score & P & I & M).
  { destruct selection; [congruence | discriminate]. }
  rewrite P. cbn [bind]. apply in_map_iff in I. destruct I as (i0 & E0 & I0).
  pose proof (ties_enumerate (fun i => existsb (Nat.eqb i) selection) score
                storage 0%nat) as T.
  cbn beta in T. rewrite T. clear T.
  assert (T : filter (fun i => existsb (Nat.eqb i) selection
                               && Qeq_bool (nth (i - 0) storage 0) score)
                     (seq 0 (List.length storage))
              = tied storage selection score).
  { apply filter_ext. intros i. replace (i - 0)%nat with i by lia.
    reflexivity. }
  rewrite T. clear T.
  assert (Best : forall i, In i selection -> nth i storage 0 <= score).
  { intros i I. apply M. apply in_map_iff. now exists i. }
  exists score.
  destruct (Closest.count storage score =? 1)%nat eqn:C.
  2:{ eexists. split; [reflexivity|]. eauto. }
  rewrite (first_with_find _ _ _ R). cbn [bind].
  destruct (find _ selection) as [i|] eqn:F.
  2:{ eexists. split; [reflexivity|]. eauto. }
  eexists. split; [reflexivity|]. split; [eauto|]. split; [exact Best|].
  apply find_some in F. destruct F as [I Q]. apply Qeq_bool_iff in Q.
  apply Nat.eqb_eq in C. rewrite count_indexes in C.
  destruct (filter (fun i => Qeq_bool (nth i storage 0) score)
                   (seq 0 (List.length storage))) as [|j others] eqn:L;
    [discriminate C|].
  destruct others; [|discriminate C].
  assert (J : forall x, (x < List.length storage)%nat ->
                        nth x storage 0 == score -> x = j).
  { intros x X Qx.
    assert (Ix : In x [j]).
    { rewrite <- L. apply filter_In. split; [apply in_seq; lia|].
      now apply Qeq_bool_iff. }
    destruct Ix as [<-|[]]. reflexivity. }
  rewrite <- (J i (R i I) Q) in J.
  apply NoDup_singleton.
  - apply NoDup_filter, seq_NoDup.
  - apply tied_In. auto.
  - intros x X. apply tied_In in X. destruct X as (X & _ & Qx). now apply J.
Qed.

Lemma select_spec (primary_totals secondary_totals : list Q) (n : nat) :
  (0 < n)%nat ->
  List.length primary_totals = n ->
  List.length secondary_totals = n ->
  exists r,
    Closest.select [primary_totals; secondary_totals] (seq 0 n) = Ok r
    /\ (r < n)%nat
    /\ (forall j, (j < n)%nat ->
                  nth j primary_totals 0 <= nth r primary_totals 0)
    /\ (forall j, (j < n)%nat ->
                  nth j primary_totals 0 == nth r primary_totals 0 ->
                  nth j secondary_totals 0 <= nth r secondary_totals 0)
    /\ (forall j, (j < n)%nat ->
                  nth j primary_totals 0 == nth r primary_totals 0 ->
                  nth j secondary_totals 0 == nth r secondary_totals 0 ->
                  (r <= j)%nat).
Proof.
  intros N LP LS.
  destruct (process_score_spec primary_totals (seq 0 n))
    as (s1 & ret1 & E1 & (i1 & I1 & Q1) & B1 & T1).
  { destruct n; [lia | discriminate]. }
  { intros i I. apply in_seq in I. lia. }
  assert (M1 : forall i, In i (tied primary_totals (seq 0 n) s1) <->
                         (i < n)%nat /\ nth i primary_totals 0 == s1).
  { intros i. rewrite tied_In, in_seq, LP. intuition lia. }
  cbn [Closest.select]. rewrite E1. cbn [bind].
  destruct ret1 as [i|sel].
  - exists i. split; [reflexivity|].
    assert (Ii : In i (tied primary_totals (seq 0 n) s1))
      by (rewrite T1; now left).
    apply M1 in Ii. destruct Ii as [Li Qi].
    assert (U : forall j, (j < n)%nat ->
                          nth j primary_totals 0 == nth i primary_totals 0 ->
                          j = i).
    { intros j Lj Qj.
      assert (Ij : In j (tied primary_totals (seq 0 n) s1))
        by (apply M1; split; [exact Lj | now rewrite Qj]).
      rewrite T1 in Ij. destruct Ij as [<-|[]]. reflexivity. }
    split; [exact Li|]. split; [|split].
    + intros j Lj. rewrite Qi. apply B1, in_seq. lia.
    + intros j Lj Qj. rewrite (U j Lj Qj). lra.
    + intros j Lj Qj _. rewrite (U j Lj Qj). lia.
  - subst sel.
    assert (I1' : In i1 (tied primary_totals (seq 0 n) s1)).
    { apply M1. apply in_seq in I1. split; [lia | now rewrite Q1]. }
    destruct (process_score_spec secondary_totals
                (tied primary_totals (seq 0 n) s1))
      as (s2 & ret2 & E2 & (i2 & I2 & Q2) & B2 & T2).
    { intros E. rewrite E in I1'. destruct I1'. }
    { intros i I. apply M1 in I. lia. }
    rewrite E2. cbn [bind].
    destruct (tied secondary_totals (tied primary_totals (seq 0 n) s1) s2)
      as [|r rest] eqn:T.
    { exfalso.
      assert (X : In i2 (tied secondary_totals
                           (tied primary_totals (seq 0 n) s1) s2)).
      { apply tied_In. apply M1 in I2 as I2'.
        split; [lia|]. split; [exact I2 | now rewrite Q2]. }
      rewrite T in X. destruct X. }
    assert (Ir : In r (tied secondary_totals
                         (tied primary_totals (seq 0 n) s1) s2))
      by (rewrite T; now left).
    apply tied_In in Ir. destruct Ir as (_ & Ir & Q2r).
    apply M1 in Ir. destruct Ir as [Lr Q1r].
    exists r. split.
    { destruct ret2 as [i|sel].
      - now injection T2 as <-.
      - now subst sel. }
    split; [exact Lr|]. split; [|split].
    + intros j Lj. rewrite Q1r. apply B1, in_seq. lia.
    + intros j Lj Qj. rewrite Q2r. apply B2, M1.
      split; [exact Lj | now rewrite Qj].
    + intros j Lj Q1j Q2j. unfold tied in T at 1.
      apply (filter_seq_first _ _ _ _ _ T).
      apply filter_In. split; [apply in_seq; lia|].
      apply andb_true_iff. split.
      * apply existsb_exists. exists j. split; [|apply Nat.eqb_refl].
        apply M1. split; [exact Lj | now rewrite Q1j].
      * apply Qeq_bool_iff. now rewrite Q2j.
Qed.

Lemma add_scores_length (norm_score : list Q) :
  forall cathegory cathegory' : list Q,
    Closest.add_scores cathegory norm_score = Ok cathegory' ->
    List.length cathegory' = List.length cathegory.
Proof.
  induction norm_score as [|s rest IH]; intros c c' E.
  - destruct c; injection E as <-; reflexivity.
  - destruct c as [|x c]; [discriminate|].
    cbn [Closest.add_scores] in E. bind_inv E. injection E as <-.
    cbn. f_equal. now apply IH.
Qed.

Lemma calculate_stats_length `{Builtins} `{MathLib}
    (storage : dict Closest.row) (src : list (string * Closest.src_entry)) :
  forall stats stats' : list Q * list Q,
    Closest.calculate_stats storage stats src = Ok stats' ->
    List.length (fst stats') = List.length (fst stats)
    /\ List.length (snd stats') = List.length (snd stats).
Proof.
  induction src as [|[test [[score primary] stddev]] rest IH];
    intros stats stats' E.
  - injection E as <-. auto.
  - cbn [Closest.calculate_stats] in E.
    destruct (dict_get storage test) as [this|]; [|now apply IH].
    bind_inv E. destruct a as [norm_score|]; [|now apply IH].
    destruct (negb primary); bind_inv E; apply add_scores_length in Ea0;
      apply IH in E; cbn [fst snd] in E; destruct E as [E1 E2];
      rewrite E1, E2; auto.
Qed.

(** C3. Whenever [closest_result] returns, the index is below the
    number of candidates. For a list of candidates that is not empty
    and whose totals were computed it does return: the candidate has
    the largest primary total, among the candidates with that primary
    total it has the largest secondary total, and it is the first of
    those that have both. *)
Theorem closest_result_selection `{Builtins} `{MathLib}
    (src_path : list measurement) (dst_paths : list (list measurement)) :
  (forall r, Closest.closest_result src_path dst_paths = Ok r ->
             (r < List.length dst_paths)%nat)
  /\ (dst_paths <> [] ->
      forall (storage : dict Closest.row) (stats : list Q * list Q),
        Closest._process_results dst_paths = Ok storage ->
        Closest._calculate_stats (List.length dst_paths)
          (Closest._process_src src_path) storage = Ok stats ->
        exists r,
          Closest.closest_result src_path dst_paths = Ok r
          /\ (r < List.length dst_paths)%nat
          /\ (forall j, (j < List.length dst_paths)%nat ->
                        nth j (fst stats) 0 <= nth r (fst stats) 0)
          /\ (forall j, (j < List.length dst_paths)%nat ->
                        nth j (fst stats) 0 == nth r (fst stats) 0 ->
                        nth j (snd stats) 0 <= nth r (snd stats) 0)
          /\ (forall j, (j < List.length dst_paths)%nat ->
                        nth j (fst stats) 0 == nth r (fst stats) 0 ->
                        nth j (snd stats) 0 == nth r (snd stats) 0 ->
                        (r <= j)%nat)).
Proof.
  assert (Len : forall storage stats,
             Closest._calculate_stats (List.length dst_paths)
               (Closest._process_src src_path) storage = Ok stats ->
             List.length (fst stats) = List.length dst_paths
             /\ List.length (snd stats) = List.length dst_paths).
  { intros storage stats C. apply calculate_stats_length in C.
    cbn [fst snd] in C. now rewrite !repeat_length in C. }
  split.
  - intros r E. unfold Closest.closest_result in E. bind_inv E. bind_inv E.
    destruct (Len _ _ Ea0) as [C1 C2].
    destruct dst_paths as [|d rest] eqn:D.
    + cbn in E. discriminate E.
    + rewrite <- D in *.
      destruct (select_spec (fst a0) (snd a0) (List.length dst_paths))
        as (r' & S & L & _); [rewrite D; cbn; lia | exact C1 | exact C2 |].
      rewrite S in E. now injection E as <-.
  - intros NE storage stats P C. unfold Closest.closest_result.
    rewrite P. cbn [bind]. rewrite C. cbn [bind].
    destruct (Len _ _ C) as [C1 C2].
    apply select_spec; [|exact C1|exact C2].
    destruct dst_paths; [congruence | cbn; lia].
Qed.

(** ** Standard deviations of 0 *)

Lemma set_item_Forall {A : Type} (P : A -> Prop) (f : A -> A) (l : list A) :
  forall (i : nat) (l' : list A),
    Closest.set_item l i f = Ok l' ->
    (forall e, P e -> P (f e)) -> Forall P l -> Forall P l'.
Proof.
  induction l as [|x l IH]; intros i l' E K F; [discriminate|].
  inversion F as [|? ? Px F']; subst. destruct i as [|i]; cbn in E.
  - injection E as <-. constructor; auto.
  - bind_inv E. injection E as <-. constructor; [exact Px|]. eauto.
Qed.

Lemma set_item_length {A : Type} (f : A -> A) (l : list A) :
  forall i : nat,
    (i < List.length l)%nat ->
    exists l', Closest.set_item l i f = Ok l'
               /\ List.length l' = List.length l.
Proof.
  induction l as [|x l IH]; intros i L; cbn in L; [lia|].
  destruct i as [|i]; cbn.
  - eexists. split; reflexivity.
  - destruct (IH i) as (l' & E & Len); [lia|]. rewrite E. cbn.
    eexists. split; [reflexivity | cbn; now rewrite Len].
Qed.

Lemma storage_set_no_stddev (no_results : nat) (storage storage' :
    dict Closest.row) (name name' : string) (idx : nat)
    (f : option value * option value -> option value * option value) :
  Closest.storage_set no_results storage name' idx f = Ok storage' ->
  (name' = name -> forall e, snd e = None -> snd (f e) = None) ->
  no_stddev name storage -> no_stddev name storage'.
Proof.
  unfold Closest.storage_set. intros E K N this D. bind_inv E.
  injection E as <-. destruct (String.eqb_spec name' name) as [->|NE].
  - rewrite dict_get_set_same in D. injection D as <-.
    apply (set_item_Forall _ _ _ _ _ Ea (K eq_refl)).
    destruct (dict_get storage name) as [old|] eqn:O; [now apply N|].
    apply Forall_forall. intros e I. apply repeat_spec in I. now subst e.
  - rewrite dict_get_set_other in D by exact NE. now apply N.
Qed.

Lemma process_path_no_stddev (no_results idx : nat) (name : string)
    (results : list measurement) :
  forall storage storage' : dict Closest.row,
    Closest.process_path no_results storage idx results = Ok storage' ->
    (forall m, In m results -> zero_stddev name m) ->
    no_stddev name storage -> no_stddev name storage'.
Proof.
  induction results as [|m rest IH]; intros storage storage' E Z N.
  - now injection E as <-.
  - cbn [Closest.process_path] in E.
    assert (Z' : forall m', In m' rest -> zero_stddev name m')
      by (intros m' I; apply Z; now right).
    destruct (endswith (m_test m) "stddev") eqn:S.
    + destruct (value_eqb (m_score m) (VNum 0)) eqn:V; [now apply (IH _ _ E)|].
      bind_inv E. apply (IH _ _ E Z').
      apply (storage_set_no_stddev _ _ _ _ _ _ _ Ea); [|exact N].
      intros D. pose proof (Z m (or_introl eq_refl) S D). congruence.
    + bind_inv E. apply (IH _ _ E Z').
      apply (storage_set_no_stddev _ _ _ _ _ _ _ Ea); [|exact N].
      intros _ e Se. exact Se.
Qed.

Lemma process_paths_no_stddev (no_results : nat) (name : string)
    (paths : list (list measurement)) :
  forall (k : nat) (storage storage' : dict Closest.row),
    Closest.process_paths no_results storage
      (Closest.enumerate_from k paths) = Ok storage' ->
    (forall results, In results paths ->
                     forall m, In m results -> zero_stddev name m) ->
    no_stddev name storage -> no_stddev name storage'.
Proof.
  induction paths as [|results rest IH]; intros k storage storage' E Z N.
  - now injection E as <-.
  - cbn [Closest.enumerate_from Closest.process_paths] in E. bind_inv E.
    apply (IH _ _ _ E); [intros r I; apply Z; now right|].
    apply (process_path_no_stddev _ _ _ _ _ _ Ea); [|exact N].
    apply Z. now left.
Qed.

Lemma process_path_known (no_results idx : nat) (results : list measurement) :
  forall storage : dict Closest.row,
    Closest.process_path no_results storage idx (filter known results)
    = Closest.process_path no_results storage idx results.
Proof.
  induction results as [|m rest IH]; intros storage; [reflexivity|].
  cbn [filter]. unfold known at 1. cbn [Closest.process_path].
  destruct (endswith (m_test m) "stddev") eqn:S; cbn [andb negb].
  - destruct (value_eqb (m_score m) (VNum 0)) eqn:V; cbn [negb].
    + apply IH.
    + cbn [Closest.process_path]. rewrite S, V.
      destruct (Closest.storage_set _ _ _ _ _); cbn [bind];
        [apply IH | reflexivity].
  - cbn [Closest.process_path]. rewrite S.
    destruct (Closest.storage_set _ _ _ _ _); cbn [bind];
      [apply IH | reflexivity].
Qed.

Lemma process_paths_known (no_results : nat)
    (paths : list (list measurement)) :
  forall (k : nat) (storage : dict Closest.row),
    Closest.process_paths no_results storage
      (Closest.enumerate_from k (map (filter known) paths))
    = Closest.process_paths no_results storage
        (Closest.enumerate_from k paths).
Proof.
  induction paths as [|results rest IH]; intros k storage; [reflexivity|].
  cbn [map Closest.enumerate_from Closest.process_paths].
  rewrite process_path_known.
  destruct (Closest.process_path _ _ _ results); cbn [bind];
    [apply IH | reflexivity].
Qed.

Lemma process_src_stddev_zero (name : string) (results : list measurement) :
  forall src : dict Closest.src_entry,
    (forall m, In m results -> zero_stddev name m) ->
    src_stddev_zero name src ->
    src_stddev_zero name (Closest.process_src src results).
Proof.
  induction results as [|m rest IH]; intros src Z N; [exact N|].
  cbn [Closest.process_src].
  assert (Z' : forall m', In m' rest -> zero_stddev name m')
    by (intros m' I; apply Z; now right).
  assert (Step : forall key entry,
             (key = name ->
              snd entry = None
              \/ exists v, snd entry = Some v
                           /\ value_eqb v (VNum 0) = true) ->
             src_stddev_zero name (dict_set src key entry)).
  { intros key [[s p] d] K score primary stddev D.
    destruct (String.eqb_spec key name) as [->|NE].
    - rewrite dict_get_set_same in D. injection D as _ _ <-.
      exact (K eq_refl).
    - rewrite dict_get_set_other in D by exact NE. exact (N _ _ _ D). }
  destruct (endswith (m_test m) "stddev") eqn:S.
  - destruct (dict_get src (drop_last 7 (m_test m)))
      as [[[score primary] stddev]|] eqn:D;
      apply (IH _ Z'), Step; intros K; right; exists (m_score m);
        (split; [reflexivity | exact (Z m (or_introl eq_refl) S K)]).
  - match goal with
    | |- context [dict_get src ?key] =>
        destruct (dict_get src key) as [[[score primary] stddev]|] eqn:D
    end; apply (IH _ Z'), Step; intros K; cbn [snd].
    + rewrite K in D. exact (N _ _ _ D).
    + now left.
Qed.

Lemma storage_set_Ok (no_results : nat) (storage : dict Closest.row)
    (name : string) (idx : nat)
    (f : option value * option value -> option value * option value) :
  (idx < no_results)%nat -> storage_ok no_results storage ->
  exists storage',
    Closest.storage_set no_results storage name idx f = Ok storage'
    /\ storage_ok no_results storage'.
Proof.
  intros L S. unfold Closest.storage_set.
  set (old := match dict_get storage name with
              | Some r => r
              | None => repeat (None, None) no_results
              end).
  assert (Len : List.length old = no_results).
  { unfold old. destruct (dict_get storage name) eqn:D;
      [exact (S _ _ D) | apply repeat_length]. }
  destruct (set_item_length f old idx) as (new & E & Len'); [lia|].
  rewrite E. cbn [bind]. eexists. split; [reflexivity|].
  intros name' this D. destruct (String.eqb_spec name name') as [->|NE].
  - rewrite dict_get_set_same in D. injection D as <-. lia.
  - rewrite dict_get_set_other in D by exact NE. exact (S _ _ D).
Qed.

Lemma process_path_Ok (no_results idx : nat) (results : list measurement) :
  (idx < no_results)%nat ->
  forall storage : dict Closest.row,
    storage_ok no_results storage ->
    exists storage',
      Closest.process_path no_results storage idx results = Ok storage'
      /\ storage_ok no_results storage'.
Proof.
  intros L. induction results as [|m rest IH]; intros storage S.
  - exists storage. split; [reflexivity | exact S].
  - cbn [Closest.process_path].
    destruct (endswith (m_test m) "stddev").
    + destruct (value_eqb (m_score m) (VNum 0)); [now apply IH|].
      destruct (storage_set_Ok no_results storage (drop_last 7 (m_test m)) idx
                  (fun e => (fst e, Some (m_score m))) L S) as (s1 & E & S1).
      rewrite E. cbn [bind]. now apply IH.
    + match goal with
      | |- context [Closest.storage_set _ _ ?key _ ?f] =>
          destruct (storage_set_Ok no_results storage key idx f L S)
            as (s1 & E & S1)
      end.
      rewrite E. cbn [bind]. now apply IH.
Qed.

Lemma process_paths_Ok (no_results : nat) (paths : list (list measurement)) :
  forall (k : nat) (storage : dict Closest.row),
    (k + List.length paths <= no_results)%nat ->
    storage_ok no_results storage ->
    exists storage',
      Closest.process_paths no_results storage
        (Closest.enumerate_from k paths) = Ok storage'
      /\ storage_ok no_results storage'.
Proof.
  induction paths as [|results rest IH]; intros k storage L S.
  - exists storage. split; [reflexivity | exact S].
  - cbn [Closest.enumerate_from Closest.process_paths]. cbn in L.
    destruct (process_path_Ok no_results k results) with (storage := storage)
      as (s1 & E & S1); [lia | exact S |].
    rewrite E. cbn [bind]. apply IH; [lia | exact S1].
Qed.

Lemma process_results_Ok (dst_paths : list (list measurement)) :
  exists storage,
    Closest._process_results dst_paths = Ok storage
    /\ storage_ok (List.length dst_paths) storage.
Proof.
  apply process_paths_Ok; [lia|]. intros name this D. discriminate D.
Qed.

Lemma no_stddev_row (this : Closest.row) :
  Forall (fun e => snd e = None) this ->
  existsb (fun e => match snd e with Some _ => true | None => false end) this
  = false.
Proof.
  induction 1 as [|e this E F IH]; cbn; [reflexivity|].
  now rewrite E, IH.
Qed.

(** C10. A standard deviation of 0 counts as none. The measurements
    collected from the destinations are those collected without their
    standard deviations of 0; a source standard deviation of 0 asks for
    the scoring by standard deviations no more than a missing one; and
    a test whose standard deviations are all 0, in the source and in
    every destination, has no standard deviation in its row and is
    scored by the distances. *)
Theorem zero_stddev_distance_only `{Builtins} `{MathLib}
    (src_path : list measurement) (dst_paths : list (list measurement))
    (name : string) :
  (forall m, In m src_path -> zero_stddev name m) ->
  (forall results, In results dst_paths ->
                   forall m, In m results -> zero_stddev name m) ->
  exists storage,
    Closest._process_results dst_paths = Ok storage
    /\ Closest._process_results (map (filter known) dst_paths) = Ok storage
    /\ (forall stddev this,
          value_eqb stddev (VNum 0) = true ->
          Closest.stddev_aware (Some stddev) this
          = Closest.stddev_aware None this)
    /\ forall score primary stddev this,
         dict_get (Closest._process_src src_path) name
         = Some (score, primary, stddev) ->
         dict_get storage name = Some this ->
         Forall (fun e => snd e = None) this
         /\ Closest.stddev_aware stddev this = false
         /\ Closest.norm_score score stddev this
            = Closest.distance_score score this.
Proof.
  intros ZS ZD.
  destruct (process_results_Ok dst_paths) as (storage & P & _).
  exists storage. split; [exact P|].
  assert (Zero : forall v, value_eqb v (VNum 0) = true -> truthy v = false).
  { intros [q|s] V; cbn in V; [|discriminate]. cbn. now rewrite V. }
  split; [|split].
  - unfold Closest._process_results in *. rewrite length_map.
    now rewrite process_paths_known.
  - intros stddev this V. unfold Closest.stddev_aware.
    now rewrite (Zero _ V).
  - intros score primary stddev this S D.
    assert (N : Forall (fun e => snd e = None) this).
    { apply (process_paths_no_stddev _ name _ _ _ _ P ZD); [|exact D].
      intros r E. discriminate E. }
    assert (A : Closest.stddev_aware stddev this = false).
    { unfold Closest.stddev_aware. rewrite (no_stddev_row _ N).
      assert (Z0 : src_stddev_zero name (Closest._process_src src_path)).
      { apply process_src_stddev_zero; [exact ZS|].
        intros s p d E. discriminate E. }
      destruct (Z0 _ _ _ S) as [->|(v & -> & V)]; [reflexivity|].
      now rewrite (Zero _ V). }
    split; [exact N|]. split; [exact A|].
    unfold Closest.norm_score. now rewrite A.
Qed.

(** ** Grouped records come from records *)

Lemma expand_pass_records `{Builtins} `{Regex}
    (self self' : RelativeResults.t) (averages averages' : AveragesModel.t)
    (records : list Result.t) (merge : list string) :
  RelativeResults._expand_grouped_result self averages records merge
  = Ok (self', averages') ->
  RelativeResults.records self' = RelativeResults.records self
  /\ (records = [] ->
      RelativeResults.grouped_records self'
      = RelativeResults.grouped_records self).
Proof.
  unfold RelativeResults._expand_grouped_result. intros E. bind_inv E.
  apply record_groups_inv in E. destruct E as (R & _ & new & G & F).
  split; [exact R|]. intros ->. injection Ea as <-.
  inversion F; subst. now rewrite G, app_nil_r.
Qed.

Lemma expand_grouped_results_derived `{Builtins} `{Regex}
    (self self' : RelativeResults.t) (averages averages' : AveragesModel.t) :
  RelativeResults.expand_grouped_results self averages
  = Ok (self', averages') ->
  RelativeResults.records self' = RelativeResults.records self
  /\ (grouped_derived self -> grouped_derived self').
Proof.
  unfold RelativeResults.expand_grouped_results. intros E.
  bind_inv E. destruct a as [self1 averages1]. bind_inv E.
  destruct a as [self2 averages2].
  apply expand_pass_records in Ea, Ea0, E.
  destruct Ea as [R1 G1], Ea0 as [R2 G2], E as [R3 G3].
  split; [congruence|]. intros D N.
  assert (N0 : RelativeResults.records self = []) by congruence.
  assert (F : filter (fun record =>
                        Result.primary record
                        && negb (Result.status record =? ERROR)%Z
                        && negb (Result.is_stddev record))
                     (RelativeResults.records self) = [])
    by now rewrite N0.
  rewrite (G3 F), (G2 F), (G1 F). exact (D N0).
Qed.

Lemma add_result_by_path_derived `{Builtins} (self self' : ResultsContainer.t)
    (name : string) (metadata : dict string) (dst : list measurement)
    (last : bool) (res : RelativeResults.t) :
  ResultsContainer.add_result_by_path self name metadata dst last
  = Ok (res, self') ->
  grouped_derived res.
Proof.
  unfold ResultsContainer.add_result_by_path. intros E. bind_inv E.
  destruct a as [[res1 averages1] src_tests1].
  apply add_dst_results_Ok in Ea. destruct Ea as (G & Inc & _).
  destruct (add_missing_Ok self src_tests1 res1 Inc) as (res' & M & G' & _).
  rewrite M in E. injection E as <- _. intros _. now rewrite G', G.
Qed.

(** * Concrete runs *)

Lemma out_of_tolerance_status_witness :
  exists r self' averages',
    RelativeResults.record_result (H := plain_builtins) plain_results
      (AveragesModel.init 0) "suite/test.mean" (VNum 100) (VNum 120)
      true false None None None = Ok (r, self', averages')
    /\ Result.status r = FAIL_GAIN
    /\ RelativeResults.element_type (Result.status r) = Some "skipped".
Proof.
  destruct (RelativeResults.record_result (H := plain_builtins) plain_results
              (AveragesModel.init 0) "suite/test.mean" (VNum 100) (VNum 120)
              true false None None None)
    as [[[r self'] averages']|e] eqn:E; [|vm_compute in E; discriminate E].
  exists r, self', averages'. split; [reflexivity|].
  refine (proj1 (out_of_tolerance_status (H := plain_builtins) _ _ _ _ _ _ _
                   _ _ _ _ _ r ((120 - 100) / Qabs 100 * 100) 10 E eq_refl _)
            _).
  - vm_compute in E. injection E as <- _ _. reflexivity.
  - vm_compute in E. injection E as <- _ _. reflexivity.
Defined.

(** The same comparison at destination 80 fails as a loss. *)
Example record_result_80_fail_loss :
  exists r self' averages',
    RelativeResults.record_result (H := plain_builtins) plain_results
      (AveragesModel.init 0) "suite/test.mean" (VNum 100) (VNum 80)
      true false None None None = Ok (r, self', averages')
    /\ Result.score r == -20
    /\ Result.status r = FAIL_LOSS
    /\ RelativeResults.element_type (Result.status r) = Some "failure".
Proof.
  eexists; eexists; eexists. split; [reflexivity|].
  repeat split; reflexivity.
Qed.

(** C4, as the claim states it. With an averages model of weight -7 at
    the last run, the first comparison of a metric gives the raw
    opinion the weight 1 and the averages opinion the weight -7/7: the
    total weight is 0 and [record_result] raises [ZeroDivisionError]. *)
Lemma total_weight_zero_counterexample :
  exists msg msg' averages',
    RelativeResults.weigh plain_results "suite/test.mean" (VNum 100)
      (VNum 104) 4 (Some 10) = Ok msg
    /\ RelativeResults.weigh_averages msg
         (AveragesModel.set_last (AveragesModel.init (-7))) "suite/test.mean"
       = Ok (msg', averages')
    /\ WeightedResult.agg_weights msg' == 0
    /\ WeightedResult.score msg' = Raise ZeroDivisionError
    /\ RelativeResults.record_result (H := plain_builtins) plain_results
         (AveragesModel.set_last (AveragesModel.init (-7))) "suite/test.mean"
         (VNum 100) (VNum 104) true false None None None
       = Raise ZeroDivisionError
    /\ ResultsContainer.add_result_by_path (H := plain_builtins)
         (ResultsContainer.init 10 10 (-7) [] "src" [suite_test_mean 100] [])
         "dst" [] [suite_test_mean 104] true
       = Raise ZeroDivisionError.
Proof.
  eexists; eexists; eexists. split; [reflexivity|].
  split; [reflexivity|]. repeat split; reflexivity.
Qed.

Lemma combined_score_defined_witness :
  exists msg msg' averages',
    RelativeResults.weigh plain_results "suite/test.mean" (VNum 100)
      (VNum 104) 4 (Some 10) = Ok msg
    /\ RelativeResults.weigh_averages msg
         (AveragesModel.set_last (AveragesModel.init 1)) "suite/test.mean"
       = Ok (msg', averages')
    /\ 0 < WeightedResult.agg_weights msg'.
Proof.
  destruct (RelativeResults.weigh plain_results "suite/test.mean" (VNum 100)
              (VNum 104) 4 (Some 10)) as [msg|e] eqn:E;
    [|vm_compute in E; discriminate E].
  destruct (combined_score_defined plain_results
              (AveragesModel.set_last (AveragesModel.init 1))
              "suite/test.mean" (VNum 100) (VNum 104) 4 (Some 10) msg E)
    as (_ & _ & _ & msg' & averages' & A & P).
  exists msg, msg', averages'. split; [reflexivity|]. split; [exact A|].
  apply P.
  - constructor.
  - vm_compute. discriminate.
Defined.

Example fio_merged_name :
  Result.get_merged_name (H := fio_regex)
    (Result.init PASS 2 "base/fio/0000:./read-4KiB/throughput/iops_sec.mean"
       (VNum 100) (VNum 102) None true None)
    ["iteration_name_extra"]
  = Ok "base/fio/0000:./read-*/throughput/iops_sec.mean".
Proof. reflexivity. Qed.

Lemma grouped_result_tolerance_witness :
  exists self' averages' r,
    RelativeResults._expand_grouped_result (H := plain_builtins)
      (H0 := fio_regex) plain_results (AveragesModel.init 0) fio_records
      ["iteration_name_extra"] = Ok (self', averages')
    /\ RelativeResults.grouped_records self' = [r]
    /\ report_tolerance r = Some (10 * (23 # 10) / 2)
    /\ Result.src r = VNum (average [2; 4])
    /\ Result.dst r = VNum (average [2; 4]).
Proof.
  destruct (RelativeResults._expand_grouped_result (H := plain_builtins)
              (H0 := fio_regex) plain_results (AveragesModel.init 0)
              fio_records ["iteration_name_extra"])
    as [[self' averages']|e] eqn:E; [|vm_compute in E; discriminate E].
  destruct (proj1 (grouped_result_tolerance (H := plain_builtins)
                     (H0 := fio_regex) _ _ _ _) _ _ E)
    as (groups & new & G & _ & GR & F).
  vm_compute in G. injection G as <-.
  inversion F as [|g r gs rs (_ & _ & u & U & RT & _ & Sr & Ds) F' Eg Er];
    subst.
  inversion F'; subst.
  cbn in U. injection U as <-.
  exists self', averages', r. split; [reflexivity|].
  split; [exact GR|]. split; [exact RT|]. split; [exact Sr | exact Ds].
Defined.

Example closest_result_second :
  Closest.closest_result (H := plain_builtins) (H0 := rational_math)
    closest_src closest_dsts = Ok 1%nat.
Proof. vm_compute. reflexivity. Qed.

Lemma closest_result_selection_witness :
  exists r,
    Closest.closest_result (H := plain_builtins) (H0 := rational_math)
      closest_src closest_dsts = Ok r
    /\ (r < 3)%nat.
Proof.
  destruct (Closest._process_results closest_dsts) as [storage|e] eqn:P;
    [|vm_compute in P; discriminate P].
  destruct (Closest._calculate_stats (H := plain_builtins)
              (H0 := rational_math) 3 (Closest._process_src closest_src)
              storage) as [stats|e] eqn:C.
  2:{ vm_compute in P. injection P as <-. vm_compute in C. discriminate C. }
  destruct (proj2 (closest_result_selection (H := plain_builtins)
                     (H0 := rational_math) closest_src closest_dsts)
              ltac:(discriminate) storage stats P C)
    as (r & E & L & _).
  exists r. split; [exact E | exact L].
Defined.

Lemma zero_stddev_distance_only_witness :
  exists storage this,
    Closest._process_results flat_dsts = Ok storage
    /\ dict_get storage "a" = Some this
    /\ Closest.norm_score (H := plain_builtins) (H0 := rational_math)
         (Some (VNum 10)) (Some (VNum 0)) this
       = Closest.distance_score (H := rational_math) (Some (VNum 10)) this.
Proof.
  destruct (zero_stddev_distance_only (H := plain_builtins)
              (H0 := rational_math) flat_src flat_dsts "a")
    as (storage & P & _ & _ & K).
  - intros m [<-|[<-|[]]] S D; [discriminate S | reflexivity].
  - intros results [<-|[<-|[]]] m.
    + intros [<-|[<-|[]]] S D; [discriminate S | reflexivity].
    + intros [<-|[]] S D. discriminate S.
  - pose proof P as P'. vm_compute in P'. injection P' as <-.
    eexists. eexists. split; [exact P|]. split; [reflexivity|].
    apply (K (Some (VNum 10)) true (Some (VNum 0)) _ eq_refl eq_refl).
Defined.

Example add_result_by_path_run :
  exists res self',
    ResultsContainer.add_result_by_path (H := plain_builtins) two_metrics
      "dst" []
      [mk_measurement "suite/x.mean" (VNum 104) true [];
       mk_measurement "suite/z.mean" (VNum 7) true []]
      true = Ok (res, self')
    /\ map Result.testname (RelativeResults.records res)
       = ["x.mean"; "z.mean"; "y.mean"]
    /\ map Result.status (RelativeResults.records res)
       = [MINOR_LOSS; ERROR; ERROR]
    /\ RelativeResults.finish res = 2%Z.
Proof.
  eexists; eexists. split; [vm_compute; reflexivity|].
  repeat split; reflexivity.
Qed.

(** A failure that is not primary leaves the exit code at 0. *)
Example finish_non_primary_failure :
  RelativeResults.finish
    (RelativeResults.record_broken plain_results "suite/x.mean" None false
                                   None) = 0%Z
  /\ RelativeResults.finish plain_results = 3%Z.
Proof. split; reflexivity. Qed.

(** * Further properties *)

(** ** Names of Results *)

Lemma rsplit1_Some (c : ascii) (s : string) :
  forall l r, rsplit1 c s = Some (l, r) -> s = (l ++ String c r)%string.
Proof.
  induction s as [|a s IH]; intros l r E; cbn in E; [discriminate|].
  destruct (rsplit1 c s) as [[l' r']|].
  - injection E as <- <-. cbn. f_equal. now apply IH.
  - destruct (Ascii.eqb_spec a c) as [->|N]; [|discriminate].
    now injection E as <- <-.
Qed.

Lemma rsplit1_app (c : ascii) (l r : string) :
  rsplit1 c (l ++ String c r)
  = match rsplit1 c r with
    | Some (l', r') => Some ((l ++ String c l')%string, r')
    | None => Some (l, r)
    end.
Proof.
  induction l as [|a l IH]; cbn.
  - destruct (rsplit1 c r) as [[l' r']|]; [reflexivity|].
    now rewrite Ascii.eqb_refl.
  - rewrite IH. destruct (rsplit1 c r) as [[l' r']|]; reflexivity.
Qed.

Lemma rsplit1_right (c : ascii) (s : string) :
  forall l r, rsplit1 c s = Some (l, r) -> rsplit1 c r = None.
Proof.
  induction s as [|a s IH]; intros l r E; cbn in E; [discriminate|].
  destruct (rsplit1 c s) as [[l' r']|] eqn:S.
  - injection E as <- <-. now apply (IH l').
  - destruct (Ascii.eqb_spec a c) as [->|N]; [|discriminate].
    now injection E as <- <-.
Qed.

(** X1. The name of a Result is the test it was made for when the test
    has a "/", and the test under the class "<undefined>" otherwise; and
    splitting the name at its last "/", as the xunit report does, gives
    back the class name and the test name. *)
Theorem result_name_round_trip (status : Z) (score : Q) (test : string)
    (src dst : value) (details : option details_t) (primary : bool)
    (params : option params_t) :
  let r := Result.init status score test src dst details primary params in
  Result.name r
  = match rsplit1 "/" test with
    | Some _ => test
    | None => ("<undefined>/" ++ test)%string
    end
  /\ rsplit1 "/" (Result.name r)
     = Some (Result.classname r, Result.testname r).
Proof.
  cbn zeta. unfold Result.name, Result.init. cbn [Result.classname
    Result.testname].
  destruct (rsplit1 "/" test) as [[c n]|] eqn:E; cbn [fst snd]; split.
  - symmetry. change ("/" ++ n)%string with (String "/" n).
    now apply rsplit1_Some.
  - change ("/" ++ n)%string with (String "/" n).
    rewrite rsplit1_app, (rsplit1_right _ _ _ _ E). reflexivity.
  - reflexivity.
  - change ("/" ++ test)%string with (String "/" test).
    rewrite rsplit1_app, E. reflexivity.
Qed.

(** ** The xunit report *)

Lemma mapM_Ok_map {A B : Type} (f : A -> outcome B) (g : A -> B)
    (l : list A) :
  (forall x, In x l -> f x = Ok (g x)) -> mapM f l = Ok (map g l).
Proof.
  induction l as [|a l IH]; intros K; cbn; [reflexivity|].
  rewrite (K a (or_introl eq_refl)). cbn.
  rewrite IH by (intros x I; apply K; now right). reflexivity.
Qed.

Lemma name_has_slash (r : Result.t) :
  exists c n, rsplit1 "/" (Result.name r) = Some (c, n).
Proof.
  unfold Result.name.
  change ("/" ++ Result.testname r)%string
    with (String "/" (Result.testname r)).
  rewrite rsplit1_app.
  destruct (rsplit1 "/" (Result.testname r)) as [[l' r']|]; eauto.
Qed.

Lemma count_type_map (ty : string) (l : list Result.t) :
  RelativeResults.count_type ty (map xunit_case l)
  = List.length
      (filter (fun r =>
                 match RelativeResults.element_type (Result.status r) with
                 | Some ty' => String.eqb ty' ty
                 | None => false
                 end) l).
Proof.
  unfold RelativeResults.count_type.
  induction l as [|r l IH]; cbn [map filter]; [reflexivity|].
  unfold xunit_case at 1. cbn [RelativeResults.tc_element].
  destruct (RelativeResults.element_type (Result.status r)) as [ty'|];
    [destruct (String.eqb ty' ty)|]; cbn [List.length]; now rewrite IH.
Qed.

Lemma element_type_cases (status : Z) :
  RelativeResults.element_type status
  = if (0 <=? status)%Z then None
    else if (status =? -3)%Z then Some "skipped"
    else if (status =? -1)%Z then Some "failure"
    else Some "error".
Proof.
  unfold RelativeResults.element_type, PASS, FAIL_GAIN, FAIL, FAIL_LOSS.
  destruct (Z.ltb_spec status 0), (Z.leb_spec 0 status); try lia;
    [|reflexivity].
  destruct (status =? -3)%Z; [reflexivity|].
  destruct (status =? -1)%Z; reflexivity.
Qed.

(** X2. [get_xunit] never raises. It writes one testcase per primary
    Result, the records before the grouped records, each under the two
    parts of the Result's name and with the element of its status;
    [tests] counts all the records and no grouped one; [failures]
    counts the primary Results with status -1, [skipped] those with
    status -3 and [errors] those with any other negative status, so the
    three add up to the primary Results below 0. *)
Theorem get_xunit_counts (self : RelativeResults.t) :
  exists suite,
    RelativeResults.get_xunit self = Ok suite
    /\ Forall2
         (fun r tc =>
            rsplit1 "/" (Result.name r)
            = Some (RelativeResults.tc_classname tc, RelativeResults.tc_name tc)
            /\ RelativeResults.tc_element tc
               = match RelativeResults.element_type (Result.status r) with
                 | Some ty => Some (ty, Result.details r)
                 | None => None
                 end)
         (xunit_shown self) (RelativeResults.ts_testcases suite)
    /\ RelativeResults.ts_tests suite
       = List.length (RelativeResults.records self)
    /\ RelativeResults.ts_failures suite
       = List.length (filter (fun r => (Result.status r =? -1)%Z)
                             (xunit_shown self))
    /\ RelativeResults.ts_skipped suite
       = List.length (filter (fun r => (Result.status r =? -3)%Z)
                             (xunit_shown self))
    /\ (RelativeResults.ts_errors suite + RelativeResults.ts_failures suite
        + RelativeResults.ts_skipped suite
        = List.length (filter (fun r => (Result.status r <? 0)%Z)
                              (xunit_shown self)))%nat.
Proof.
  unfold RelativeResults.get_xunit. fold (xunit_shown self).
  rewrite (mapM_Ok_map _ xunit_case).
  2:{ intros r _. unfold xunit_case.
      destruct (name_has_slash r) as (c & n & ->). reflexivity. }
  cbn [bind]. eexists. split; [reflexivity|].
  cbn [RelativeResults.ts_testcases RelativeResults.ts_tests
       RelativeResults.ts_errors RelativeResults.ts_failures
       RelativeResults.ts_skipped].
  rewrite !count_type_map.
  generalize (xunit_shown self) as l. intros l.
  split; [|split; [reflexivity|]].
  { induction l as [|r l IH]; constructor; [|exact IH].
    unfold xunit_case. destruct (name_has_slash r) as (c & n & ->).
    split; reflexivity. }
  induction l as [|r l IH]; [cbn; auto|].
  destruct IH as (F & S & T). cbn [filter].
  rewrite element_type_cases.
  destruct (Z.leb_spec 0 (Result.status r)) as [P|N].
  - replace (Result.status r =? -1)%Z with false by (symmetry; apply Z.eqb_neq; lia).
    replace (Result.status r =? -3)%Z with false by (symmetry; apply Z.eqb_neq; lia).
    replace (Result.status r <? 0)%Z with false by (symmetry; apply Z.ltb_ge; lia).
    auto.
  - replace (Result.status r <? 0)%Z with true by (symmetry; apply Z.ltb_lt; lia).
    destruct (Z.eqb_spec (Result.status r) (-3)) as [E3|N3].
    + replace (Result.status r =? -1)%Z with false
        by (symmetry; apply Z.eqb_neq; lia).
      cbn. repeat split; lia.
    + destruct (Z.eqb_spec (Result.status r) (-1)) as [E1|N1];
        cbn; repeat split; lia.
Qed.

(** ** The averages across builds *)

Lemma check_result_not_last (self : AveragesModel.t) (name : string)
    (score : Q) :
  AveragesModel.last self = false ->
  exists self',
    AveragesModel.check_result self name score = Ok ([], self')
    /\ AveragesModel.last self' = false
    /\ AveragesModel.weight self' = AveragesModel.weight self
    /\ averages_entry self' name
       = (fst (averages_entry self name) + score,
          S (snd (averages_entry self name)))
    /\ forall other, other <> name ->
                     averages_entry self' other = averages_entry self other.
Proof.
  intros L. unfold AveragesModel.check_result.
  cbn [AveragesModel.last AveragesModel.weight AveragesModel.averages].
  rewrite L. cbn [negb]. eexists. split; [reflexivity|].
  cbn [AveragesModel.last AveragesModel.weight]. repeat split.
  - unfold averages_entry at 1. cbn [AveragesModel.averages].
    now rewrite dict_get_set_same.
  - intros other N. unfold averages_entry. cbn [AveragesModel.averages].
    rewrite dict_get_set_other by congruence. reflexivity.
Qed.

Lemma feed_not_last (name : string) (scores : list Q) :
  forall self : AveragesModel.t,
    AveragesModel.last self = false ->
    exists self',
      feed self name scores = Ok ([], self')
      /\ AveragesModel.last self' = false
      /\ AveragesModel.weight self' = AveragesModel.weight self
      /\ averages_entry self' name
         = (fold_left Qplus scores (fst (averages_entry self name)),
            (snd (averages_entry self name) + List.length scores)%nat).
Proof.
  induction scores as [|score rest IH]; intros self L.
  - exists self. cbn. rewrite Nat.add_0_r.
    now destruct (averages_entry self name).
  - destruct (check_result_not_last self name score L)
      as (self1 & E1 & L1 & W1 & A1 & _).
    destruct (IH self1 L1) as (self2 & E2 & L2 & W2 & A2).
    exists self2. cbn [feed]. rewrite E1. cbn [bind]. rewrite E2. cbn [bind].
    split; [reflexivity|]. split; [exact L2|]. split; [congruence|].
    rewrite A2, A1. cbn [fst snd fold_left List.length]. f_equal. lia.
Qed.

(** X3. As long as the last run is not announced the averages model
    gives no opinion and only adds the scores up. At the last run its
    one opinion "avg" is twice the average of all the scores the name
    got, with the configured weight for 8 scores or more and the weight
    divided by [get_uncertainty] of their number for fewer; no call
    raises. *)
Theorem averages_opinion_at_last (self : AveragesModel.t) (name : string)
    (scores : list Q) (score : Q) :
  AveragesModel.last self = false ->
  exists self1 self2 weight,
    feed self name scores = Ok ([], self1)
    /\ AveragesModel.check_result (AveragesModel.set_last self1) name score
       = Ok ([mk_opinion "avg"
                (fold_left Qplus (scores ++ [score])
                           (fst (averages_entry self name))
                 / inject_Z (Z.of_nat (S (snd (averages_entry self name)
                                           + List.length scores)))
                 * 2)
                weight None],
             self2)
    /\ (if (S (snd (averages_entry self name) + List.length scores) <? 8)%nat
        then exists u,
               get_uncertainty
                 (Z.of_nat (S (snd (averages_entry self name)
                               + List.length scores))) = Ok u
               /\ weight = AveragesModel.weight self / u
        else weight = AveragesModel.weight self).
Proof.
  intros L.
  destruct (feed_not_last name scores self L) as (self1 & F & _ & W & A).
  exists self1.
  set (n := S (snd (averages_entry self name) + List.length scores)) in *.
  assert (Old : match dict_get (AveragesModel.averages self1) name with
                | Some e => e
                | None => (0, 0%nat)
                end = averages_entry self1 name) by reflexivity.
  unfold AveragesModel.check_result, AveragesModel.set_last.
  cbn [AveragesModel.last AveragesModel.weight AveragesModel.averages negb].
  rewrite dict_get_set_same, Old, A. cbn [fst snd]. fold n.
  rewrite fold_left_app. cbn [fold_left].
  rewrite pydiv_Ok by (unfold Qeq, n; cbn; lia). cbn [bind].
  unfold AveragesModel.COEFFICIENT. rewrite W.
  destruct (n <? 8)%nat eqn:C.
  - destruct (get_uncertainty_pos (Z.of_nat n)) as (u & U & P);
      [unfold n; lia|].
    rewrite U. cbn [bind]. rewrite pydiv_Ok by lra. cbn [bind].
    eexists _, _. split; [exact F|]. split; [reflexivity|]. eauto.
  - cbn [bind]. eexists _, _. split; [exact F|].
    split; reflexivity.
Qed.

(** ** Comparisons that return *)

Lemma difference_numeric `{Builtins} (self : RelativeResults.t)
    (test_name : string) (src dst : Q) :
  exists difference tolerance,
    RelativeResults._calculate_test_difference self test_name (VNum src)
      (VNum dst) = Ok (difference, tolerance).
Proof.
  unfold RelativeResults._calculate_test_difference.
  destruct (endswith test_name "mean").
  - cbn. destruct (Qeq_bool src 0) eqn:Z; [eauto|].
    apply Qeq_bool_false_iff in Z.
    rewrite (pydiv_Ok _ _ (Qabs_nonzero _ Z)). cbn. eauto.
  - destruct (endswith test_name "stddev"); cbn; eauto.
Qed.

Lemma add_models_total (models : list Model) :
  forall (msg : WeightedResult.t) (i : nat) (test_name : string)
         (src dst : value) (tol : Q),
    WeightedResult.tolerance msg = Some tol ->
    (forall model, In model models ->
                   exists results,
                     check_result model test_name src dst = Ok results) ->
    exists msg',
      RelativeResults.add_models msg i models test_name src dst = Ok msg'.
Proof.
  induction models as [|model rest IH]; intros msg i test_name src dst tol T K.
  - cbn. eauto.
  - cbn [RelativeResults.add_models].
    destruct (K model (or_introl eq_refl)) as (results & ->). cbn [bind].
    destruct (add_all_total results msg (Some i) tol T) as (msg1 & A).
    rewrite A. cbn [bind]. apply add_all_inv in A. destruct A as (T1 & _).
    apply (IH msg1 (S i) test_name src dst tol); [congruence|].
    intros m I. apply K. now right.
Qed.

Lemma weigh_averages_defined (self : RelativeResults.t)
    (averages : AveragesModel.t) (test_name : string) (src dst : value)
    (difference : Q) (tolerance : option Q) (msg : WeightedResult.t) :
  RelativeResults.weigh self test_name src dst difference tolerance = Ok msg ->
  exists msg' averages',
    RelativeResults.weigh_averages msg averages test_name
    = Ok (msg', averages')
    /\ (nonneg_models (RelativeResults.models self) test_name src dst ->
        0 <= AveragesModel.weight averages ->
        0 < WeightedResult.agg_weights msg').
Proof.
  intros E. pose proof (weigh_weight_nonzero _ _ _ _ _ _ _ E) as NZ.
  pose proof (weigh_inv _ _ _ _ _ _ _ E)
    as (msg_models & M & W & T & _ & _ & (tol & ->)).
  destruct (check_result_averages_total averages test_name
              (WeightedResult.agg_diffs msg / WeightedResult.agg_weights msg))
    as (results & averages' & C).
  destruct (add_all_total results msg None tol T) as (msg' & A).
  exists msg', averages'. split.
  { unfold RelativeResults.weigh_averages, WeightedResult.score.
    rewrite (pydiv_Ok _ _ NZ). cbn [bind]. rewrite C. cbn [bind].
    rewrite A. reflexivity. }
  intros NM NA.
  apply check_result_averages_inv in C. destruct C as (_ & _ & _ & P).
  apply add_all_inv in A. destruct A as (_ & _ & W' & _).
  pose proof (fold_weights_mono results (WeightedResult.agg_weights msg)
                (P NA)) as Mono.
  rewrite <- W' in Mono.
  pose proof (add_models_nonneg _ _ _ _ _ _ _ NM M) as Pos. cbn in Pos.
  rewrite W in Mono, NZ.
  destruct (raw_weight_cases msg_models) as [[Z R]|[N R]];
    rewrite R in Mono, NZ; lra.
Qed.

(** X4. A comparison of two numbers returns a Result whenever every
    configured model gives its opinions without raising, none of them
    with a negative weight, and the weight of the averages model is not
    negative: no division by zero and no missing source value can
    occur. *)
Theorem record_result_returns `{Builtins} (self : RelativeResults.t)
    (averages : AveragesModel.t) (test_name : string) (src dst : Q)
    (primary grouped : bool) (params : option params_t) :
  (forall model, In model (RelativeResults.models self) ->
                 exists results,
                   check_result model test_name (VNum src) (VNum dst)
                   = Ok results
                   /\ Forall (fun o => 0 <= o_weight o) results) ->
  0 <= AveragesModel.weight averages ->
  exists r self' averages',
    RelativeResults.record_result self averages test_name (VNum src)
      (VNum dst) primary grouped None None params
    = Ok (r, self', averages').
Proof.
  intros K NA. unfold RelativeResults.record_result,
    RelativeResults.difference_and_tolerance.
  destruct (difference_numeric self test_name src dst) as (d & tol & ->).
  cbn [bind].
  assert (NM : nonneg_models (RelativeResults.models self) test_name
                 (VNum src) (VNum dst)).
  { apply Forall_forall. intros model I results E.
    destruct (K model I) as (results' & E' & F). congruence. }
  destruct (add_models_total (RelativeResults.models self)
              (WeightedResult.init (VNum dst) (Some tol)) 0 test_name
              (VNum src) (VNum dst) tol eq_refl) as (msg_models & M).
  { intros model I. destruct (K model I) as (results & E & _). eauto. }
  pose proof (add_models_inv _ _ _ _ _ _ _ M) as (T & _). cbn in T.
  destruct (add_total msg_models None "raw" d
              (RelativeResults.raw_weight msg_models) (Some (VNum src)) tol T)
    as (msg & A).
  assert (Wg : RelativeResults.weigh self test_name (VNum src) (VNum dst) d
                 (Some tol) = Ok msg).
  { unfold RelativeResults.weigh. rewrite M. cbn [bind]. exact A. }
  rewrite Wg. cbn [bind].
  destruct (weigh_averages_defined self averages _ _ _ _ _ _ Wg)
    as (msg' & averages' & WA & P).
  rewrite WA. cbn [bind]. specialize (P NM NA).
  pose proof (weigh_inv _ _ _ _ _ _ _ Wg) as (mm & _ & _ & _ & _ & S & _).
  pose proof (weigh_averages_inv _ _ _ _ _ WA)
    as (sc & results & _ & _ & T' & _ & S' & _).
  pose proof (add_inv _ _ _ _ _ _ _ A) as (_ & T2 & _).
  unfold WeightedResult.report, WeightedResult.score.
  rewrite pydiv_Ok by lra. cbn [bind].
  rewrite T', T2, T, S', S, last_map_Some. cbn [bind].
  eexists _, _, _. reflexivity.
Qed.

(** X5. With no model configured and before the last run is announced
    the score of a comparison is the raw difference itself, weighed 1;
    the Result keeps the source and the destination value, and the
    averages model has added the score to what it holds for the test. *)
Theorem record_result_raw_only `{Builtins} (self self' : RelativeResults.t)
    (averages averages' : AveragesModel.t) (test_name : string)
    (src dst : value) (primary grouped : bool)
    (difference tolerance : option Q) (params : option params_t)
    (r : Result.t) (d : Q) (tol : option Q) :
  RelativeResults.models self = [] ->
  AveragesModel.last averages = false ->
  RelativeResults.record_result self averages test_name src dst primary
    grouped difference tolerance params = Ok (r, self', averages') ->
  RelativeResults.difference_and_tolerance self test_name src dst
    difference tolerance = Ok (d, tol) ->
  Result.score r == d
  /\ Result.src r = src
  /\ Result.dst r = dst
  /\ averages_entry averages' test_name
     = (fst (averages_entry averages test_name) + Result.score r,
        S (snd (averages_entry averages test_name))).
Proof.
  intros NoM L E DT. apply record_result_inv in E.
  destruct E as (d' & tol' & msg & msg' & DT' & W & WA & Sc & _ & _ & Sr & Ds
                 & _).
  rewrite DT in DT'. injection DT' as -> ->.
  unfold RelativeResults.weigh in W. rewrite NoM in W.
  cbn [RelativeResults.add_models bind] in W.
  apply add_inv in W. destruct W as (_ & _ & _ & Wg & Df & _).
  cbn in Wg, Df.
  unfold RelativeResults.weigh_averages in WA.
  bind_inv WA. bind_inv WA. destruct a0 as [results av1]. bind_inv WA.
  injection WA as -> ->.
  destruct (check_result_not_last averages test_name a L)
    as (av2 & C & _ & _ & A & _).
  rewrite C in Ea0. injection Ea0 as <- <-.
  cbn in Ea1. injection Ea1 as <-.
  rewrite Ea in Sc. injection Sc as ->.
  apply pydiv_Ok_inv in Ea. destruct Ea as (_ & Ea).
  rewrite Wg, Df in Ea.
  split; [rewrite Ea; field|]. auto.
Qed.

(** ** A run with a metric missing *)

Lemma finish_counted_failure (self : RelativeResults.t) (r : Result.t) :
  In r (RelativeResults.records self) ->
  (Result.status r < 0)%Z -> Result.primary r = true ->
  RelativeResults.finish self = 2%Z.
Proof.
  intros I L P. unfold RelativeResults.finish, RelativeResults.count_failures.
  destruct (filter _ (RelativeResults.records self)) eqn:E; [|reflexivity].
  pose proof (proj1 (filter_nil_iff _ _) E r I) as N. cbn in N.
  apply Z.ltb_lt in L. rewrite L, P in N. discriminate N.
Qed.

Lemma add_result_by_path_records `{Builtins} (self self' : ResultsContainer.t)
    (name : string) (metadata : dict string) (dst : list measurement)
    (last : bool) (res : RelativeResults.t) :
  ResultsContainer.add_result_by_path self name metadata dst last
  = Ok (res, self') ->
  (forall test score primary params,
     dict_get (ResultsContainer.src_results self) test
     = Some (score, primary, params) ->
     ~ In test (map m_test dst) ->
     In (broken_target test primary) (RelativeResults.records res))
  /\ (forall m,
        In m dst ->
        dict_get (ResultsContainer.src_results self) (m_test m) = None ->
        In (broken_source m) (RelativeResults.records res)).
Proof.
  unfold ResultsContainer.add_result_by_path. intros E.
  bind_inv E. destruct a as [[res1 averages1] src_tests1].
  apply add_dst_results_Ok in Ea.
  destruct Ea as (_ & Inc & K & compared & R & F). cbn in R.
  destruct (add_missing_Ok self src_tests1 res1 Inc)
    as (res' & M & _ & missing & R' & F').
  rewrite M in E. injection E as <- _. split.
  - intros test score primary params D N.
    assert (T : In test src_tests1).
    { apply K; [|exact N]. now apply dict_get_Some_keys in D. }
    rewrite R'. apply in_or_app. right.
    clear -F' T D. induction F' as [|t r ts rs (s & p & q & D' & ->) F' IH].
    + destruct T.
    + destruct T as [->|T]; [|right; now apply IH].
      left. rewrite D in D'. now injection D' as _ <- _.
  - intros m I D. rewrite R', R. apply in_or_app. left.
    clear -F I D. induction F as [|m' r ms rs [_ B] F IH].
    + destruct I.
    + destruct I as [->|I]; [|right; now apply IH].
      left. apply B. intros T. apply dict_get_keys in T.
      destruct T as (v & T). congruence.
Qed.

(** X6. When a comparison of two runs returns and a primary metric of
    the baseline is missing from the destination, or the destination
    has a primary metric the baseline lacks, [finish] reports the exit
    code 2. *)
Theorem missing_primary_metric_fails `{Builtins}
    (self self' : ResultsContainer.t) (name : string)
    (metadata : dict string) (dst : list measurement) (last : bool)
    (res : RelativeResults.t) :
  ResultsContainer.add_result_by_path self name metadata dst last
  = Ok (res, self') ->
  (exists test score params,
     dict_get (ResultsContainer.src_results self) test
     = Some (score, true, params)
     /\ ~ In test (map m_test dst))
  \/ (exists m,
        In m dst /\ m_primary m = true
        /\ dict_get (ResultsContainer.src_results self) (m_test m) = None) ->
  RelativeResults.finish res = 2%Z.
Proof.
  intros E U. apply add_result_by_path_records in E. destruct E as [T S].
  destruct U as [(test & score & params & D & N)|(m & I & P & D)].
  - apply (finish_counted_failure res (broken_target test true));
      [exact (T _ _ _ _ D N) | reflexivity | reflexivity].
  - apply (finish_counted_failure res (broken_source m));
      [exact (S m I D) | reflexivity | exact P].
Qed.

(** ** Candidates of [closest_result] *)

Lemma calculate_stats_empty `{Builtins} `{MathLib}
    (src : list (string * Closest.src_entry)) (stats : list Q * list Q) :
  Closest.calculate_stats [] stats src = Ok stats.
Proof.
  induction src as [|[test [[score primary] stddev]] rest IH];
    [reflexivity | exact IH].
Qed.

(** X7. Without a candidate [closest_result] raises [ValueError],
    whatever the reference results are: [process_score] takes the
    maximum of no score. *)
Theorem closest_result_no_candidate `{Builtins} `{MathLib}
    (src_path : list measurement) :
  Closest.closest_result src_path [] = Raise ValueError.
Proof.
  unfold Closest.closest_result. cbn [Closest._process_results List.length
    Closest.enumerate_from Closest.process_paths bind].
  unfold Closest._calculate_stats. rewrite calculate_stats_empty.
  reflexivity.
Qed.

Lemma set_item_In {A : Type} (f : A -> A) (l : list A) :
  forall (i : nat) (l' : list A),
    Closest.set_item l i f = Ok l' -> exists e, In (f e) l'.
Proof.
  induction l as [|x l IH]; intros i l' E; [discriminate|].
  destruct i as [|i]; cbn in E.
  - injection E as <-. exists x. now left.
  - bind_inv E. injection E as <-. destruct (IH _ _ Ea) as (e & I).
    exists e. now right.
Qed.

Lemma storage_set_rows (no_results : nat) (storage storage' : dict Closest.row)
    (name : string) (idx : nat)
    (f : option value * option value -> option value * option value) :
  Closest.storage_set no_results storage name idx f = Ok storage' ->
  (forall e, fst (f e) <> None \/ snd (f e) <> None) ->
  (forall name this, dict_get storage name = Some this -> row_set this) ->
  forall name this, dict_get storage' name = Some this -> row_set this.
Proof.
  unfold Closest.storage_set. intros E K R name' this D. bind_inv E.
  injection E as <-. destruct (String.eqb_spec name name') as [->|NE].
  - rewrite dict_get_set_same in D. injection D as <-.
    destruct (set_item_In _ _ _ _ Ea) as (e & I). exists (f e). auto.
  - rewrite dict_get_set_other in D by exact NE. exact (R _ _ D).
Qed.

Lemma process_path_rows (no_results idx : nat) (results : list measurement) :
  forall storage storage' : dict Closest.row,
    Closest.process_path no_results storage idx results = Ok storage' ->
    (forall name this, dict_get storage name = Some this -> row_set this) ->
    forall name this, dict_get storage' name = Some this -> row_set this.
Proof.
  induction results as [|m rest IH]; intros storage storage' E R.
  - now injection E as <-.
  - cbn [Closest.process_path] in E.
    destruct (endswith (m_test m) "stddev").
    + destruct (value_eqb (m_score m) (VNum 0)); [now apply (IH _ _ E)|].
      bind_inv E. apply (IH _ _ E).
      apply (storage_set_rows _ _ _ _ _ _ Ea); [|exact R].
      intros e. right. discriminate.
    + bind_inv E. apply (IH _ _ E).
      apply (storage_set_rows _ _ _ _ _ _ Ea); [|exact R].
      intros e. left. discriminate.
Qed.

Lemma process_paths_rows (no_results : nat) (paths : list (list measurement)) :
  forall (k : nat) (storage storage' : dict Closest.row),
    Closest.process_paths no_results storage
      (Closest.enumerate_from k paths) = Ok storage' ->
    (forall name this, dict_get storage name = Some this -> row_set this) ->
    forall name this, dict_get storage' name = Some this -> row_set this.
Proof.
  induction paths as [|results rest IH]; intros k storage storage' E R.
  - now injection E as <-.
  - cbn [Closest.enumerate_from Closest.process_paths] in E. bind_inv E.
    apply (IH _ _ _ E). now apply (process_path_rows _ _ _ _ _ Ea).
Qed.

(** X8. [_process_results] never raises. Every row of the storage it
    returns has one entry per candidate, and at least one of them holds
    a score or a standard deviation. *)
Theorem process_results_rows (dst_paths : list (list measurement)) :
  exists storage,
    Closest._process_results dst_paths = Ok storage
    /\ forall name this,
         dict_get storage name = Some this ->
         List.length this = List.length dst_paths /\ row_set this.
Proof.
  destruct (process_results_Ok dst_paths) as (storage & P & L).
  exists storage. split; [exact P|]. intros name this D.
  split; [exact (L _ _ D)|].
  apply (process_paths_rows _ _ _ _ _ P) with (name := name); [|exact D].
  intros n t E. discriminate E.
Qed.

(** ** Scores by distance *)

Lemma fold_min_spec (l : list Q) :
  forall x : Q,
    let m := fold_left (fun m y => if Qlt_bool y m then y else m) l x in
    (m = x \/ In m l) /\ m <= x /\ forall y, In y l -> m <= y.
Proof.
  induction l as [|a l IH]; intros x; cbn.
  - split; [now left|]. split; [lra | intros y []].
  - specialize (IH (if Qlt_bool a x then a else x)). cbn in IH.
    destruct IH as (M & L & A).
    destruct (Qlt_bool a x) eqn:C.
    + apply Qlt_bool_iff in C. split; [|split].
      * right. destruct M as [->|M]; [now left | now right].
      * lra.
      * intros y [<-|I]; [exact L | now apply A].
    + apply Qlt_bool_false_iff in C. split; [|split].
      * destruct M as [->|M]; [now left | right; now right].
      * exact L.
      * intros y [<-|I]; [lra | now apply A].
Qed.

Lemma pymin_spec (l : list Q) :
  l <> [] ->
  exists m, Closest.pymin l = Ok m /\ In m l /\ forall y, In y l -> m <= y.
Proof.
  destruct l as [|x l]; [congruence|]. intros _. cbn.
  destruct (fold_min_spec l x) as (M & L & A).
  eexists. split; [reflexivity|]. split.
  - destruct M as [->|M]; [now left | now right].
  - intros y [<-|I]; [exact L | now apply A].
Qed.

Lemma distance_nonneg (this_score score : option value) (q : Q) :
  Closest._distance this_score score = Some q -> 0 <= q.
Proof.
  unfold Closest._distance.
  destruct this_score as [[x|s]|]; [| |discriminate].
  - destruct score as [[y|t]|]; intros E.
    + assert (Q : q = Qabs (x - y)) by congruence. rewrite Q.
      apply Qabs_nonneg.
    + cbn in E. injection E as <-. lra.
    + injection E as <-. lra.
  - destruct score as [[y|t]|]; intros E; cbn in E.
    + injection E as <-. lra.
    + injection E as <-. destruct (String.eqb s t); lra.
    + injection E as <-. lra.
Qed.

Lemma mapM_pydiv (g : Q) (l : list Q) :
  ~ g == 0 ->
  mapM (fun d => pydiv d g) l = Ok (map (fun d => d / g) l).
Proof.
  intros N. apply mapM_Ok_map. intros d _. now apply pydiv_Ok.
Qed.

Lemma normalize_spec (distances : list Q) :
  Forall (fun d => 0 <= d) distances ->
  (exists d, In d distances /\ 0 < d) ->
  exists greatest,
    Closest.pymax distances = Ok greatest
    /\ mapM (fun d => pydiv d (greatest / 3)) distances
       = Ok (map (fun d => d / (greatest / 3)) distances)
    /\ Forall (fun d => 0 <= d /\ d <= 3)
              (map (fun d => d / (greatest / 3)) distances).
Proof.
  intros P (d0 & I0 & G0).
  destruct (pymax_spec distances) as (greatest & E & _ & M).
  { intros ->. destruct I0. }
  pose proof (M d0 I0) as G.
  exists greatest. split; [exact E|].
  assert (T : 0 < greatest / 3) by (apply Qlt_shift_div_l; lra).
  split; [apply mapM_pydiv; lra|].
  apply Forall_forall. intros x I. apply in_map_iff in I.
  destruct I as (d & <- & I).
  pose proof (proj1 (Forall_forall _ _) P d I) as D0. cbn in D0.
  pose proof (M d I) as D1. split.
  - apply Qle_shift_div_l; [exact T | lra].
  - apply Qle_shift_div_r; [exact T|].
    setoid_replace (3 * (greatest / 3)) with greatest by field. exact D1.
Qed.

Lemma known_length (score : option value) (this : Closest.row) :
  (forall e, In e this ->
             exists q, Closest._distance (fst e) score = Some q) ->
  List.length
    (flat_map (fun d : option Q => match d with Some q => [q] | None => [] end)
              (map (fun e => Closest._distance (fst e) score) this))
  = List.length this.
Proof.
  induction this as [|e this IH]; intros K; [reflexivity|].
  cbn [map flat_map]. destruct (K e (or_introl eq_refl)) as (q & ->).
  cbn. f_equal. apply IH. intros e' I. apply K. now right.
Qed.

Lemma distance_score_spec `{MathLib} (score : option value)
    (this : Closest.row) :
  (exists e, In e this /\ fst e <> None) ->
  exists result,
    Closest.distance_score score this = Ok result
    /\ match result with
       | None =>
           exists d0,
             Forall (fun e => exists q,
                                Closest._distance (fst e) score = Some q
                                /\ q == d0) this
       | Some scores =>
           exists norm_distances,
             scores = map distance_to_score norm_distances
             /\ List.length norm_distances = List.length this
             /\ Forall (fun d => 0 <= d /\ d <= 3) norm_distances
             /\ ~ (exists d0,
                     Forall (fun e => exists q,
                                        Closest._distance (fst e) score
                                        = Some q /\ q == d0) this)
       end.
Proof.
  intros (e0 & I0 & S0). unfold Closest.distance_score.
  set (distances := map (fun e => Closest._distance (fst e) score) this).
  set (known := flat_map (fun d => match d with Some q => [q] | None => [] end)
                         distances).
  assert (KI : forall q, In q known <-> In (Some q) distances).
  { intros q. unfold known. rewrite in_flat_map. split.
    - intros (d & I & Iq).
      destruct d as [x|]; [destruct Iq as [<-|[]]; exact I | destruct Iq].
    - intros I. exists (Some q). split; [exact I | now left]. }
  assert (KP : Forall (fun d => 0 <= d) known).
  { apply Forall_forall. intros q I. apply KI in I.
    apply in_map_iff in I. destruct I as (e & E & _).
    now apply distance_nonneg in E. }
  assert (K0 : exists q, In q known).
  { destruct (Closest._distance (fst e0) score) as [q|] eqn:D.
    - exists q. apply KI, in_map_iff. now exists e0.
    - unfold Closest._distance in D.
      destruct (fst e0) as [[x|s]|]; [| |congruence].
      + destruct score as [[y|t]|]; discriminate D.
      + destruct score; discriminate D. }
  destruct K0 as (q0 & IQ0).
  destruct (pymin_spec known) as (min_distance & Emin & Imin & Lmin);
    [intros E; rewrite E in IQ0; destruct IQ0|].
  destruct (pymax_spec known) as (max_distance & Emax & Imax & Lmax);
    [intros E; rewrite E in IQ0; destruct IQ0|].
  rewrite Emin, Emax. cbn [bind].
  pose proof (proj1 (Forall_forall _ _) KP _ Imin) as Min0. cbn in Min0.
  pose proof (Lmax _ Imin) as MinMax.
  assert (Same : forall d0,
             Forall (fun e => exists q,
                                Closest._distance (fst e) score = Some q
                                /\ q == d0) this ->
             forallb (fun d => match d with None => false | Some _ => true end)
                     distances = true
             /\ min_distance == max_distance).
  { intros d0 F. rewrite Forall_forall in F. split.
    - apply forallb_forall. intros d I. apply in_map_iff in I.
      destruct I as (e & <- & I). destruct (F e I) as (q & -> & _).
      reflexivity.
    - assert (A : forall q, In q known -> q == d0).
      { intros q I. apply KI, in_map_iff in I. destruct I as (e & E & I).
        destruct (F e I) as (q' & E' & Q). congruence. }
      rewrite (A _ Imin), (A _ Imax). reflexivity. }
  destruct (existsb (fun d => match d with None => true | Some _ => false end)
                    distances) eqn:HasNone.
  - set (bad0 := if Qeq_bool min_distance max_distance then min_distance * 2
                 else max_distance * 2).
    set (bad := if Qeq_bool min_distance 0 then 1 else bad0).
    assert (Bad : 0 < bad).
    { unfold bad, bad0. destruct (Qeq_bool min_distance 0) eqn:Z; [lra|].
      apply Qeq_bool_false_iff in Z.
      destruct (Qeq_bool min_distance max_distance); lra. }
    set (filled := map (fun d => match d with None => bad | Some q => q end)
                       distances).
    destruct (normalize_spec filled) as (greatest & G & MM & R).
    { apply Forall_forall. intros x I. apply in_map_iff in I.
      destruct I as ([q|] & <- & I); [|lra].
      apply (proj1 (Forall_forall _ _) KP). now apply KI. }
    { apply existsb_exists in HasNone. destruct HasNone as ([q|] & I & N);
        [discriminate|].
      exists bad. split; [|exact Bad]. apply in_map_iff.
      exists None. split; [reflexivity | exact I]. }
    rewrite G. cbn [bind]. rewrite MM. cbn [bind].
    eexists. split; [reflexivity|]. eexists. split; [reflexivity|].
    split; [unfold filled, distances; now rewrite !length_map|].
    split; [exact R|].
    intros (d0 & F). destruct (Same d0 F) as [All _].
    apply existsb_exists in HasNone. destruct HasNone as ([q|] & I & N);
      [discriminate|].
    pose proof (proj1 (forallb_forall _ _) All None I) as C. discriminate C.
  - assert (AllSome : forall e, In e this ->
                                exists q, Closest._distance (fst e) score
                                          = Some q /\ In q known).
    { intros e I.
      destruct (Closest._distance (fst e) score) as [q|] eqn:D.
      - exists q. split; [reflexivity|]. apply KI, in_map_iff. now exists e.
      - exfalso.
        assert (X : existsb (fun d => match d with
                                      | None => true
                                      | Some _ => false
                                      end) distances = true).
        { apply existsb_exists. exists None. split; [|reflexivity].
          apply in_map_iff. now exists e. }
        congruence. }
    destruct (Qeq_bool min_distance max_distance) eqn:EqMM.
    + apply Qeq_bool_iff in EqMM. eexists. split; [reflexivity|].
      exists min_distance. apply Forall_forall. intros e I.
      destruct (AllSome e I) as (q & D & Iq). exists q. split; [exact D|].
      pose proof (Lmin q Iq). pose proof (Lmax q Iq). lra.
    + apply Qeq_bool_false_iff in EqMM.
      destruct (normalize_spec known) as (greatest & G & MM & R);
        [exact KP | exists max_distance; split; [exact Imax | lra] |].
      rewrite Emax in G. injection G as <-.
      cbv zeta. rewrite MM. cbn [bind].
      eexists. split; [reflexivity|]. eexists. split; [reflexivity|].
      split.
      { rewrite length_map. unfold known, distances. apply known_length.
        intros e I. destruct (AllSome e I) as (q & D & _). eauto. }
      split; [exact R|].
      intros (d0 & F). destruct (Same d0 F) as [_ C]. contradiction.
Qed.

(** X9. When some candidate has a score for a test, [distance_score]
    never raises: no maximum of nothing, no division by zero. It skips
    the test exactly when every candidate has a score, all at the same
    distance; otherwise every candidate gets
    [exp(-distance^2 / 2) / 2] for a normalized distance between 0 and
    3. *)
Theorem distance_score_defined `{MathLib} (score : option value)
    (this : Closest.row) :
  (exists e, In e this /\ fst e <> None) ->
  exists result,
    Closest.distance_score score this = Ok result
    /\ match result with
       | None =>
           exists d0,
             Forall (fun e => exists q,
                                Closest._distance (fst e) score = Some q
                                /\ q == d0) this
       | Some scores =>
           exists norm_distances,
             scores = map distance_to_score norm_distances
             /\ List.length norm_distances = List.length this
             /\ Forall (fun d => 0 <= d /\ d <= 3) norm_distances
             /\ ~ (exists d0,
                     Forall (fun e => exists q,
                                        Closest._distance (fst e) score
                                        = Some q /\ q == d0) this)
       end.
Proof.
  intros Scored.
  destruct (distance_score_spec score this Scored) as (result & E & Shape).
  exists result. split; [exact E|].
  destruct result as [scores|]; exact Shape.
Qed.

(** ** Trained models in a comparison *)








(** ** What grouping leaves alone *)

Lemma expand_pass_primary `{Builtins} `{Regex}
    (self self' : RelativeResults.t) (averages averages' : AveragesModel.t)
    (records : list Result.t) (merge : list string) :
  RelativeResults._expand_grouped_result self averages records merge
  = Ok (self', averages') ->
  RelativeResults.records self' = RelativeResults.records self
  /\ exists new,
       RelativeResults.grouped_records self'
       = (RelativeResults.grouped_records self ++ new)%list
       /\ Forall (fun r => Result.primary r = true) new
       /\ (records = [] -> new = []).
Proof.
  unfold RelativeResults._expand_grouped_result. intros E. bind_inv E.
  apply record_groups_inv in E. destruct E as (R & _ & new & G & F).
  split; [exact R|]. exists new. split; [exact G|]. split.
  - apply (Forall2_Forall_r _ _ _ _ F).
    intros g r (u & _ & _ & _ & _ & _ & P). exact P.
  - intros ->. injection Ea as <-. now inversion F.
Qed.

(** X12. [expand_grouped_results] leaves the records as they are and
    only appends to the grouped records; every Result it appends is
    primary, and it appends nothing when no record is primary, free of
    error and not a standard deviation. *)
Theorem expand_grouped_results_appends `{Builtins} `{Regex}
    (self self' : RelativeResults.t) (averages averages' : AveragesModel.t) :
  RelativeResults.expand_grouped_results self averages
  = Ok (self', averages') ->
  RelativeResults.records self' = RelativeResults.records self
  /\ exists new,
       RelativeResults.grouped_records self'
       = (RelativeResults.grouped_records self ++ new)%list
       /\ Forall (fun r => Result.primary r = true) new
       /\ (filter groupable (RelativeResults.records self) = [] -> new = []).
Proof.
  unfold RelativeResults.expand_grouped_results.
  fold (filter groupable (RelativeResults.records self)).
  change (filter
            (fun record =>
               Result.primary record
               && negb (Result.status record =? ERROR)%Z
               && negb (Result.is_stddev record))
            (RelativeResults.records self))
    with (filter groupable (RelativeResults.records self)).
  intros E. bind_inv E. destruct a as [self1 averages1]. bind_inv E.
  destruct a as [self2 averages2].
  apply expand_pass_primary in Ea, Ea0, E.
  destruct Ea as (R1 & n1 & G1 & P1 & N1).
  destruct Ea0 as (R2 & n2 & G2 & P2 & N2).
  destruct E as (R3 & n3 & G3 & P3 & N3).
  split; [congruence|]. exists (n1 ++ n2 ++ n3)%list. split; [|split].
  - rewrite G3, G2, G1, <- !app_assoc. reflexivity.
  - apply Forall_app. split; [exact P1|]. apply Forall_app. auto.
  - intros F. now rewrite (N1 F), (N2 F), (N3 F).
Qed.

(** ** Training the models *)

Lemma linalg_solve_spec (a11 a12 a21 a22 b1 b2 : Q) :
  match ModelIdentify.linalg_solve a11 a12 a21 a22 b1 b2 with
  | None => a11 * a22 - a12 * a21 == 0
  | Some (x, y) =>
      ~ a11 * a22 - a12 * a21 == 0
      /\ a11 * x + a12 * y == b1 /\ a21 * x + a22 * y == b2
  end.
Proof.
  unfold ModelIdentify.linalg_solve. cbv zeta.
  destruct (Qeq_bool (a11 * a22 - a12 * a21) 0) eqn:D.
  - now apply Qeq_bool_iff in D.
  - assert (N : ~ a11 * a22 - a12 * a21 == 0).
    { intros C. apply Qeq_bool_iff in C. congruence. }
    split; [exact N|]. split; field; exact N.
Qed.

Lemma In_insert_sorted (k x : string) (l : list string) :
  In x (ModelIdentify.insert_sorted k l) <-> x = k \/ In x l.
Proof.
  induction l as [|y l IH]; cbn.
  - intuition congruence.
  - destruct (String.leb k y); cbn; [intuition congruence|].
    rewrite IH. intuition congruence.
Qed.

Lemma In_sorted (x : string) (l : list string) :
  In x (ModelIdentify.sorted l) <-> In x l.
Proof.
  induction l as [|y l IH]; cbn; [tauto|].
  rewrite In_insert_sorted, IH. intuition congruence.
Qed.

Section IdentifyLoop.

Context `{Builtins}.
Variable range : list Q -> outcome (Q * Q).
Variable mean_tolerance : Q.
Variable data : dict (dict value).

Lemma identify_test_other (tests tests' : dict ModelLinearRegression.entry)
    (k test : string) :
  ModelIdentify.identify_test range mean_tolerance data tests k = Ok tests' ->
  k <> test -> dict_get tests' test = dict_get tests test.
Proof.
  unfold ModelIdentify.identify_test. intros E N.
  destruct (mapM as_float _) as [values|e]; [|now injection E as <-].
  destruct (range values) as [[lo hi]|e]; [|discriminate]. cbn in E.
  destruct (ModelIdentify._identify mean_tolerance lo hi) as [eq|];
    injection E as <-; [|reflexivity].
  now apply dict_get_set_other.
Qed.

Lemma identify_test_same (tests tests' : dict ModelLinearRegression.entry)
    (test : string) (values : list Q) :
  test_values data test = Ok values ->
  ModelIdentify.identify_test range mean_tolerance data tests test
    = Ok tests' ->
  exists lo hi, range values = Ok (lo, hi)
    /\ match ModelIdentify._identify mean_tolerance lo hi with
       | Some eq =>
           dict_get tests' test
           = Some (ModelLinearRegression.mk_entry eq (Some (average values)))
       | None => tests' = tests
       end.
Proof.
  unfold test_values, ModelIdentify.identify_test. intros -> E.
  destruct (range values) as [[lo hi]|e]; [|discriminate]. cbn in E.
  exists lo, hi. split; [reflexivity|].
  destruct (ModelIdentify._identify mean_tolerance lo hi) as [eq|];
    injection E as <-; [|reflexivity].
  apply dict_get_set_same.
Qed.

Lemma identify_test_text (tests tests' : dict ModelLinearRegression.entry)
    (test : string) (e : exn) :
  test_values data test = Raise e ->
  ModelIdentify.identify_test range mean_tolerance data tests test
    = Ok tests' ->
  tests' = tests.
Proof.
  unfold test_values, ModelIdentify.identify_test. intros -> E.
  now injection E as <-.
Qed.

(** What the loop does to the entry of one test whose samples are
    numbers: [Good] holds of an entry the loop stores, [Skip] when the
    matrix is singular. *)
Lemma identify_tests_entry (test : string) (values : list Q)
    (Good : ModelLinearRegression.entry -> Prop) (Skip : Prop)
    (g0 : option ModelLinearRegression.entry) :
  test_values data test = Ok values ->
  (forall lo hi, range values = Ok (lo, hi) ->
     match ModelIdentify._identify mean_tolerance lo hi with
     | Some eq =>
         Good (ModelLinearRegression.mk_entry eq (Some (average values)))
     | None => Skip
     end) ->
  forall (keys : list string) (tests tests' : dict ModelLinearRegression.entry),
    ModelIdentify.identify_tests range mean_tolerance data tests keys
      = Ok tests' ->
    (trained_or test Good g0 True tests -> trained_or test Good g0 True tests')
    /\ (trained_or test Good g0 Skip tests
        -> trained_or test Good g0 Skip tests')
    /\ (In test keys -> trained_or test Good g0 True tests
        -> trained_or test Good g0 Skip tests').
Proof.
  intros V G. induction keys as [|k keys IH]; intros tests tests' E.
  - injection E as <-. repeat split; [tauto | tauto | intros []].
  - cbn in E. bind_inv E. destruct (IH _ _ E) as (I1 & I2 & I3).
    destruct (String.eqb_spec k test) as [->|N].
    + destruct (identify_test_same _ _ _ _ V Ea) as (lo & hi & R & S).
      specialize (G lo hi R).
      destruct (ModelIdentify._identify mean_tolerance lo hi) as [eq|].
      * assert (TS : trained_or test Good g0 Skip a) by (left; eauto).
        assert (TT : trained_or test Good g0 True a) by (left; eauto).
        split; [|split]; intros; auto.
      * subst a. split; [|split]; auto.
        intros _ [Tr|[Tr _]]; apply I2; [now left | right; now split].
    + pose proof (identify_test_other _ _ _ _ Ea N) as O.
      assert (K : forall P, trained_or test Good g0 P tests
                            -> trained_or test Good g0 P a).
      { intros P [(e & Ee & Ge)|[Eg Pp]].
        - left. exists e. split; [congruence | exact Ge].
        - right. split; [congruence | exact Pp]. }
      split; [|split]; auto.
      intros [C|I]; [congruence|]. auto.
Qed.

(** The entry of a test with a sample that is no number is left alone. *)
Lemma identify_tests_text (test : string) (e : exn) :
  test_values data test = Raise e ->
  forall (keys : list string) (tests tests' : dict ModelLinearRegression.entry),
    ModelIdentify.identify_tests range mean_tolerance data tests keys
      = Ok tests' ->
    dict_get tests' test = dict_get tests test.
Proof.
  intros V. induction keys as [|k keys IH]; intros tests tests' E.
  - now injection E as <-.
  - cbn in E. bind_inv E. rewrite (IH _ _ E).
    destruct (String.eqb_spec k test) as [->|N].
    + now rewrite (identify_test_text _ _ _ _ V Ea).
    + exact (identify_test_other _ _ _ _ Ea N).
Qed.

(** A test without samples stops the loop. *)
Lemma identify_tests_no_sample (test : string) :
  dict_get data test = Some [] ->
  range [] = Raise ValueError ->
  (forall values e, range values = Raise e -> e = ValueError) ->
  forall (keys : list string) (tests : dict ModelLinearRegression.entry),
    In test keys ->
    ModelIdentify.identify_tests range mean_tolerance data tests keys
    = Raise ValueError.
Proof.
  intros D R0 R. induction keys as [|k keys IH]; intros tests I; [destruct I|].
  cbn.
  destruct (ModelIdentify.identify_test range mean_tolerance data tests k)
    as [tests1|e] eqn:E.
  - cbn. destruct I as [->|I]; [|now apply IH].
    unfold ModelIdentify.identify_test in E. rewrite D in E. cbn in E.
    rewrite R0 in E. discriminate.
  - cbn. f_equal. unfold ModelIdentify.identify_test in E.
    destruct (mapM as_float _) as [values|e']; [|discriminate].
    destruct (range values) as [[lo hi]|e'] eqn:Er.
    + cbn in E. now destruct (ModelIdentify._identify mean_tolerance lo hi).
    + cbn in E. injection E as <-. now apply (R values).
Qed.

End IdentifyLoop.

Lemma linear_range_spec (mean_tolerance lo hi : Q) (values : list Q) :
  ModelIdentify.linear_range mean_tolerance values = Ok (lo, hi) ->
  forall x, In x values -> lo <= x /\ x <= hi.
Proof.
  unfold ModelIdentify.linear_range. cbv zeta. intros E x I.
  assert (N : values <> []) by (intros ->; destruct I).
  destruct (pymax_spec values N) as (M & EM & _ & AM).
  destruct (pymin_spec values N) as (m & Em & _ & Am).
  rewrite EM in E. cbn [bind] in E. rewrite Em in E. cbn [bind] in E.
  injection E as <- <-. specialize (AM x I). specialize (Am x I). split.
  - match goal with |- (if ?c then _ else _) <= _ => destruct c eqn:C end;
      [apply Qlt_bool_iff in C; lra | exact Am].
  - match goal with |- _ <= (if ?c then _ else _) => destruct c eqn:C end;
      [apply Qlt_bool_iff in C; lra | exact AM].
Qed.

Lemma linear_range_raises (mean_tolerance : Q) (values : list Q) (e : exn) :
  ModelIdentify.linear_range mean_tolerance values = Raise e -> e = ValueError.
Proof.
  unfold ModelIdentify.linear_range. cbv zeta.
  destruct values as [|x l]; cbn; congruence.
Qed.

Lemma stdev_range_raises `{MathLib} (values : list Q) (e : exn) :
  ModelIdentify.stdev_range values = Raise e -> e = ValueError.
Proof.
  unfold ModelIdentify.stdev_range.
  destruct values as [|x l]; [cbn; congruence|].
  destruct (get_uncertainty_pos (Z.of_nat (List.length (x :: l))))
    as (u & -> & _); [cbn [List.length]; lia|].
  discriminate.
Qed.

Lemma between_in_tolerance (tol lo hi a b x : Q) :
  0 <= tol -> ~ lo == hi -> lo <= x -> x <= hi ->
  a * hi + b == tol -> a * lo + b == - tol ->
  - tol <= a * x + b <= tol.
Proof.
  intros T N L U E1 E2.
  assert (P : 0 < hi - lo) by lra.
  assert (A : 0 <= a).
  { destruct (Qlt_le_dec a 0) as [C|C]; [|exact C]. exfalso.
    assert (K : a * (hi - lo) == 2 * tol) by lra.
    assert (0 < (- a) * (hi - lo)) by (apply Qmult_lt_0_compat; lra).
    lra. }
  assert (0 <= a * (hi - x)) by (apply Qmult_le_0_compat; lra).
  assert (0 <= a * (x - lo)) by (apply Qmult_le_0_compat; lra).
  lra.
Qed.

(** X13. [_identify] gives no equation exactly when [low] and [high]
    are the same number; otherwise the equation [a * x + b] it gives maps
    [high] to the tolerance and [low] to minus the tolerance. *)
Theorem identify_equation (mean_tolerance low high : Q) :
  match ModelIdentify._identify mean_tolerance low high with
  | None => low == high
  | Some (a, b) =>
      ~ low == high
      /\ a * high + b == mean_tolerance
      /\ a * low + b == - mean_tolerance
  end.
Proof.
  unfold ModelIdentify._identify.
  pose proof (linalg_solve_spec high 1 low 1 mean_tolerance (- mean_tolerance))
    as S.
  destruct (ModelIdentify.linalg_solve high 1 low 1 mean_tolerance
              (- mean_tolerance)) as [[a b]|].
  - destruct S as (N & E1 & E2). split; [|split]; lra.
  - lra.
Qed.

Lemma linear_entry_bounds (mean_tolerance lo hi : Q) (values : list Q) :
  0 <= mean_tolerance ->
  ModelIdentify.linear_range mean_tolerance values = Ok (lo, hi) ->
  match ModelIdentify._identify mean_tolerance lo hi with
  | Some eq =>
      forall x, In x values ->
                - mean_tolerance <= fst eq * x + snd eq <= mean_tolerance
  | None => forall x y, In x values -> In y values -> x == y
  end.
Proof.
  intros T R. pose proof (linear_range_spec _ _ _ _ R) as B.
  unfold ModelIdentify._identify.
  pose proof (linalg_solve_spec hi 1 lo 1 mean_tolerance (- mean_tolerance))
    as S.
  destruct (ModelIdentify.linalg_solve hi 1 lo 1 mean_tolerance
              (- mean_tolerance)) as [[p q]|].
  - destruct S as (N & E1 & E2). intros x Ix. cbn [fst snd].
    destruct (B x Ix). apply (between_in_tolerance mean_tolerance lo hi);
      try assumption; lra.
  - intros x y Ix Iy. destruct (B x Ix), (B y Iy). lra.
Qed.

(** X14. For a tolerance that is not negative and a test of the data
    whose samples are all numbers, [ModelLinearRegression.identify], when
    it returns, has either stored an entry whose raw value is the average
    of the samples and whose equation puts every sample between minus the
    tolerance and the tolerance, or left the entry of the test as it was,
    and then all the samples are the same number. *)
Theorem identify_bounds_samples `{Builtins} (mean_tolerance : Q)
    (model model' : ModelIdentify.model_t) (data : dict (dict value))
    (test : string) (values : list Q) :
  0 <= mean_tolerance ->
  ModelIdentify.identify mean_tolerance model data = Ok model' ->
  In test (dict_keys data) ->
  test_values data test = Ok values ->
  (exists e,
     dict_get (ModelIdentify.tests model') test = Some e
     /\ ModelLinearRegression.raw e = Some (average values)
     /\ forall x, In x values ->
          - mean_tolerance
          <= fst (ModelLinearRegression.equation e) * x
             + snd (ModelLinearRegression.equation e)
          <= mean_tolerance)
  \/ (dict_get (ModelIdentify.tests model') test
      = dict_get (ModelIdentify.tests model) test
      /\ forall x y, In x values -> In y values -> x == y).
Proof.
  intros T E I V. unfold ModelIdentify.identify in E. cbv zeta in E.
  bind_inv E. injection E as <-. cbn [ModelIdentify.tests] in *.
  apply In_sorted in I.
  pose (Good := fun e =>
    ModelLinearRegression.raw e = Some (average values)
    /\ forall x, In x values ->
         - mean_tolerance
         <= fst (ModelLinearRegression.equation e) * x
            + snd (ModelLinearRegression.equation e)
         <= mean_tolerance).
  pose (Skip := forall x y, In x values -> In y values -> x == y).
  assert (G : forall lo hi,
             ModelIdentify.linear_range mean_tolerance values = Ok (lo, hi) ->
             match ModelIdentify._identify mean_tolerance lo hi with
             | Some eq =>
                 Good (ModelLinearRegression.mk_entry eq
                         (Some (average values)))
             | None => Skip
             end).
  { intros lo hi R. pose proof (linear_entry_bounds _ _ _ _ T R) as B.
    destruct (ModelIdentify._identify mean_tolerance lo hi) as [eq|];
      [split; [reflexivity | exact B] | exact B]. }
  destruct (identify_tests_entry _ mean_tolerance data test values Good Skip
              (dict_get (ModelIdentify.tests model) test) V G _ _ _ Ea)
    as (_ & _ & K).
  destruct (K I) as [(e & Ee & Ge1 & Ge2)|[Eg S]].
  - right. now split.
  - left. exists e. now split.
  - right. now split.
Qed.

(** X15. For a test of the data whose samples are all numbers,
    [ModelStdev.identify], when it returns, has either stored an entry
    whose raw value is the average of the samples and whose equation maps
    that average to 0 and the average plus 3 standard deviations times
    the uncertainty of the sample count to the tolerance, or left the
    entry of the test as it was, and then the standard deviation of the
    samples is 0. *)
Theorem identify_stdev_centres `{Builtins} `{MathLib} (mean_tolerance : Q)
    (model model' : ModelIdentify.model_t) (data : dict (dict value))
    (test : string) (values : list Q) :
  ModelIdentify.identify_stdev mean_tolerance model data = Ok model' ->
  In test (dict_keys data) ->
  test_values data test = Ok values ->
  (exists e uncertainty,
     dict_get (ModelIdentify.tests model') test = Some e
     /\ ModelLinearRegression.raw e = Some (average values)
     /\ get_uncertainty (Z.of_nat (List.length values)) = Ok uncertainty
     /\ fst (ModelLinearRegression.equation e) * average values
        + snd (ModelLinearRegression.equation e) == 0
     /\ fst (ModelLinearRegression.equation e)
        * (average values
           + ModelIdentify.ERROR_COEFICIENT * ModelIdentify.numpy_std values
             * uncertainty)
        + snd (ModelLinearRegression.equation e) == mean_tolerance)
  \/ (dict_get (ModelIdentify.tests model') test
      = dict_get (ModelIdentify.tests model) test
      /\ ModelIdentify.numpy_std values == 0).
Proof.
  intros E I V. unfold ModelIdentify.identify_stdev in E. cbv zeta in E.
  bind_inv E. injection E as <-. cbn [ModelIdentify.tests] in *.
  apply In_sorted in I.
  pose (Good := fun e =>
    exists uncertainty,
      ModelLinearRegression.raw e = Some (average values)
      /\ get_uncertainty (Z.of_nat (List.length values)) = Ok uncertainty
      /\ fst (ModelLinearRegression.equation e) * average values
         + snd (ModelLinearRegression.equation e) == 0
      /\ fst (ModelLinearRegression.equation e)
         * (average values
            + ModelIdentify.ERROR_COEFICIENT * ModelIdentify.numpy_std values
              * uncertainty)
         + snd (ModelLinearRegression.equation e) == mean_tolerance).
  pose (Skip := ModelIdentify.numpy_std values == 0).
  assert (G : forall lo hi,
             ModelIdentify.stdev_range values = Ok (lo, hi) ->
             match ModelIdentify._identify mean_tolerance lo hi with
             | Some eq =>
                 Good (ModelLinearRegression.mk_entry eq
                         (Some (average values)))
             | None => Skip
             end).
  { intros lo hi R. unfold ModelIdentify.stdev_range in R.
    destruct (get_uncertainty (Z.of_nat (List.length values)))
      as [u|e] eqn:U; [|discriminate].
    assert (P : 1 <= u).
    { destruct values as [|v l]; [discriminate|].
      destruct (get_uncertainty_pos (Z.of_nat (List.length (v :: l))))
        as (u' & U' & P); [cbn [List.length]; lia|]. congruence. }
    cbn [bind] in R. cbv zeta in R. injection R as <- <-.
    unfold ModelIdentify._identify.
    match goal with |- match ModelIdentify.linalg_solve ?h 1 ?l 1 _ _ with
                       | _ => _ end =>
      pose proof (linalg_solve_spec h 1 l 1 mean_tolerance (- mean_tolerance))
        as S;
      destruct (ModelIdentify.linalg_solve h 1 l 1 mean_tolerance
                  (- mean_tolerance)) as [[p q]|]
    end.
    - destruct S as (N & E1 & E2). exists u.
      cbn [ModelLinearRegression.equation ModelLinearRegression.raw fst snd].
      split; [reflexivity|]. split; [reflexivity|]. split; lra.
    - unfold Skip.
      assert (Z0 : ModelIdentify.numpy_std values * u == 0).
      { unfold ModelIdentify.ERROR_COEFICIENT in S. lra. }
      apply Qmult_integral in Z0. destruct Z0 as [Z0|Z0]; [exact Z0 | lra]. }
  destruct (identify_tests_entry _ mean_tolerance data test values Good Skip
              (dict_get (ModelIdentify.tests model) test) V G _ _ _ Ea)
    as (_ & _ & K).
  destruct (K I) as [(e & Ee & u & Ge)|[Eg S]].
  - right. now split.
  - left. exists e, u. tauto.
  - right. now split.
Qed.

(** X16. When the data has a test with no sample at all, both
    [identify] methods raise [ValueError]: [max] of an empty list in
    [ModelLinearRegression], [get_uncertainty(0)] in [ModelStdev]. *)
Theorem identify_no_sample `{Builtins} `{MathLib} (mean_tolerance : Q)
    (model : ModelIdentify.model_t) (data : dict (dict value))
    (test : string) :
  dict_get data test = Some [] ->
  ModelIdentify.identify mean_tolerance model data = Raise ValueError
  /\ ModelIdentify.identify_stdev mean_tolerance model data
     = Raise ValueError.
Proof.
  intros D.
  assert (I : In test (ModelIdentify.sorted (dict_keys data))).
  { apply In_sorted. exact (dict_get_Some_keys _ _ _ D). }
  unfold ModelIdentify.identify, ModelIdentify.identify_stdev. cbv zeta.
  split.
  - rewrite (identify_tests_no_sample _ mean_tolerance data test D);
      [reflexivity | reflexivity | | exact I].
    intros values e. apply linear_range_raises.
  - rewrite (identify_tests_no_sample _ mean_tolerance data test D);
      [reflexivity | reflexivity | | exact I].
    intros values e. apply stdev_range_raises.
Qed.

(** X17. A test one of whose samples [float] refuses is skipped: when
    either [identify] returns, the entry of that test in the model is
    what it was before. *)
Theorem identify_skips_text `{Builtins} `{MathLib} (mean_tolerance : Q)
    (model : ModelIdentify.model_t) (data : dict (dict value))
    (test : string) (e : exn) :
  test_values data test = Raise e ->
  (forall model',
     ModelIdentify.identify mean_tolerance model data = Ok model' ->
     dict_get (ModelIdentify.tests model') test
     = dict_get (ModelIdentify.tests model) test)
  /\ (forall model',
        ModelIdentify.identify_stdev mean_tolerance model data = Ok model' ->
        dict_get (ModelIdentify.tests model') test
        = dict_get (ModelIdentify.tests model) test).
Proof.
  intros V. split; intros model' E;
    [unfold ModelIdentify.identify in E
    |unfold ModelIdentify.identify_stdev in E];
    cbv zeta in E; bind_inv E; injection E as <-;
    cbn [ModelIdentify.tests] in *;
    exact (identify_tests_text _ mean_tolerance data test e V _ _ _ Ea).
Qed.

(** ** Names the pattern does not match *)

Lemma get_merged_name_raises `{Regex} (self : Result.t) (merge : list string)
    (e : exn) :
  Result.get_merged_name self merge = Raise e -> e = TypeError.
Proof.
  unfold Result.get_merged_name. destruct merge as [|m merge]; [discriminate|].
  destruct (re_name_match (Result.name self)); [discriminate | congruence].
Qed.

Lemma group_scores_unmatched `{Regex} (records : list Result.t)
    (merge : list string) (r : Result.t) :
  merge <> [] -> In r records -> re_name_match (Result.name r) = None ->
  forall values, RelativeResults.group_scores records merge values
                 = Raise TypeError.
Proof.
  intros M I N. induction records as [|x records IH]; [destruct I|].
  intros values. cbn [RelativeResults.group_scores].
  destruct (Result.get_merged_name x merge) as [id|e] eqn:E.
  - cbn [bind]. destruct I as [->|I]; [|now apply IH].
    unfold Result.get_merged_name in E. rewrite N in E.
    destruct merge; [congruence | discriminate].
  - cbn [bind]. f_equal. exact (get_merged_name_raises _ _ _ E).
Qed.

(** X18. When a primary record that is no error and no stddev has a
    name the pattern of [Result] does not match,
    [expand_grouped_results] raises [TypeError]. *)
Theorem expand_unmatched_name_raises `{Builtins} `{Regex}
    (self : RelativeResults.t) (averages : AveragesModel.t)
    (record : Result.t) :
  In record (RelativeResults.records self) ->
  groupable record = true ->
  re_name_match (Result.name record) = None ->
  RelativeResults.expand_grouped_results self averages = Raise TypeError.
Proof.
  intros I G N. unfold RelativeResults.expand_grouped_results. cbv zeta.
  unfold RelativeResults._expand_grouped_result at 1.
  rewrite (group_scores_unmatched _ _ record); [reflexivity | discriminate | |
                                                exact N].
  apply filter_In. split; [exact I | exact G].
Qed.

(** ** The metadata file *)

Lemma split1_app (key value : string) :
  split1 ":" key = None -> split1 ":" (key ++ ":" ++ value) = Some (key, value).
Proof.
  change (":" ++ value) with (String ":" value).
  induction key as [|a key IH]; cbn; [reflexivity|].
  destruct (Ascii.eqb a ":"); [discriminate|].
  intros K. rewrite IH; [reflexivity|].
  destruct (split1 ":" key) as [[l r]|]; [discriminate | reflexivity].
Qed.

Lemma split1_prefix (line key value : string) :
  split1 ":" line = Some (key, value) -> prefix (key ++ ":") line = true.
Proof.
  revert key value.
  induction line as [|a line IH]; intros key value; cbn; [discriminate|].
  destruct (Ascii.eqb_spec a ":") as [->|N].
  - intros [= <- <-]. cbn. now destruct line.
  - destruct (split1 ":" line) as [[l r]|]; [|discriminate].
    intros [= <- <-]. cbn. destruct (ascii_dec a a) as [_|C]; [|congruence].
    now apply (IH l r).
Qed.

Lemma parse_line_other (metadata : dict string) (line key : string) :
  prefix (key ++ ":") line = false ->
  dict_get (Metadata.parse_line metadata line) key = dict_get metadata key.
Proof.
  intros P. unfold Metadata.parse_line.
  destruct (String.eqb line "" || prefix "#" line); [reflexivity|].
  destruct (split1 ":" line) as [[k v]|] eqn:S; [|reflexivity].
  apply dict_get_set_other. intros ->.
  apply split1_prefix in S. congruence.
Qed.

Lemma parse_lines_other (lines : list string) (key : string) :
  (forall line, In line lines -> prefix (key ++ ":") line = false) ->
  forall metadata,
    dict_get (fold_left Metadata.parse_line lines metadata) key = dict_get metadata key.
Proof.
  induction lines as [|l lines IH]; intros A metadata; [reflexivity|].
  cbn [fold_left]. rewrite IH by (intros; apply A; now right).
  apply parse_line_other. apply A. now left.
Qed.

(** X19. A line [key:value] of the metadata file, whose key has no
    colon and does not start with [#], gives [value], all that follows
    the first colon, for [key], whatever the lines before it are, as long
    as no later line starts with [key:]. *)
Theorem parse_metadata_last_line (before after : list string)
    (key value : string) :
  split1 ":" key = None ->
  prefix "#" key = false ->
  (forall line, In line after -> prefix (key ++ ":") line = false) ->
  Metadata.item
    (Metadata._parse_metadata
       (Some (before ++ (key ++ ":" ++ value)%string :: after)%list)) key
  = value.
Proof.
  intros K C A. unfold Metadata.item, Metadata._parse_metadata.
  rewrite fold_left_app. cbn [fold_left].
  rewrite (parse_lines_other _ _ A).
  unfold Metadata.parse_line at 1.
  assert (E : String.eqb (key ++ ":" ++ value) "" = false).
  { destruct key; reflexivity. }
  assert (P : prefix "#" (key ++ ":" ++ value) = false).
  { destruct key as [|a key]; [reflexivity|]. cbn [append prefix] in *.
    destruct (ascii_dec "#" a); [|reflexivity].
    now destruct key. }
  rewrite E, P. cbn [orb]. rewrite (split1_app _ _ K).
  now rewrite dict_get_set_same.
Qed.

(** X20. Without a metadata file, or when no line of it starts with
    [key:], the metadata of [key] is the text [Unknown]. *)
Theorem parse_metadata_unknown (file : option (list string)) (key : string) :
  (forall lines line, file = Some lines -> In line lines ->
     prefix (key ++ ":") line = false) ->
  Metadata.item (Metadata._parse_metadata file) key = "Unknown".
Proof.
  intros A. unfold Metadata.item, Metadata._parse_metadata.
  destruct file as [lines|]; [|reflexivity].
  rewrite parse_lines_other; [reflexivity|].
  intros line I. now apply (A lines).
Qed.

(** ** Training that returns *)

Lemma mapM_nonempty {A B : Type} (f : A -> outcome B) (l : list A)
    (l' : list B) :
  mapM f l = Ok l' -> l <> [] -> l' <> [].
Proof.
  destruct l as [|x l]; [congruence|]. cbn. intros E _.
  destruct (f x) as [y|e]; [|discriminate]. cbn in E.
  destruct (mapM f l) as [ys|e]; [|discriminate]. cbn in E.
  injection E as <-. discriminate.
Qed.

Lemma identify_tests_returns `{Builtins} (range : list Q -> outcome (Q * Q))
    (mean_tolerance : Q) (data : dict (dict value)) :
  (forall values, values <> [] -> exists r, range values = Ok r) ->
  forall keys : list string,
    (forall test, In test keys -> exists samples,
        dict_get data test = Some samples /\ samples <> []) ->
    forall tests, exists tests',
      ModelIdentify.identify_tests range mean_tolerance data tests keys
      = Ok tests'.
Proof.
  intros R. induction keys as [|k keys IH]; intros S tests.
  - now exists tests.
  - cbn [ModelIdentify.identify_tests].
    assert (B : exists tests1,
               ModelIdentify.identify_test range mean_tolerance data tests k
               = Ok tests1).
    { unfold ModelIdentify.identify_test.
      destruct (S k (or_introl eq_refl)) as (samples & -> & N).
      destruct (mapM as_float (map snd samples)) as [values|e] eqn:V;
        [|now eexists].
      assert (N' : values <> []).
      { apply (mapM_nonempty _ _ _ V). now destruct samples. }
      destruct (R values N') as ([lo hi] & ->). cbn.
      destruct (ModelIdentify._identify mean_tolerance lo hi); now eexists. }
    destruct B as (tests1 & ->). cbn [bind].
    apply IH. intros test I. apply S. now right.
Qed.

Lemma linear_range_returns (mean_tolerance : Q) (values : list Q) :
  values <> [] ->
  exists r, ModelIdentify.linear_range mean_tolerance values = Ok r.
Proof.
  intros N. unfold ModelIdentify.linear_range. cbv zeta.
  destruct (pymax_spec values N) as (M & -> & _).
  destruct (pymin_spec values N) as (m & -> & _).
  cbn. now eexists.
Qed.

Lemma stdev_range_returns `{MathLib} (values : list Q) :
  values <> [] -> exists r, ModelIdentify.stdev_range values = Ok r.
Proof.
  intros N. unfold ModelIdentify.stdev_range.
  destruct (get_uncertainty_pos (Z.of_nat (List.length values)))
    as (u & -> & _).
  - destruct values; [congruence | cbn [List.length]; lia].
  - cbn. now eexists.
Qed.

(** X21. When every test of the data has at least one sample, both
    [identify] methods return, and the metadata of the model they return
    holds the tolerance. *)
Theorem identify_returns `{Builtins} `{MathLib} (mean_tolerance : Q)
    (model : ModelIdentify.model_t) (data : dict (dict value)) :
  (forall test, dict_get data test <> Some []) ->
  (exists model',
     ModelIdentify.identify mean_tolerance model data = Ok model'
     /\ option_map (fun d => dict_get d "tolerance")
          (ModelIdentify.metadata model') = Some (Some mean_tolerance))
  /\ (exists model',
        ModelIdentify.identify_stdev mean_tolerance model data = Ok model'
        /\ option_map (fun d => dict_get d "tolerance")
             (ModelIdentify.metadata model') = Some (Some mean_tolerance)).
Proof.
  intros S.
  assert (K : forall test, In test (ModelIdentify.sorted (dict_keys data)) ->
                exists samples,
                  dict_get data test = Some samples /\ samples <> []).
  { intros test I. apply (proj1 (In_sorted _ _)) in I.
    destruct (dict_get_keys _ _ I) as (samples & E).
    exists samples. split; [exact E|]. intros ->. exact (S test E). }
  unfold ModelIdentify.identify, ModelIdentify.identify_stdev. cbv zeta.
  split.
  - destruct (identify_tests_returns (ModelIdentify.linear_range mean_tolerance)
                mean_tolerance data (linear_range_returns mean_tolerance) _ K
                (ModelIdentify.tests
                   (ModelIdentify.set_metadata mean_tolerance model)))
      as (tests' & ->).
    cbn [bind]. eexists. split; [reflexivity|].
    cbn. now rewrite dict_get_set_same.
  - destruct (identify_tests_returns ModelIdentify.stdev_range
                mean_tolerance data stdev_range_returns _ K
                (ModelIdentify.tests
                   (ModelIdentify.set_metadata mean_tolerance model)))
      as (tests' & ->).
    cbn [bind]. eexists. split; [reflexivity|].
    cbn. now rewrite dict_get_set_same.
Qed.

(** ** [closest_result] on numbers *)

Lemma dict_set_Forall {V : Type} (P : V -> Prop) (d : dict V) (k : string)
    (v : V) :
  Forall (fun kv => P (snd kv)) d -> P v ->
  Forall (fun kv => P (snd kv)) (dict_set d k v).
Proof.
  intros F Pv. induction d as [|[k' v'] d IH]; cbn.
  - constructor; [exact Pv | constructor].
  - inversion F as [|x l Px Fl]; subst.
    destruct (String.eqb k' k); constructor; auto.
Qed.

Lemma dict_get_Forall {V : Type} (P : V -> Prop) (d : dict V) (k : string)
    (v : V) :
  Forall (fun kv => P (snd kv)) d -> dict_get d k = Some v -> P v.
Proof.
  intros F. induction d as [|[k' v'] d IH]; cbn; [discriminate|].
  inversion F as [|x l Px Fl]; subst.
  destruct (String.eqb k' k); [intros [= <-]; exact Px | now apply IH].
Qed.

Lemma dict_get_set_mem {V : Type} (d : dict V) (k k' : string) (v : V) :
  dict_get d k <> None -> dict_get (dict_set d k' v) k <> None.
Proof.
  intros N. destruct (String.eqb_spec k' k) as [->|NE].
  - now rewrite dict_get_set_same.
  - now rewrite dict_get_set_other.
Qed.

Lemma process_src_numeric (results : list measurement) :
  forall src : dict Closest.src_entry,
    Forall numeric results ->
    (forall l1 m l2,
       results = (l1 ++ m :: l2)%list ->
       endswith (m_test m) "stddev" = true ->
       dict_get src (drop_last 7 (m_test m)) <> None
       \/ exists m', In m' l1 /\ endswith (m_test m') "stddev" = false
                     /\ score_name m' = drop_last 7 (m_test m)) ->
    Forall (fun kv => src_numeric (snd kv)) src ->
    Forall (fun kv => src_numeric (snd kv)) (Closest.process_src src results).
Proof.
  induction results as [|m rest IH]; intros src N M F; [exact F|].
  inversion N as [|x l (q & Eq & Pos) Nrest]; subst.
  cbn [Closest.process_src].
  destruct (endswith (m_test m) "stddev") eqn:S.
  - destruct (M [] m rest eq_refl S) as [D|(m' & [] & _)].
    destruct (dict_get src (drop_last 7 (m_test m)))
      as [[[score primary] old]|] eqn:G; [|congruence].
    pose proof (dict_get_Forall _ _ _ _ F G) as [Sc _].
    apply IH; [exact Nrest| |].
    + intros l1 m2 l2 E S2.
      destruct (M (m :: l1) m2 l2) as [D2|(m' & [<-|I] & S' & Nm)];
        [now rewrite E | exact S2 | | |].
      * left. now apply dict_get_set_mem.
      * congruence.
      * right. exists m'. auto.
    + apply dict_set_Forall; [exact F|]. split; [exact Sc|].
      cbn [snd]. intros v [= <-]. exists q. split; [exact Eq | now apply Pos].
  - fold (score_name m).
    assert (K : forall e,
               src_numeric e ->
               fst (fst e) = Some (m_score m) ->
               Forall (fun kv => src_numeric (snd kv))
                      (Closest.process_src (dict_set src (score_name m) e)
                                           rest)).
    { intros e Ne _. apply IH; [exact Nrest| |].
      - intros l1 m2 l2 E S2.
        destruct (M (m :: l1) m2 l2) as [D2|(m' & [<-|I] & S' & Nm)];
          [now rewrite E | exact S2 | | |].
        + left. now apply dict_get_set_mem.
        + left. rewrite <- Nm. now rewrite dict_get_set_same.
        + right. exists m'. auto.
      - now apply dict_set_Forall. }
    destruct (dict_get src (score_name m)) as [[[score primary] old]|] eqn:G.
    + apply K; [|reflexivity]. split; [exists q; cbn; now rewrite Eq|].
      exact (proj2 (dict_get_Forall _ _ _ _ F G)).
    + apply K; [|reflexivity]. split; [exists q; cbn; now rewrite Eq|].
      cbn [snd]. discriminate.
Qed.

Lemma storage_set_numeric (no_results : nat)
    (storage storage' : dict Closest.row) (name : string) (idx : nat)
    (f : option value * option value -> option value * option value) :
  Closest.storage_set no_results storage name idx f = Ok storage' ->
  (forall e, entry_numeric e -> entry_numeric (f e)) ->
  (forall name this, dict_get storage name = Some this ->
                     Forall entry_numeric this) ->
  forall name this, dict_get storage' name = Some this ->
                    Forall entry_numeric this.
Proof.
  unfold Closest.storage_set. intros E K R name' this D. bind_inv E.
  injection E as <-. destruct (String.eqb_spec name name') as [->|NE].
  - rewrite dict_get_set_same in D. injection D as <-.
    apply (set_item_Forall _ _ _ _ _ Ea K).
    destruct (dict_get storage name') as [old|] eqn:G; [exact (R _ _ G)|].
    apply Forall_forall. intros e I. apply repeat_spec in I. subst e.
    split; cbn; discriminate.
  - rewrite dict_get_set_other in D by exact NE. exact (R _ _ D).
Qed.

Lemma process_path_numeric (no_results idx : nat)
    (results : list measurement) :
  forall storage storage' : dict Closest.row,
    Closest.process_path no_results storage idx results = Ok storage' ->
    Forall numeric results ->
    (forall name this, dict_get storage name = Some this ->
                       Forall entry_numeric this) ->
    forall name this, dict_get storage' name = Some this ->
                      Forall entry_numeric this.
Proof.
  induction results as [|m rest IH]; intros storage storage' E N R.
  - now injection E as <-.
  - inversion N as [|x l (q & Eq & Pos) Nrest]; subst.
    cbn [Closest.process_path] in E.
    destruct (endswith (m_test m) "stddev").
    + destruct (value_eqb (m_score m) (VNum 0)) eqn:Z;
        [now apply (IH _ _ E)|].
      bind_inv E. apply (IH _ _ E Nrest).
      apply (storage_set_numeric _ _ _ _ _ _ Ea); [|exact R].
      intros e [A B]. split; [exact A|]. cbn [snd]. intros v [= <-].
      exists q. split; [exact Eq|]. rewrite Eq in Z. cbn in Z.
      apply Qeq_bool_false_iff in Z. specialize (Pos eq_refl). lra.
    + bind_inv E. apply (IH _ _ E Nrest).
      apply (storage_set_numeric _ _ _ _ _ _ Ea); [|exact R].
      intros e [A B]. split; [|exact B]. cbn [fst]. intros v [= <-].
      now exists q.
Qed.

Lemma process_paths_numeric (no_results : nat)
    (paths : list (list measurement)) :
  forall (k : nat) (storage storage' : dict Closest.row),
    Closest.process_paths no_results storage
      (Closest.enumerate_from k paths) = Ok storage' ->
    Forall (Forall numeric) paths ->
    (forall name this, dict_get storage name = Some this ->
                       Forall entry_numeric this) ->
    forall name this, dict_get storage' name = Some this ->
                      Forall entry_numeric this.
Proof.
  induction paths as [|results rest IH]; intros k storage storage' E N R.
  - now injection E as <-.
  - inversion N as [|x l Nx Nrest]; subst.
    cbn [Closest.enumerate_from Closest.process_paths] in E. bind_inv E.
    apply (IH _ _ _ E Nrest). now apply (process_path_numeric _ _ _ _ _ Ea).
Qed.

Lemma mapM_total {A B : Type} (f : A -> outcome B) (l : list A) :
  (forall x, In x l -> exists y, f x = Ok y) ->
  exists l', mapM f l = Ok l' /\ List.length l' = List.length l.
Proof.
  induction l as [|a l IH]; intros K; cbn; [now exists []|].
  destruct (K a (or_introl eq_refl)) as (y & ->). cbn.
  destruct IH as (l' & -> & L); [intros x I; apply K; now right|].
  cbn. eexists. split; [reflexivity|]. cbn. now rewrite L.
Qed.

Lemma fold_Qplus_ge (l : list Q) :
  Forall (fun x => 0 < x) l -> forall a, a <= fold_left Qplus l a.
Proof.
  induction l as [|x l IH]; intros F a; cbn; [lra|].
  inversion F as [|y l' Px Fl]; subst. specialize (IH Fl (a + x)). lra.
Qed.

Lemma average_pos (l : list Q) :
  l <> [] -> Forall (fun x => 0 < x) l -> 0 < average l.
Proof.
  intros N F. destruct l as [|x l]; [congruence|].
  inversion F as [|y l' Px Fl]; subst.
  unfold average, Qsum. cbn [fold_left].
  pose proof (fold_Qplus_ge l Fl (0 + x)) as G.
  apply Qlt_shift_div_l.
  - change 0 with (inject_Z 0). rewrite <- Zlt_Qlt. cbn [List.length]. lia.
  - lra.
Qed.

Lemma stddev_score_returns `{Builtins} `{MathLib} (s : Q)
    (stddev : option value) (this : Closest.row) :
  (forall x, 0 < x -> ~ math_sqrt x == 0) ->
  0 < math_pi ->
  Forall entry_numeric this ->
  (forall v, stddev = Some v -> exists q, v = VNum q /\ 0 <= q) ->
  Closest.stddev_aware stddev this = true ->
  exists l, Closest.stddev_score (Some (VNum s)) stddev this = Ok l
            /\ List.length l = List.length this.
Proof.
  intros Sq Pi F Sd Aw. unfold Closest.stddev_score.
  set (stddevs := (flat_map _ this ++ _)%list).
  assert (P : forall v, In v stddevs -> exists q, v = VNum q /\ 0 < q).
  { intros v I. apply in_app_or in I. destruct I as [I|I].
    - apply in_flat_map in I. destruct I as (e & Ie & Iv).
      destruct (snd e) as [w|] eqn:Se; [|destruct Iv].
      destruct Iv as [<-|[]].
      exact (proj2 (proj1 (Forall_forall _ _) F e Ie) _ Se).
    - destruct stddev as [w|]; [|destruct I].
      destruct (truthy w) eqn:T; [|destruct I]. destruct I as [<-|[]].
      destruct (Sd w eq_refl) as (q & -> & Pos). exists q.
      split; [reflexivity|]. cbn in T. apply negb_true_iff in T.
      apply Qeq_bool_false_iff in T. lra. }
  assert (NE : stddevs <> []).
  { unfold stddevs, Closest.stddev_aware in *.
    apply orb_true_iff in Aw. destruct Aw as [Aw|Aw].
    - destruct stddev as [w|]; [|discriminate]. rewrite Aw.
      intros C. apply app_eq_nil in C. destruct C as [_ C]. discriminate C.
    - apply existsb_exists in Aw. destruct Aw as (e & Ie & Se).
      destruct (snd e) as [w|] eqn:Sw; [|discriminate].
      intros C. apply app_eq_nil in C. destruct C as [C _].
      assert (X : In w (flat_map (fun e0 => match snd e0 with
                                            | Some v => [v]
                                            | None => []
                                            end) this)).
      { apply in_flat_map. exists e. split; [exact Ie|]. rewrite Sw.
        now left. }
      rewrite C in X. destruct X. }
  rewrite (mapM_Ok_map as_num
             (fun v => match v with VNum q => q | VStr _ => 0 end) stddevs).
  2:{ intros v I. destruct (P v I) as (q & -> & _). reflexivity. }
  cbn [bind].
  destruct (get_uncertainty_pos (Z.of_nat (List.length stddevs)))
    as (u & -> & U).
  { destruct stddevs; [congruence | cbn [List.length]; lia]. }
  cbn [bind]. cbv zeta.
  set (nums := map _ stddevs).
  assert (A : 0 < average nums).
  { apply average_pos.
    - unfold nums. destruct stddevs; [congruence | discriminate].
    - apply Forall_forall. intros x I. apply in_map_iff in I.
      destruct I as (v & <- & Iv). now destruct (P v Iv) as (q & -> & Pos). }
  set (sd := average nums * u * 2).
  assert (Psd : 0 < sd).
  { unfold sd. assert (0 < average nums * u)
      by (apply Qmult_lt_0_compat; lra). lra. }
  assert (Var : 0 < sd * sd) by (apply Qmult_lt_0_compat; exact Psd).
  apply mapM_total. intros e Ie.
  destruct (fst e) as [x|] eqn:Fe; [|now eexists].
  destruct (proj1 (proj1 (Forall_forall _ _) F e Ie) _ Fe) as (q & ->).
  unfold Closest.norm_normpdf. cbn [as_float bind]. cbv zeta.
  rewrite pydiv_Ok by lra. cbn [bind].
  rewrite pydiv_Ok.
  - cbn [bind]. now eexists.
  - apply Sq. assert (0 < 2 * math_pi) by lra.
    apply Qmult_lt_0_compat; assumption.
Qed.

Lemma add_scores_total (norm_score : list Q) :
  forall cathegory : list Q,
    (List.length norm_score <= List.length cathegory)%nat ->
    exists cathegory', Closest.add_scores cathegory norm_score = Ok cathegory'.
Proof.
  induction norm_score as [|s l IH]; intros cathegory L.
  - destruct cathegory; now eexists.
  - destruct cathegory as [|c cathegory]; cbn in L; [lia|].
    cbn [Closest.add_scores].
    destruct (IH cathegory) as (rest & ->); [lia|]. cbn. now eexists.
Qed.

Lemma calculate_stats_returns `{Builtins} `{MathLib} (no_results : nat)
    (storage : dict Closest.row) (src : list (string * Closest.src_entry)) :
  (forall x, 0 < x -> ~ math_sqrt x == 0) ->
  0 < math_pi ->
  storage_ok no_results storage ->
  (forall name this, dict_get storage name = Some this -> row_set this) ->
  (forall name this, dict_get storage name = Some this ->
                     Forall entry_numeric this) ->
  Forall (fun kv => src_numeric (snd kv)) src ->
  forall stats : list Q * list Q,
    List.length (fst stats) = no_results ->
    List.length (snd stats) = no_results ->
    exists stats', Closest.calculate_stats storage stats src = Ok stats'.
Proof.
  intros Sq Pi L R N. induction src as [|[test [[score primary] stddev]] src IH];
    intros F stats L1 L2; [now eexists|].
  inversion F as [|x l [(s & Sc) Sd] Frest]; subst x l. cbn in Sc, Sd.
  subst score.
  cbn [Closest.calculate_stats].
  destruct (dict_get storage test) as [this|] eqn:D; [|now apply IH].
  assert (NS : exists result,
             Closest.norm_score (Some (VNum s)) stddev this = Ok result
             /\ forall l, result = Some l ->
                          List.length l = List.length this).
  { unfold Closest.norm_score.
    destruct (Closest.stddev_aware stddev this) eqn:Aw.
    - destruct (stddev_score_returns s stddev this Sq Pi (N _ _ D) Sd Aw)
        as (l & -> & Ll).
      cbn [bind]. eexists. split; [reflexivity|]. now intros l' [= <-].
    - destruct (distance_score_spec (Some (VNum s)) this)
        as (result & E & Shape).
      + destruct (R _ _ D) as (e & Ie & [Fe|Se]); [now exists e|].
        exfalso. unfold Closest.stddev_aware in Aw.
        apply orb_false_iff in Aw. destruct Aw as [_ Aw].
        assert (X : existsb (fun e0 => match snd e0 with
                                       | Some _ => true
                                       | None => false
                                       end) this = true).
        { apply existsb_exists. exists e. split; [exact Ie|].
          now destruct (snd e). }
        congruence.
      + exists result. split; [exact E|]. intros l ->.
        destruct Shape as (nd & -> & Ln & _). now rewrite length_map. }
  destruct NS as (result & -> & Len). cbn [bind].
  destruct result as [norm|]; [|now apply IH].
  specialize (Len norm eq_refl). rewrite (L _ _ D) in Len.
  destruct primary; cbn [negb].
  - destruct (add_scores_total norm (fst stats)) as (c & Ec); [lia|].
    rewrite Ec. cbn [bind]. apply IH; [exact Frest| |exact L2].
    cbn [fst]. rewrite (add_scores_length _ _ _ Ec). exact L1.
  - destruct (add_scores_total norm (snd stats)) as (c & Ec); [lia|].
    rewrite Ec. cbn [bind]. apply IH; [exact Frest|exact L1|].
    cbn [snd]. rewrite (add_scores_length _ _ _ Ec). exact L2.
Qed.

(** X22. [closest_result] returns the index of a candidate, and does
    not raise, when there is a candidate, every score is a number, no
    standard deviation is negative, and every standard deviation of the
    reference comes after a measurement of its test; the square root of
    [math] is taken not to be 0 above 0 and its pi to be positive. *)
Theorem closest_result_returns `{Builtins} `{MathLib}
    (src_path : list measurement) (dst_paths : list (list measurement)) :
  (forall x, 0 < x -> ~ math_sqrt x == 0) ->
  0 < math_pi ->
  dst_paths <> [] ->
  Forall numeric src_path ->
  mean_first src_path ->
  Forall (Forall numeric) dst_paths ->
  exists r,
    Closest.closest_result src_path dst_paths = Ok r
    /\ (r < List.length dst_paths)%nat.
Proof.
  intros Sq Pi NE Ns Mf Nd. unfold Closest.closest_result. cbv zeta.
  destruct (process_results_Ok dst_paths) as (storage & P & L).
  rewrite P. cbn [bind].
  assert (R : forall name this,
             dict_get storage name = Some this -> row_set this).
  { apply (process_paths_rows _ _ _ _ _ P). intros n t E. discriminate E. }
  assert (N : forall name this,
             dict_get storage name = Some this -> Forall entry_numeric this).
  { apply (process_paths_numeric _ _ _ _ _ P Nd). intros n t E.
    discriminate E. }
  assert (S : Forall (fun kv => src_numeric (snd kv))
                     (Closest._process_src src_path)).
  { apply process_src_numeric; [exact Ns | | constructor].
    intros l1 m l2 E St. right. exact (Mf l1 m l2 E St). }
  destruct (calculate_stats_returns (List.length dst_paths) storage
              (Closest._process_src src_path) Sq Pi L R N S
              (repeat 0 (List.length dst_paths),
               repeat 0 (List.length dst_paths)))
    as (stats & C); [apply repeat_length | apply repeat_length |].
  unfold Closest._calculate_stats. rewrite C. cbn [bind].
  pose proof (calculate_stats_length _ _ _ _ C) as [C1 C2].
  cbn [fst snd] in C1, C2. rewrite repeat_length in C1, C2.
  destruct (select_spec (fst stats) (snd stats) (List.length dst_paths))
    as (r & Sel & Lt & _); [|exact C1|exact C2|].
  - destruct dst_paths; [congruence | cbn; lia].
  - exists r. split; [exact Sel | exact Lt].
Qed.

(** ** Tables *)

Lemma set_length_length (lengths : list nat) (i v : nat) :
  List.length (Tabular.set_length lengths i v) = List.length lengths.
Proof.
  revert i. induction lengths as [|l rest IH]; intros [|i]; cbn; auto.
Qed.

Lemma set_length_nth (lengths : list nat) (i v j : nat) :
  (i < List.length lengths)%nat ->
  nth j (Tabular.set_length lengths i v) 0%nat
  = if (j =? i)%nat then v else nth j lengths 0%nat.
Proof.
  revert i j. induction lengths as [|l rest IH]; intros i j L; cbn in L;
    [lia|].
  destruct i as [|i], j as [|j]; cbn; try reflexivity.
  apply IH. lia.
Qed.

Lemma note_length_length (lengths : list nat) (i v : nat) :
  (i <= List.length lengths)%nat ->
  List.length (Tabular.note_length lengths i v)
  = Nat.max (List.length lengths) (S i).
Proof.
  intros L. unfold Tabular.note_length.
  destruct (nth_error lengths i) as [m|] eqn:E.
  - assert (i < List.length lengths)%nat
      by (apply nth_error_Some; congruence).
    destruct (m <? v)%nat; [rewrite set_length_length|]; lia.
  - apply nth_error_None in E. rewrite length_app. cbn. lia.
Qed.

Lemma note_length_nth (lengths : list nat) (i v j : nat) :
  (i <= List.length lengths)%nat ->
  nth j (Tabular.note_length lengths i v) 0%nat
  = if (j =? i)%nat then Nat.max (nth i lengths 0%nat) v
    else nth j lengths 0%nat.
Proof.
  intros L. unfold Tabular.note_length.
  destruct (nth_error lengths i) as [m|] eqn:E.
  - assert (Li : (i < List.length lengths)%nat)
      by (apply nth_error_Some; congruence).
    rewrite (nth_error_nth _ _ 0%nat E).
    destruct (Nat.ltb_spec m v) as [C|C].
    + rewrite set_length_nth by exact Li.
      destruct (j =? i)%nat; [lia | reflexivity].
    + destruct (Nat.eqb_spec j i) as [->|N]; [|reflexivity].
      rewrite (nth_error_nth _ _ 0%nat E). lia.
  - apply nth_error_None in E. assert (i = List.length lengths) by lia.
    subst i. rewrite (nth_overflow lengths 0%nat) by lia.
    destruct (Nat.eqb_spec j (List.length lengths)) as [->|N].
    + rewrite app_nth2 by lia. rewrite Nat.sub_diag. cbn. lia.
    + destruct (Nat.lt_ge_cases j (List.length lengths)) as [C|C].
      * now rewrite app_nth1.
      * rewrite !nth_overflow; [reflexivity | lia |].
        rewrite length_app. cbn. lia.
Qed.

Lemma scan_row_spec (row : list string) :
  forall (lengths : list nat) (i : nat),
    (i <= List.length lengths)%nat ->
    List.length (Tabular.scan_row lengths i row)
    = Nat.max (List.length lengths) (i + List.length row)
    /\ forall j,
         nth j (Tabular.scan_row lengths i row) 0%nat
         = if (j <? i)%nat then nth j lengths 0%nat
           else Nat.max (nth j lengths 0%nat)
                        (String.length (cell row (j - i))).
Proof.
  unfold cell.
  induction row as [|column rest IH]; intros lengths i L;
    cbn [Tabular.scan_row].
  - split; [cbn; lia|]. intros j. destruct (j <? i)%nat; [reflexivity|].
    destruct (j - i)%nat; cbn; lia.
  - destruct (IH (Tabular.note_length lengths i (String.length column))
                (S i)) as [Len Nth].
    { rewrite note_length_length by exact L. lia. }
    split.
    + rewrite Len, note_length_length by exact L. cbn [List.length]. lia.
    + intros j. rewrite Nth, note_length_nth by exact L.
      destruct (Nat.ltb_spec j (S i)) as [C|C].
      * destruct (Nat.eqb_spec j i) as [->|N].
        -- rewrite (proj2 (Nat.ltb_ge i i)) by lia. rewrite Nat.sub_diag.
           reflexivity.
        -- rewrite (proj2 (Nat.ltb_lt j i)) by lia. reflexivity.
      * rewrite (proj2 (Nat.eqb_neq j i)) by lia.
        rewrite (proj2 (Nat.ltb_ge j i)) by lia.
        replace (j - i)%nat with (S (j - S i)) by lia. reflexivity.
Qed.

Lemma scan_spec (rows : list (list string)) :
  forall lengths : list nat,
    List.length
      (fold_left (fun lengths row => Tabular.scan_row lengths 0 row) rows
                 lengths)
    = Nat.max (List.length lengths)
              (list_max (map (@List.length string) rows))
    /\ forall j,
         nth j (fold_left (fun lengths row => Tabular.scan_row lengths 0 row)
                          rows lengths) 0%nat
         = Nat.max (nth j lengths 0%nat)
                   (list_max (map (fun row => String.length (cell row j))
                                  rows)).
Proof.
  induction rows as [|row rows IH]; intros lengths; cbn [fold_left map].
  - cbn. split; [lia | intros; lia].
  - destruct (IH (Tabular.scan_row lengths 0 row)) as [Len Nth].
    destruct (scan_row_spec row lengths 0) as [Len1 Nth1]; [lia|].
    split.
    + rewrite Len, Len1. unfold list_max. cbn [fold_right]. lia.
    + intros j. rewrite Nth, Nth1. cbn [Nat.ltb Nat.leb].
      rewrite Nat.sub_0_r. unfold list_max. cbn [fold_right]. lia.
Qed.

Lemma list_max_In (f : list string -> nat) (rows : list (list string))
    (row : list string) :
  In row rows -> (f row <= list_max (map f rows))%nat.
Proof.
  unfold list_max. induction rows as [|r rows IH]; intros I; [destruct I|].
  cbn [map fold_right]. destruct I as [->|I]; [lia|].
  specialize (IH I). lia.
Qed.

Lemma rstrip_last (s : string) (c : ascii) :
  last_char (Tabular.rstrip s) = Some c -> Tabular.is_space c = false.
Proof.
  induction s as [|a s IH]; cbn [Tabular.rstrip]; [discriminate|].
  destruct (Tabular.rstrip s) as [|b t] eqn:R.
  - destruct (Tabular.is_space a) eqn:Sp; [discriminate|].
    cbn. now intros [= <-].
  - exact IH.
Qed.

Lemma removelast_length {A : Type} (l : list A) :
  List.length (removelast l) = (List.length l - 1)%nat.
Proof.
  induction l as [|a [|b l] IH]; cbn in *; try reflexivity. lia.
Qed.

Lemma padding_spec (lengths row_lens : list nat) :
  (List.length row_lens <= List.length lengths)%nat ->
  mapM (fun i =>
          match nth_error lengths i, nth_error row_lens i with
          | Some l, Some r => Ok (Tabular.spaces (l - r))
          | _, _ => Raise IndexError
          end)
       (seq 0 (List.length row_lens))
  = Ok (map (fun i => Tabular.spaces (nth i lengths 0 - nth i row_lens 0)%nat)
            (seq 0 (List.length row_lens))).
Proof.
  intros L. apply mapM_Ok_map. intros i I. apply in_seq in I.
  rewrite (nth_error_nth' lengths 0%nat) by lia.
  rewrite (nth_error_nth' row_lens 0%nat) by lia. reflexivity.
Qed.

Lemma pad_row_spec (row : list string) :
  forall lengths : list nat,
    row <> [] ->
    (map (fun line => (fst line ++ snd line)%string)
         (combine row
            (map (fun i =>
                    Tabular.spaces
                      (nth i lengths 0
                       - nth i (removelast (map String.length row)) 0)%nat)
                 (seq 0 (List.length
                           (removelast (map String.length row))))))
     ++ [last row EmptyString])%list
    = pad_row lengths row.
Proof.
  induction row as [|column rest IH]; intros lengths N; [congruence|].
  destruct rest as [|column2 rest]; [reflexivity|].
  specialize (IH (tl lengths) ltac:(discriminate)).
  change (pad_row lengths (column :: column2 :: rest))
    with ((column ++ Tabular.spaces (hd 0%nat lengths - String.length column))
            %string
          :: pad_row (tl lengths) (column2 :: rest)).
  rewrite <- IH.
  change (last (column :: column2 :: rest) EmptyString)
    with (last (column2 :: rest) EmptyString).
  change (removelast (map String.length (column :: column2 :: rest)))
    with (String.length column
          :: removelast (map String.length (column2 :: rest))).
  cbn [List.length]. rewrite <- cons_seq, <- seq_shift, map_cons, map_map.
  assert (C : forall (a : string) l (b : string) l',
             combine (a :: l) (b :: l') = (a, b) :: combine l l')
    by reflexivity.
  rewrite C, map_cons, <- app_comm_cons. cbn [fst snd nth]. f_equal.
  - now destruct lengths.
  - f_equal. f_equal. f_equal. apply map_ext. intros i.
    now destruct lengths as [|l lengths]; [destruct i|].
Qed.

Lemma join_row_spec (lengths : list nat) (row : list string) :
  (List.length row <= List.length lengths)%nat ->
  Tabular.join_row lengths row
  = Ok (match row with
        | [] => None
        | _ => Some (String.concat " " (pad_row lengths row))
        end).
Proof.
  intros L. unfold Tabular.join_row. cbv zeta.
  rewrite padding_spec
    by (rewrite removelast_length, length_map; lia).
  cbn [bind]. destruct row as [|column rest]; [reflexivity|].
  now rewrite pad_row_spec.
Qed.

Lemma spaces_length (n : nat) : String.length (Tabular.spaces n) = n.
Proof. induction n; cbn; auto. Qed.

Lemma string_length_app (a b : string) :
  String.length (a ++ b) = (String.length a + String.length b)%nat.
Proof. induction a; cbn; auto. Qed.

Lemma string_app_assoc (a b c : string) :
  ((a ++ b) ++ c = a ++ b ++ c)%string.
Proof. induction a as [|x a IH]; cbn; congruence. Qed.

Lemma substring_prefix (a b : string) :
  substring 0 (String.length a) (a ++ b) = a.
Proof.
  induction a as [|c a IH]; cbn; [now destruct b|]. now rewrite IH.
Qed.

Lemma substring_skip (a b : string) (k n : nat) :
  substring (String.length a + k) n (a ++ b) = substring k n b.
Proof. induction a as [|c a IH]; cbn; auto. Qed.

Lemma concat_cons (sep a : string) (l : list string) :
  l <> [] -> String.concat sep (a :: l) = (a ++ sep ++ String.concat sep l)%string.
Proof. destruct l; [congruence | reflexivity]. Qed.

Lemma pad_row_aligned (row : list string) :
  forall (lengths : list nat) (j : nat),
    (j < List.length row)%nat ->
    (forall i, (i < List.length row)%nat ->
               (String.length (cell row i) <= nth i lengths 0)%nat) ->
    substring (column_offset lengths j) (String.length (cell row j))
              (String.concat " " (pad_row lengths row))
    = cell row j.
Proof.
  unfold cell.
  induction row as [|column rest IH]; intros lengths j L W; [cbn in L; lia|].
  destruct rest as [|column2 rest].
  - assert (j = 0%nat) by (cbn in L; lia). subst j. cbn.
    clear. induction column as [|c column IH]; cbn; congruence.
  - change (pad_row lengths (column :: column2 :: rest))
      with ((column
             ++ Tabular.spaces (hd 0%nat lengths - String.length column))
              %string
            :: pad_row (tl lengths) (column2 :: rest)).
    rewrite concat_cons by (destruct rest; discriminate).
    destruct j as [|j].
    + cbn [column_offset nth]. rewrite string_app_assoc.
      apply substring_prefix.
    + cbn [column_offset nth].
      pose proof (W 0%nat ltac:(cbn; lia)) as W0. cbn [nth] in W0.
      assert (H0 : hd 0%nat lengths = nth 0 lengths 0%nat)
        by now destruct lengths.
      set (padded := (column
                      ++ Tabular.spaces (hd 0%nat lengths
                                         - String.length column))%string).
      assert (Lp : String.length (padded ++ " ") = S (hd 0%nat lengths)).
      { unfold padded. rewrite !string_length_app, spaces_length. cbn. lia. }
      rewrite <- Lp.
      replace (padded ++ " " ++ String.concat " "
                 (pad_row (tl lengths) (column2 :: rest)))%string
        with ((padded ++ " ") ++ String.concat " "
                (pad_row (tl lengths) (column2 :: rest)))%string.
      * rewrite substring_skip. apply IH; [cbn in *; lia|].
        intros i Li. specialize (W (S i) ltac:(cbn in *; lia)).
        cbn [nth] in W. now destruct lengths as [|l lengths]; [destruct i|].
      * apply string_app_assoc.
Qed.

Lemma scan_covers (rows : list (list string)) (row : list string) :
  In row rows -> (List.length row <= List.length (Tabular.scan rows))%nat.
Proof.
  intros I. unfold Tabular.scan. rewrite (proj1 (scan_spec rows [])).
  pose proof (list_max_In (@List.length string) rows row I). cbn. lia.
Qed.

Lemma iter_tabular_output_spec (matrix : list (list string))
    (header : list string) :
  Tabular.iter_tabular_output matrix header
  = Ok (flat_map
          (fun row =>
             match row with
             | [] => []
             | _ =>
                 [Tabular.rstrip
                    (String.concat " "
                       (pad_row (Tabular.scan
                                   (Tabular.get_matrix matrix header))
                                row))]
             end)
          (Tabular.get_matrix matrix header)).
Proof.
  unfold Tabular.iter_tabular_output. cbv zeta.
  set (rows := Tabular.get_matrix matrix header).
  rewrite (mapM_Ok_map (Tabular.join_row (Tabular.scan rows))
             (fun row => match row with
                         | [] => None
                         | _ => Some (String.concat " "
                                        (pad_row (Tabular.scan rows) row))
                         end)).
  - cbn [bind]. f_equal. generalize (Tabular.scan rows). intros lengths.
    induction rows as [|row rows IH]; [reflexivity|].
    cbn [map flat_map]. rewrite IH. now destruct row.
  - intros row I. apply join_row_spec. now apply scan_covers.
Qed.

(** X23. [iter_tabular_output] never raises. It yields one line per
    row that has a cell, the header among them when it has one, and no
    line ends in white space; [tabular_output] joins the lines with
    line feeds. *)
Theorem tabular_output_lines (matrix : list (list string))
    (header : list string) :
  exists lines,
    Tabular.iter_tabular_output matrix header = Ok lines
    /\ Tabular.tabular_output matrix header
       = Ok (String.concat Tabular.LF lines)
    /\ List.length lines
       = List.length
           (filter (fun row => match row with [] => false | _ => true end)
                   (Tabular.get_matrix matrix header))
    /\ Forall (fun line => forall c, last_char line = Some c ->
                                     Tabular.is_space c = false) lines.
Proof.
  unfold Tabular.tabular_output. rewrite iter_tabular_output_spec.
  eexists. split; [reflexivity|]. split; [reflexivity|].
  generalize (Tabular.scan (Tabular.get_matrix matrix header)).
  intros lengths.
  induction (Tabular.get_matrix matrix header) as [|row rows [L F]];
    [split; [reflexivity | constructor]|].
  destruct row as [|column rest]; [split; assumption|].
  cbn [flat_map filter app List.length]. split; [now rewrite L|].
  constructor; [|exact F]. intros c. apply rstrip_last.
Qed.

(** X24. After the first loop [lengths] has an entry for every column
    some row has, and the entry of a column is the length of the longest
    cell the rows have in it. *)
Theorem column_length_is_longest_cell (rows : list (list string)) :
  List.length (Tabular.scan rows)
  = list_max (map (@List.length string) rows)
  /\ forall j,
       nth j (Tabular.scan rows) 0%nat
       = list_max (map (fun row => String.length (cell row j)) rows).
Proof.
  unfold Tabular.scan. destruct (scan_spec rows []) as [Len Nth].
  split; [rewrite Len; cbn; lia|].
  intros j. rewrite Nth. now destruct j.
Qed.

(** X25. The columns are aligned: in the line joined for a row, the
    cell [j] of the row stands at an offset that depends on the lengths
    of the columns before it only, the same for every row; the line
    yielded for the row is that line without its trailing white
    space. *)
Theorem columns_aligned (matrix : list (list string)) (header : list string)
    (row : list string) (j : nat) :
  In row (Tabular.get_matrix matrix header) ->
  (j < List.length row)%nat ->
  exists line lines,
    Tabular.join_row (Tabular.scan (Tabular.get_matrix matrix header)) row
    = Ok (Some line)
    /\ Tabular.iter_tabular_output matrix header = Ok lines
    /\ In (Tabular.rstrip line) lines
    /\ substring
         (column_offset (Tabular.scan (Tabular.get_matrix matrix header)) j)
         (String.length (cell row j)) line
       = cell row j.
Proof.
  intros I L. rewrite iter_tabular_output_spec.
  set (rows := Tabular.get_matrix matrix header) in *.
  rewrite (join_row_spec (Tabular.scan rows) row) by now apply scan_covers.
  assert (N : row <> []) by (intros ->; cbn in L; lia).
  exists (String.concat " " (pad_row (Tabular.scan rows) row)).
  eexists. split; [now destruct row|]. split; [reflexivity|]. split.
  - apply in_flat_map. exists row. split; [exact I|].
    destruct row; [congruence | now left].
  - apply pad_row_aligned; [exact L|]. intros i Li.
    unfold Tabular.scan. rewrite (proj2 (scan_spec rows [])).
    pose proof (list_max_In (fun r => String.length (cell r i)) rows row I).
    lia.
Qed.

(** ** A trained model on its own samples *)




(** ** Concrete runs of the further properties *)

Lemma averages_opinion_at_last_witness :
  exists self1 self2 score weight,
    feed (AveragesModel.init 1) "suite/test.mean" [2; 4] = Ok ([], self1)
    /\ AveragesModel.check_result (AveragesModel.set_last self1)
         "suite/test.mean" 6
       = Ok ([mk_opinion "avg" score weight None], self2)
    /\ score == 8
    /\ weight == 10 # 17.
Proof.
  destruct (averages_opinion_at_last (AveragesModel.init 1) "suite/test.mean"
              [2; 4] 6 eq_refl) as (self1 & self2 & weight & F & C & W).
  exists self1, self2. eexists. exists weight.
  split; [exact F|]. split; [exact C|]. split; [reflexivity|].
  cbn in W. destruct W as (u & U & ->). injection U as <-. reflexivity.
Defined.

Lemma record_result_returns_witness :
  exists r self' averages',
    RelativeResults.record_result (H := plain_builtins) plain_results
      (AveragesModel.init 0) "suite/test.mean" (VNum 100) (VNum 104)
      true false None None None = Ok (r, self', averages').
Proof.
  apply (record_result_returns (H := plain_builtins) plain_results
           (AveragesModel.init 0) "suite/test.mean" 100 104 true false None).
  - intros model [].
  - apply Qle_refl.
Defined.

Lemma record_result_raw_only_witness :
  exists r self' averages',
    RelativeResults.record_result (H := plain_builtins) plain_results
      (AveragesModel.init 0) "suite/test.mean" (VNum 100) (VNum 104)
      true false None None None = Ok (r, self', averages')
    /\ Result.score r == 4
    /\ averages_entry averages' "suite/test.mean"
       = (0 + Result.score r, 1%nat).
Proof.
  destruct (RelativeResults.record_result (H := plain_builtins) plain_results
              (AveragesModel.init 0) "suite/test.mean" (VNum 100) (VNum 104)
              true false None None None)
    as [[[r self'] averages']|e] eqn:E; [|vm_compute in E; discriminate E].
  destruct (record_result_raw_only (H := plain_builtins) plain_results self'
              (AveragesModel.init 0) averages' "suite/test.mean" (VNum 100)
              (VNum 104) true false None None None r
              ((104 - 100) / Qabs 100 * 100) (Some 10) eq_refl eq_refl
              E eq_refl) as (S & _ & _ & A).
  exists r, self', averages'. split; [reflexivity|]. split.
  - rewrite S. reflexivity.
  - exact A.
Defined.

Lemma missing_primary_metric_fails_witness :
  exists res self',
    ResultsContainer.add_result_by_path (H := plain_builtins) two_metrics
      "dst" [] [mk_measurement "suite/x.mean" (VNum 104) true []] false
    = Ok (res, self')
    /\ RelativeResults.finish res = 2%Z.
Proof.
  destruct (ResultsContainer.add_result_by_path (H := plain_builtins)
              two_metrics "dst" []
              [mk_measurement "suite/x.mean" (VNum 104) true []] false)
    as [[res self']|e] eqn:E; [|vm_compute in E; discriminate E].
  exists res, self'. split; [reflexivity|].
  apply (missing_primary_metric_fails (H := plain_builtins) _ _ _ _ _ _ _ E).
  left. exists "suite/y.mean", (VNum 50), []. split; [reflexivity|].
  intros [C|[]]. discriminate C.
Defined.

Lemma distance_score_defined_witness :
  exists result,
    Closest.distance_score (H := rational_math) (Some (VNum 10))
      [(Some (VNum 11), None); (Some (VNum 13), None)] = Ok result.
Proof.
  destruct (distance_score_defined (H := rational_math) (Some (VNum 10))
              [(Some (VNum 11), None); (Some (VNum 13), None)])
    as (result & E & _).
  - exists (Some (VNum 11), None). split; [now left | discriminate].
  - exists result. exact E.
Defined.



Lemma expand_grouped_results_appends_witness :
  exists self' averages' new,
    RelativeResults.expand_grouped_results (H := plain_builtins)
      (H0 := fio_regex) fio_results (AveragesModel.init 0)
    = Ok (self', averages')
    /\ RelativeResults.records self' = fio_records
    /\ RelativeResults.grouped_records self' = new
    /\ Forall (fun r => Result.primary r = true) new.
Proof.
  destruct (RelativeResults.expand_grouped_results (H := plain_builtins)
              (H0 := fio_regex) fio_results (AveragesModel.init 0))
    as [[self' averages']|e] eqn:E; [|vm_compute in E; discriminate E].
  destruct (expand_grouped_results_appends (H := plain_builtins)
              (H0 := fio_regex) _ _ _ _ E) as (R & new & G & P & _).
  exists self', averages', new. split; [reflexivity|].
  split; [exact R|]. split; [exact G | exact P].
Defined.

Lemma identify_bounds_samples_witness :
  exists model' e,
    ModelIdentify.identify (H := plain_builtins) 5
      (ModelIdentify.mk_model None []) two_samples = Ok model'
    /\ dict_get (ModelIdentify.tests model') "suite/test.mean" = Some e
    /\ ModelLinearRegression.raw e = Some (average [1; 3])
    /\ - (5) <= fst (ModelLinearRegression.equation e) * 3
                + snd (ModelLinearRegression.equation e) <= 5.
Proof.
  destruct (ModelIdentify.identify (H := plain_builtins) 5
              (ModelIdentify.mk_model None []) two_samples)
    as [model'|e] eqn:E; [|vm_compute in E; discriminate E].
  destruct (identify_bounds_samples (H := plain_builtins) 5
              (ModelIdentify.mk_model None []) model' two_samples
              "suite/test.mean" [1; 3])
    as [(e & Ee & Re & B)|[_ S]].
  - discriminate.
  - exact E.
  - now left.
  - reflexivity.
  - exists model', e. split; [reflexivity|]. split; [exact Ee|].
    split; [exact Re|]. apply B. right. now left.
  - exfalso. assert (C : 1 == 3) by (apply S; [now left | right; now left]).
    discriminate C.
Defined.

Lemma identify_stdev_centres_witness :
  exists model' e,
    ModelIdentify.identify_stdev (H := plain_builtins) (H0 := rational_math)
      5 (ModelIdentify.mk_model None []) two_samples = Ok model'
    /\ dict_get (ModelIdentify.tests model') "suite/test.mean" = Some e
    /\ fst (ModelLinearRegression.equation e) * average [1; 3]
       + snd (ModelLinearRegression.equation e) == 0.
Proof.
  destruct (ModelIdentify.identify_stdev (H := plain_builtins)
              (H0 := rational_math) 5 (ModelIdentify.mk_model None [])
              two_samples)
    as [model'|e] eqn:E; [|vm_compute in E; discriminate E].
  destruct (identify_stdev_centres (H := plain_builtins)
              (H0 := rational_math) 5 (ModelIdentify.mk_model None [])
              model' two_samples "suite/test.mean" [1; 3] E)
    as [(e & u & Ee & _ & _ & Z & _)|[_ S]].
  - now left.
  - reflexivity.
  - exists model', e. split; [reflexivity|]. split; [exact Ee | exact Z].
  - exfalso. vm_compute in S. discriminate S.
Defined.

Lemma identify_no_sample_witness :
  ModelIdentify.identify (H := plain_builtins) 5
    (ModelIdentify.mk_model None []) no_sample = Raise ValueError
  /\ ModelIdentify.identify_stdev (H := plain_builtins) (H0 := rational_math)
       5 (ModelIdentify.mk_model None []) no_sample = Raise ValueError.
Proof.
  apply (identify_no_sample (H := plain_builtins) (H0 := rational_math) 5
           (ModelIdentify.mk_model None []) no_sample "suite/void.mean").
  reflexivity.
Defined.

Lemma identify_skips_text_witness :
  exists model',
    ModelIdentify.identify (H := plain_builtins) 5
      (ModelIdentify.mk_model None []) text_sample = Ok model'
    /\ dict_get (ModelIdentify.tests model') "suite/test.mean" = None.
Proof.
  destruct (ModelIdentify.identify (H := plain_builtins) 5
              (ModelIdentify.mk_model None []) text_sample)
    as [model'|e] eqn:E; [|vm_compute in E; discriminate E].
  exists model'. split; [reflexivity|].
  apply (proj1 (identify_skips_text (H := plain_builtins)
                  (H0 := rational_math) 5 (ModelIdentify.mk_model None [])
                  text_sample "suite/test.mean" ValueError eq_refl)
           model' E).
Defined.

Lemma expand_unmatched_name_raises_witness :
  exists r self' averages',
    RelativeResults.record_result (H := plain_builtins) plain_results
      (AveragesModel.init 0) "suite/test.mean" (VNum 100) (VNum 104)
      true false None None None = Ok (r, self', averages')
    /\ RelativeResults.expand_grouped_results (H := plain_builtins)
         (H0 := fio_regex) self' averages' = Raise TypeError.
Proof.
  destruct (RelativeResults.record_result (H := plain_builtins) plain_results
              (AveragesModel.init 0) "suite/test.mean" (VNum 100) (VNum 104)
              true false None None None)
    as [[[r self'] averages']|e] eqn:E; [|vm_compute in E; discriminate E].
  exists r, self', averages'. split; [reflexivity|].
  vm_compute in E. injection E as <- <- <-.
  eapply (expand_unmatched_name_raises (H := plain_builtins)
            (H0 := fio_regex)).
  - now left.
  - reflexivity.
  - reflexivity.
Defined.

Lemma parse_metadata_last_line_witness :
  Metadata.item
    (Metadata._parse_metadata
       (Some (["# machine"; "distro:Fedora 32"]
              ++ ("distro" ++ ":" ++ "Fedora 33")%string
                 :: ["kernel:5.6"])%list))
    "distro"
  = "Fedora 33".
Proof.
  apply (parse_metadata_last_line ["# machine"; "distro:Fedora 32"]
           ["kernel:5.6"] "distro" "Fedora 33" eq_refl eq_refl).
  intros line [<-|[]]. reflexivity.
Defined.

Lemma parse_metadata_unknown_witness :
  Metadata.item (Metadata._parse_metadata (Some metadata_lines)) "machine"
  = "Unknown".
Proof.
  apply (parse_metadata_unknown (Some metadata_lines) "machine").
  intros lines line [= <-] [<-|[<-|[<-|[<-|[]]]]]; reflexivity.
Defined.

Lemma identify_returns_witness :
  exists model',
    ModelIdentify.identify (H := plain_builtins) 5
      (ModelIdentify.mk_model None []) text_sample = Ok model'.
Proof.
  destruct (identify_returns (H := plain_builtins) (H0 := rational_math) 5
              (ModelIdentify.mk_model None []) text_sample)
    as ((model' & E & _) & _).
  - intros test. unfold text_sample. cbn [dict_get].
    destruct (String.eqb "suite/test.mean" test); discriminate.
  - exists model'. exact E.
Defined.

Lemma closest_result_returns_witness :
  exists r,
    Closest.closest_result (H := plain_builtins) (H0 := rational_math)
      noisy_src noisy_dsts = Ok r
    /\ (r < 2)%nat.
Proof.
  apply (closest_result_returns (H := plain_builtins) (H0 := rational_math)
           noisy_src noisy_dsts).
  - intros x P. cbn [math_sqrt rational_math]. cbv zeta.
    assert (S : 0 < (1 + x) / 2) by (apply Qlt_shift_div_l; lra).
    assert (D : 0 < x / ((1 + x) / 2)) by (apply Qlt_shift_div_l; lra).
    assert (T : 0 < ((1 + x) / 2 + x / ((1 + x) / 2)) / 2)
      by (apply Qlt_shift_div_l; lra).
    lra.
  - reflexivity.
  - discriminate.
  - repeat constructor; eexists; (split; [reflexivity|]); intros _;
      discriminate.
  - intros l1 m l2 E S.
    destruct l1 as [|a [|b [|c l1]]]; cbn in E.
    + injection E as <- _. discriminate S.
    + injection E as <- <- _. eexists. split; [now left|].
      split; reflexivity.
    + injection E as _ _ E. discriminate E.
    + injection E as _ _ E. destruct l1; discriminate E.
  - repeat constructor; eexists; (split; [reflexivity|]); intros _;
      discriminate.
Defined.

(** The four tables of [test_tabular_output]. *)
Example tabular_output_selftest :
  Tabular.tabular_output [] [] = Ok EmptyString
  /\ Tabular.tabular_output [["b"]; []] [] = Ok "b"
  /\ Tabular.tabular_output [["a"; "aa"; "aaa"]; ["bbb"; "bb"; "b"]] []
     = Ok ("a   aa aaa" ++ Tabular.LF ++ "bbb bb b")
  /\ Tabular.tabular_output ragged_matrix [""; "HEADER"]
     = Ok ("    HEADER" ++ Tabular.LF ++ "a   aa     aaa" ++ Tabular.LF
           ++ "bbb bb").
Proof. repeat split; reflexivity. Qed.

Lemma columns_aligned_witness :
  exists line,
    Tabular.join_row
      (Tabular.scan (Tabular.get_matrix ragged_matrix [""; "HEADER"]))
      ["a"; "aa"; "aaa"] = Ok (Some line)
    /\ substring 11 3 line = "aaa".
Proof.
  destruct (columns_aligned ragged_matrix [""; "HEADER"] ["a"; "aa"; "aaa"] 2)
    as (line & lines & J & _ & _ & S).
  - right. now left.
  - cbn. lia.
  - exists line. split; [exact J | exact S].
Defined.

